(** * collective.whathappened: the SQLite storage backend

    A shallow embedding of [storage_backend.py].  The three tables are lists
    of rows in insertion order, every [self.db.execute] is a function on the
    connection, and the methods of [SqliteStorageBackend] are written in a
    small state-and-exception monad in which, as in Python, the state reached
    when an exception is raised is kept.  What SQLite does to a value bound
    to the [who] column, which the schema declares INTEGER, is a parameter
    of the development ([WhoColumn]). *)

From Stdlib Require Import String Ascii List ZArith Bool Lia Sorted Permutation.
From Stdlib Require Import DecimalString.
Import ListNotations.
Local Open Scope string_scope.
Local Open Scope Z_scope.

(** ** Exceptions and results *)

Inductive exn : Type :=
| IntegrityError    (* sqlite3.IntegrityError: a constraint failed *)
| OperationalError  (* sqlite3.OperationalError: the statement does not parse *)
| AttributeError    (* attribute access on None *)
| TypeError.        (* subscript of None *)

Definition exn_eqb (a b : exn) : bool :=
  match a, b with
  | IntegrityError, IntegrityError | OperationalError, OperationalError
  | AttributeError, AttributeError | TypeError, TypeError => true
  | _, _ => false
  end.

Inductive result (A : Type) : Type :=
| Ok (a : A)
| Raise (e : exn).
Arguments Ok {A} a.
Arguments Raise {A} e.

(** ** The json module, as far as the backend uses it *)

(** [json_dumps] serialises a payload to text, [json_loads] reads the text of
    the [info] column back (the column only receives what [json_dumps]
    returned), and [py_None] is the payload None. *)
Class Json (Info : Type) : Type := {
  json_dumps : Info -> string;
  json_loads : string -> Info;
  py_None : Info
}.

(** The payload None: [json.dumps(None)] is the text null, which loads back
    to None. *)
#[local] Instance null_payload : Json unit :=
  {| json_dumps := fun _ => "null"; json_loads := fun _ => tt; py_None := tt |}.

(** ** Entities *)

(** Modelled from the spec: [notification.py] under src/ is an older revision
    of the class (five constructor arguments); the backend constructs
    [Notification(what, where, when, who, user, gatherer, seen, info)] and
    calls [getWhenTimestamp()], "the integer timestamp form of when".  A
    datetime is represented by its epoch second, so [getWhenTimestamp] and
    [datetime.fromtimestamp] are the identity on that representation. *)
Record Notification {Info : Type} : Type := {
  what : string;
  where_ : string;
  when : Z;
  who : list string;
  user : option string;
  gatherer : string;
  seen : bool;
  info : Info
}.
Arguments Notification Info : clear implicits.

Definition getWhenTimestamp {Info} (n : Notification Info) : Z := when n.
Definition fromtimestamp (t : Z) : Z := t.

(** [datetime.timedelta(7)], in seconds. *)
Definition timedelta (days : Z) : Z := days * 86400.

(** Modelled from the spec: [subscription.py] is not under src/.  A
    Subscription is constructed from (where, wants) and only carries the two
    fields; [wants] is True, False or None. *)
Record Subscription : Type := {
  sub_where : string;
  wants : option bool
}.

(** Modelled from the spec: [event.py] is not under src/.  The two outbound
    domain events, each keyed by [where]. *)
Inductive Event : Type :=
| SubscribedEvent (where_ : string)
| BlacklistedEvent (where_ : string).

(** ** Tables *)

(** notifications(what, when, where, seen, gatherer, info),
    PRIMARY KEY(what, when, where).  [info] is nullable on the read side
    ([_createNotificationFromResult] tests it against None). *)
Record notifications_row : Type := {
  n_what : string;
  n_when : Z;
  n_where : string;
  n_seen : bool;
  n_gatherer : string;
  n_info : option string
}.

(** notifications_who(what, when, where, who),
    PRIMARY KEY(what, when, where, who),
    FOREIGN KEY(what, when, where) REFERENCES notifications ON DELETE CASCADE.
    The same record holds the four values bound to an INSERT.  In a row of
    the table [w_who] is the value that the column stores, which is not
    always the text that was bound (see [WhoColumn]). *)
Record who_row : Type := {
  w_what : string;
  w_when : Z;
  w_where : string;
  w_who : string
}.

(** subscriptions(where PRIMARY KEY, wants). *)
Record subscriptions_row : Type := {
  s_where : string;
  s_wants : option bool
}.

(** An open connection.  [foreign_keys] is the connection's PRAGMA of that
    name: [sqlite3.connect] leaves it at the library's default and the
    backend never sets it, so both values are covered. *)
Record Connection : Type := {
  foreign_keys : bool;
  notifications : list notifications_row;
  notifications_who : list who_row;
  subscriptions : list subscriptions_row
}.

Definition set_notifications (c : Connection) (l : list notifications_row)
  : Connection :=
  {| foreign_keys := foreign_keys c; notifications := l;
     notifications_who := notifications_who c;
     subscriptions := subscriptions c |}.

Definition set_notifications_who (c : Connection) (l : list who_row)
  : Connection :=
  {| foreign_keys := foreign_keys c; notifications := notifications c;
     notifications_who := l; subscriptions := subscriptions c |}.

Definition set_subscriptions (c : Connection) (l : list subscriptions_row)
  : Connection :=
  {| foreign_keys := foreign_keys c; notifications := notifications c;
     notifications_who := notifications_who c; subscriptions := l |}.

(** The key (what, when, where) shared by the two notification tables. *)
Definition key : Type := (string * Z * string)%type.

Definition key_eqb (a b : key) : bool :=
  let '(a1, a2, a3) := a in
  let '(b1, b2, b3) := b in
  String.eqb a1 b1 && Z.eqb a2 b2 && String.eqb a3 b3.

Arguments key_eqb : simpl never.

Definition n_key (r : notifications_row) : key := (n_what r, n_when r, n_where r).
Definition w_key (r : who_row) : key := (w_what r, w_when r, w_where r).

(** ** The who column *)

(** [initialize] declares [notifications_who.who] INTEGER.  SQLite therefore
    converts a text bound to the column that has the form of a number, and
    two actors that are converted to the same number are one value of the
    primary key: '007' is stored as the integer 7, and so is '7'.  A text
    that is not a number is stored as it is.

    A stored value is written here as a text that identifies it: two stored
    values are the same exactly when their texts are.  [integer_affinity]
    is the value stored for a text bound to the column, [who_text] the text
    that GROUP_CONCAT writes for a stored value, and [index_leb] the order of
    the stored values in the index of the primary key (numbers in numeric
    order before texts in byte order). *)
Class WhoColumn : Type := {
  integer_affinity : string -> string;
  who_text : string -> string;
  index_leb : string -> string -> bool
}.

(** The column on actor identifiers that are names or integer literals: an
    optional sign and decimal digits, with white space around them, within
    the 64-bit range are stored as that integer, written in decimal; any
    other text is stored as it is.  Texts in the other number forms of SQL
    (a fraction, an exponent, or an integer beyond 64 bits), which SQLite
    stores as floating-point values, are not in the domain of this
    instance; it is used for the concrete stores at the end, whose actors
    are names. *)
Definition is_digit (c : ascii) : bool :=
  let n := nat_of_ascii c in (Nat.leb 48 n && Nat.leb n 57)%bool.

(** The characters that SQLite skips around a number. *)
Definition sql_space (c : ascii) : bool :=
  let n := nat_of_ascii c in (Nat.eqb n 32 || (Nat.leb 9 n && Nat.leb n 13))%bool.

Fixpoint skip_sql_spaces (s : string) : string :=
  match s with
  | String c s' => if sql_space c then skip_sql_spaces s' else s
  | EmptyString => EmptyString
  end.

(** The value of a run of digits followed by white space only; [started]
    tells whether a digit was read. *)
Fixpoint digits_value (s : string) (acc : Z) (started : bool) : option Z :=
  match s with
  | EmptyString => if started then Some acc else None
  | String c s' =>
      if is_digit c
      then digits_value s' (10 * acc + Z.of_nat (nat_of_ascii c - 48)) true
      else if (started && sql_space c)%bool
      then match skip_sql_spaces s' with
           | EmptyString => Some acc
           | _ => None
           end
      else None
  end.

Definition integer_literal (s : string) : option Z :=
  let v :=
    match skip_sql_spaces s with
    | String c s' =>
        if Ascii.eqb c "-" then option_map Z.opp (digits_value s' 0 false)
        else if Ascii.eqb c "+" then digits_value s' 0 false
        else digits_value (String c s') 0 false
    | EmptyString => None
    end in
  match v with
  | Some z =>
      if ((- 9223372036854775808 <=? z) && (z <=? 9223372036854775807))%bool
      then Some z else None
  | None => None
  end.

Definition decimal (z : Z) : string := NilZero.string_of_int (Z.to_int z).

Definition names_affinity (s : string) : string :=
  match integer_literal s with
  | Some z => decimal z
  | None => s
  end.

Definition names_index_leb (a b : string) : bool :=
  match integer_literal a, integer_literal b with
  | Some x, Some y => x <=? y
  | Some _, None => true
  | None, Some _ => false
  | None, None => String.leb a b
  end.

Definition names_column : WhoColumn :=
  {| integer_affinity := names_affinity;
     who_text := fun v => v;
     index_leb := names_index_leb |}.

(** ** The backend object and the monad of its methods *)

(** [self.user], [self.db] (None while no session is open), and the events
    handed to [zope.event.notify] so far. *)
Record Backend : Type := {
  self_user : option string;
  self_db : option Connection;
  notified : list Event
}.

Definition set_db (s : Backend) (c : Connection) : Backend :=
  {| self_user := self_user s; self_db := Some c; notified := notified s |}.

Definition M (A : Type) : Type := Backend -> result A * Backend.

Definition ret {A} (a : A) : M A := fun s => (Ok a, s).

Definition raise {A} (e : exn) : M A := fun s => (Raise e, s).

Definition bind {A B} (m : M A) (k : A -> M B) : M B :=
  fun s =>
    match m s with
    | (Ok a, s') => k a s'
    | (Raise e, s') => (Raise e, s')
    end.

Declare Scope backend_scope.
Delimit Scope backend_scope with backend.
Notation "x <- m ;; k" := (bind m (fun x => k))
  (at level 100, m at next level, right associativity) : backend_scope.
Notation "m ;; k" := (bind m (fun _ => k))
  (at level 100, right associativity) : backend_scope.
Local Open Scope backend_scope.

(** [try: m except e: h] *)
Definition try_except {A} (m : M A) (e : exn) (h : M A) : M A :=
  fun s =>
    match m s with
    | (Ok a, s') => (Ok a, s')
    | (Raise e', s') => if exn_eqb e e' then h s' else (Raise e', s')
    end.

(** [try: m except: h] (a bare except) *)
Definition try_except_any {A} (m : M A) (h : M A) : M A :=
  fun s =>
    match m s with
    | (Ok a, s') => (Ok a, s')
    | (Raise _, s') => h s'
    end.

(** [for x in l: body(x)] *)
Fixpoint for_each {A} (l : list A) (body : A -> M unit) : M unit :=
  match l with
  | [] => ret tt
  | x :: l' => body x ;; for_each l' body
  end.

Definition get_db : M (option Connection) := fun s => (Ok (self_db s), s).
Definition get_user : M (option string) := fun s => (Ok (self_user s), s).

(** [event.notify(e)] *)
Definition notify (e : Event) : M unit :=
  fun s => (Ok tt, {| self_user := self_user s; self_db := self_db s;
                      notified := notified s ++ [e] |}).

(** ** NullBackend *)

Module NullBackend.

Section Null.

Context {Info : Type}.

Definition initialize : M unit := ret tt.
Definition terminate : M unit := ret tt.
Definition validateBackend : M bool := ret true.
Definition setUser (usr : option string) : M unit := ret tt.
Definition getUser : M string := ret "".
Definition storeNotification (notification : Notification Info) : M unit := ret tt.
Definition removeNotification (notification : Notification Info) : M unit := ret tt.
Definition getHotNotifications : M (list (Notification Info)) := ret [].
Definition getAllNotifications : M (list (Notification Info)) := ret [].
Definition getUnseenNotifications : M (list (Notification Info)) := ret [].
Definition setSeen (path : option string) : M unit := ret tt.
Definition getUnseenCount : M Z := ret 0.
Definition getLastNotificationTime (now : Z) : M Z := ret now.
Definition clean (now : Z) : M unit := ret tt.
Definition saveSubscription (subscription : Subscription) : M unit := ret tt.
Definition getSubscription (where_ : string) : M (option Subscription) := ret None.
Definition getSubscriptions : M (list Subscription) := ret [].

End Null.

End NullBackend.

(** ** Statements *)

(** The leading keyword of a statement's text, in upper case. *)
Definition is_space (c : ascii) : bool :=
  let n := nat_of_ascii c in
  (Nat.eqb n 32 || Nat.eqb n 9 || Nat.eqb n 10 || Nat.eqb n 13)%bool.

Definition to_upper (c : ascii) : ascii :=
  let n := nat_of_ascii c in
  if (Nat.leb 97 n && Nat.leb n 122)%bool then ascii_of_nat (n - 32) else c.

Definition to_lower (c : ascii) : ascii :=
  let n := nat_of_ascii c in
  if (Nat.leb 65 n && Nat.leb n 90)%bool then ascii_of_nat (n + 32) else c.

Definition is_letter (c : ascii) : bool :=
  let n := nat_of_ascii (to_upper c) in (Nat.leb 65 n && Nat.leb n 90)%bool.

Fixpoint skip_spaces (s : string) : string :=
  match s with
  | String c s' => if is_space c then skip_spaces s' else s
  | EmptyString => EmptyString
  end.

Fixpoint take_word (s : string) : string :=
  match s with
  | String c s' =>
      if is_letter c then String (to_upper c) (take_word s') else EmptyString
  | EmptyString => EmptyString
  end.

Definition leading_keyword (sql : string) : string := take_word (skip_spaces sql).

(** The keywords an SQLite statement can start with. *)
Definition statement_keywords : list string :=
  ["ALTER"; "ANALYZE"; "ATTACH"; "BEGIN"; "COMMIT"; "CREATE"; "DELETE";
   "DETACH"; "DROP"; "END"; "EXPLAIN"; "INSERT"; "PRAGMA"; "REINDEX";
   "RELEASE"; "REPLACE"; "ROLLBACK"; "SAVEPOINT"; "SELECT"; "UPDATE";
   "VACUUM"; "VALUES"; "WITH"].

Definition sqlite_accepts (sql : string) : bool :=
  existsb (String.eqb (leading_keyword sql)) statement_keywords.

(** What a statement does to the connection once it is prepared.  A statement
    that fails changes nothing. *)
Definition statement (A : Type) : Type := Connection -> result (A * Connection).

(** [self.db.execute(sql, ...)]: AttributeError when [self.db] is None,
    OperationalError when the text is not a statement, otherwise the
    statement's effect. *)
Definition execute {A} (sql : string) (st : statement A) : M A :=
  fun s =>
    match self_db s with
    | None => (Raise AttributeError, s)
    | Some c =>
        if sqlite_accepts sql then
          match st c with
          | Ok (a, c') => (Ok a, set_db s c')
          | Raise e => (Raise e, s)
          end
        else (Raise OperationalError, s)
    end.

(** [cursor.fetchone()] and the subscript of its result. *)
Definition fetchone {R} (rows : list R) : option R := hd_error rows.
Definition fetchall {R} (rows : list R) : list R := rows.

Definition subscript {R} (row : option R) : M R :=
  match row with
  | Some r => ret r
  | None => raise TypeError
  end.

(** From here to the end of the section the development holds for every
    behaviour of the who column. *)
Section Column.

Context {column : WhoColumn}.

(** *** Ordering, grouping and aggregation *)

(** ORDER BY: a stable insertion sort by the comparison [leb] (the order of
    rows that compare equal is not fixed by SQL; this is one admissible
    choice). *)
Fixpoint insert_sorted {R} (leb : R -> R -> bool) (x : R) (l : list R) : list R :=
  match l with
  | [] => [x]
  | y :: l' => if leb x y then x :: l else y :: insert_sorted leb x l'
  end.

Definition order_by {R} (leb : R -> R -> bool) (l : list R) : list R :=
  fold_right (insert_sorted leb) [] l.

(** A row of [notifications n JOIN notifications_who nw]: the columns of [n]
    and [nw.who], NULL where a LEFT JOIN found no partner. *)
Definition joined_row : Type := (notifications_row * option string)%type.

Definition partners (c : Connection) (n : notifications_row) : list who_row :=
  filter (fun w => key_eqb (n_key n) (w_key w)) (notifications_who c).

Definition inner_join (c : Connection) : list joined_row :=
  flat_map (fun n => map (fun w => (n, Some (w_who w))) (partners c n))
           (notifications c).

Definition left_join (c : Connection) : list joined_row :=
  flat_map (fun n =>
              match partners c n with
              | [] => [(n, None)]
              | ws => map (fun w => (n, Some (w_who w))) ws
              end)
           (notifications c).

(** The columns selected by the three notification queries. *)
Record result_row : Type := {
  r_what : string;
  r_when : Z;
  r_where : string;
  r_who : option string;
  r_gatherer : string;
  r_seen : bool;
  r_info : option string
}.

Fixpoint non_null {A} (l : list (option A)) : list A :=
  match l with
  | [] => []
  | Some a :: l' => a :: non_null l'
  | None :: l' => non_null l'
  end.

(** GROUP_CONCAT(nw.who, sep): the texts of the non-NULL values joined by
    [sep], NULL when there is none.  SQL leaves the order of the values
    open; SQLite reads the actor rows of a notification through the index of
    the primary key of notifications_who, so the values of a group come in
    the order of that index and not in the order of their insertion. *)
Definition group_concat (sep : string) (vals : list (option string))
  : option string :=
  match map who_text (order_by index_leb (non_null vals)) with
  | [] => None
  | v :: vs => Some (fold_left (fun acc x => acc ++ sep ++ x) vs v)
  end.

Definition same_group (a b : joined_row) : bool :=
  key_eqb (n_key (fst a)) (n_key (fst b)).

(** One row per group of GROUP BY n.what, n.when, n.where: the row of the
    group met last.  The bare columns [gatherer], [seen], [info] are read
    from it; the primary key of [notifications] makes them the same on all
    rows of the group. *)
Fixpoint group_heads (l : list joined_row) : list joined_row :=
  match l with
  | [] => []
  | j :: l' => if existsb (same_group j) l' then group_heads l'
               else j :: group_heads l'
  end.

Definition aggregate (j : joined_row) (g : list joined_row) : result_row :=
  {| r_what := n_what (fst j);
     r_when := n_when (fst j);
     r_where := n_where (fst j);
     r_who := group_concat ", " (map snd g);
     r_gatherer := n_gatherer (fst j);
     r_seen := n_seen (fst j);
     r_info := n_info (fst j) |}.

Definition group_by_key (l : list joined_row) : list result_row :=
  map (fun j => aggregate j (filter (same_group j) l)) (group_heads l).

(** ORDER BY n.seen ASC, n.when DESC: [a] may come before [b]. *)
Definition hot_leb (a b : result_row) : bool :=
  if Bool.eqb (r_seen a) (r_seen b) then r_when b <=? r_when a
  else negb (r_seen a).

(** ORDER BY n.when DESC *)
Definition when_desc_leb (a b : result_row) : bool := r_when b <=? r_when a.

(** *** The statements of the backend *)

Definition select_count (p : notifications_row -> bool) : statement (list Z) :=
  fun c => Ok ([Z.of_nat (length (filter p (notifications c)))], c).

Definition select_when (p : notifications_row -> bool) : statement (list Z) :=
  fun c => Ok (map n_when (filter p (notifications c)), c).

Definition select_last_when : statement (list Z) :=
  fun c => Ok (firstn 1 (order_by (fun a b => b <=? a)
                                  (map n_when (notifications c))), c).

Definition select_hot : statement (list result_row) :=
  fun c => Ok (firstn 5 (order_by hot_leb (group_by_key (left_join c))), c).

Definition select_all : statement (list result_row) :=
  fun c => Ok (order_by when_desc_leb (group_by_key (inner_join c)), c).

Definition select_unseen : statement (list result_row) :=
  fun c => Ok (order_by when_desc_leb
                 (group_by_key
                    (filter (fun j => negb (n_seen (fst j))) (inner_join c))),
               c).

(** INSERT INTO notifications: the primary key must be new. *)
Definition insert_notification (r : notifications_row) : statement unit :=
  fun c =>
    if existsb (fun n => key_eqb (n_key r) (n_key n)) (notifications c)
    then Raise IntegrityError
    else Ok (tt, set_notifications c (notifications c ++ [r])).

(** The row stored for the values [r] bound to an INSERT INTO
    notifications_who: the who column converts the text bound to it. *)
Definition stored_who (r : who_row) : who_row :=
  {| w_what := w_what r; w_when := w_when r; w_where := w_where r;
     w_who := integer_affinity (w_who r) |}.

(** INSERT INTO notifications_who of the bound values [r]: the primary key
    of the row to store, with the who value as the column stores it, must be
    new and, when foreign keys are enforced, the notification must exist. *)
Definition insert_who (r : who_row) : statement unit :=
  fun c =>
    if existsb (fun w => key_eqb (w_key r) (w_key w)
                         && String.eqb (integer_affinity (w_who r)) (w_who w))
               (notifications_who c)
    then Raise IntegrityError
    else if foreign_keys c
            && negb (existsb (fun n => key_eqb (w_key r) (n_key n)) (notifications c))
    then Raise IntegrityError
    else Ok (tt, set_notifications_who c (notifications_who c ++ [stored_who r])).

(** DELETE FROM notifications WHERE p; ON DELETE CASCADE removes the actor
    rows of the deleted notifications when foreign keys are enforced. *)
Definition delete_notifications (p : notifications_row -> bool) : statement unit :=
  fun c =>
    let gone := filter p (notifications c) in
    Ok (tt,
        {| foreign_keys := foreign_keys c;
           notifications := filter (fun n => negb (p n)) (notifications c);
           notifications_who :=
             if foreign_keys c
             then filter (fun w => negb (existsb (fun n => key_eqb (n_key n) (w_key w)) gone))
                         (notifications_who c)
             else notifications_who c;
           subscriptions := subscriptions c |}).

Definition mark_seen (r : notifications_row) : notifications_row :=
  {| n_what := n_what r; n_when := n_when r; n_where := n_where r;
     n_seen := true; n_gatherer := n_gatherer r; n_info := n_info r |}.

(** UPDATE notifications SET seen = 1 WHERE p *)
Definition update_seen (p : notifications_row -> bool) : statement unit :=
  fun c =>
    Ok (tt, set_notifications c
              (map (fun r => if p r then mark_seen r else r) (notifications c))).

Definition select_subscriptions (p : subscriptions_row -> bool)
  : statement (list subscriptions_row) :=
  fun c => Ok (filter p (subscriptions c), c).

Definition delete_subscription (w : string) : statement unit :=
  fun c =>
    Ok (tt, set_subscriptions c
              (filter (fun r => negb (String.eqb (s_where r) w)) (subscriptions c))).

Definition insert_subscription (r : subscriptions_row) : statement unit :=
  fun c =>
    if existsb (fun x => String.eqb (s_where r) (s_where x)) (subscriptions c)
    then Raise IntegrityError
    else Ok (tt, set_subscriptions c (subscriptions c ++ [r])).

Definition update_subscription (v : option bool) (w : string) : statement unit :=
  fun c =>
    Ok (tt, set_subscriptions c
              (map (fun r => if String.eqb (s_where r) w
                             then {| s_where := s_where r; s_wants := v |}
                             else r)
                   (subscriptions c))).

(** x LIKE pattern, as SQLite evaluates it by default: [%] matches any run of
    characters, [_] any single character, any other character itself up to
    the case of ASCII letters; there is no escape character. *)
Fixpoint like (pattern : string) (x : string) : bool :=
  match pattern with
  | EmptyString => match x with EmptyString => true | _ => false end
  | String p pattern' =>
      if Ascii.eqb p "%" then
        (fix any_run (x : string) : bool :=
           like pattern' x
           || match x with
              | EmptyString => false
              | String _ x' => any_run x'
              end) x
      else
        match x with
        | EmptyString => false
        | String a x' =>
            (Ascii.eqb p "_" || Ascii.eqb (to_lower p) (to_lower a))
            && like pattern' x'
        end
  end.

(** [s.split(sep)] for a non-empty separator. *)
Fixpoint split_from (sep s : string) (skip : nat) (acc : string) : list string :=
  match s with
  | EmptyString => [acc]
  | String ch s' =>
      match skip with
      | S k => split_from sep s' k acc
      | O => if String.prefix sep s
             then acc :: split_from sep s' (String.length sep - 1)%nat ""
             else split_from sep s' 0%nat (acc ++ String ch EmptyString)
      end
  end.

Definition split (s sep : string) : list string := split_from sep s 0%nat "".

(** ** SqliteStorageBackend *)

Section SqliteStorageBackend.

Context {Info : Type} `{Json Info}.

Definition matches_unseen (n : Notification Info) (r : notifications_row) : bool :=
  String.eqb (n_what r) (what n) && String.eqb (n_where r) (where_ n)
  && match n_info r with
     | Some t => String.eqb t (json_dumps (info n))
     | None => false
     end
  && negb (n_seen r).

Definition _notificationExist (n : Notification Info) : M bool :=
  cur <- execute
           "SELECT COUNT(*) FROM notifications WHERE `what` = ? AND `where` = ? AND `info` = ? AND seen = 0"
           (select_count (matches_unseen n)) ;;
  count <- subscript (fetchone cur) ;;
  if 0 <? count then ret true else ret false.

(** The values bound to the INSERT of the actor [w] of [n]. *)
Definition who_row_of (n : Notification Info) (w : string) : who_row :=
  {| w_what := what n; w_when := getWhenTimestamp n; w_where := where_ n;
     w_who := w |}.

Definition _updateNotification (n : Notification Info) : M unit :=
  cur <- execute
           "SELECT `when` FROM notifications WHERE `what` = ? AND `where` = ? and seen = 0"
           (select_when (fun r => String.eqb (n_what r) (what n)
                                  && String.eqb (n_where r) (where_ n)
                                  && negb (n_seen r))) ;;
  _ <- subscript (fetchone cur) ;;
  for_each (who n)
    (fun w =>
       try_except
         (execute
            "INSERT INTO notifications_who (`what`, `when`, `where`, `who`) VALUES (?, ?, ?, ?)"
            (insert_who (who_row_of n w)))
         IntegrityError
         (ret tt)).

Definition notifications_row_of (n : Notification Info) : notifications_row :=
  {| n_what := what n; n_when := getWhenTimestamp n; n_where := where_ n;
     n_seen := seen n; n_gatherer := gatherer n;
     n_info := Some (json_dumps (info n)) |}.

Definition _createNotification (n : Notification Info) : M unit :=
  execute
    "INSERT INTO notifications (`what`, `when`, `where`, `seen`, `gatherer`, `info`) VALUES (?, ?, ?, ?, ?, ?)"
    (insert_notification (notifications_row_of n)) ;;
  for_each (who n)
    (fun w =>
       execute
         "INSERT INTO notifications_who (`what`, `when`, `where`, `who`) VALUES (?, ?, ?, ?)"
         (insert_who (who_row_of n w))).

Definition storeNotification (n : Notification Info) : M unit :=
  d <- get_db ;;
  match d with
  | None => ret tt
  | Some _ =>
      try_except
        (exist <- _notificationExist n ;;
         if exist then _updateNotification n else _createNotification n)
        IntegrityError
        (ret tt)
  end.

Definition removeNotification (n : Notification Info) : M unit :=
  d <- get_db ;;
  match d with
  | None => ret tt
  | Some _ =>
      try_except
        (execute
           "DELETE FROM notifications WHERE `what` = ? AND `when` = ? AND `where` = ?"
           (delete_notifications
              (fun r => String.eqb (n_what r) (what n)
                        && Z.eqb (n_when r) (getWhenTimestamp n)
                        && String.eqb (n_where r) (where_ n))))
        IntegrityError
        (ret tt)
  end.

Definition _createNotificationFromResult (self_user : option string)
    (r : result_row) : Notification Info :=
  {| what := r_what r;
     where_ := r_where r;
     when := fromtimestamp (r_when r);
     who := match r_who r with
            | None => []
            | Some s => split s ", "
            end;
     user := self_user;
     gatherer := r_gatherer r;
     seen := r_seen r;
     info := match r_info r with
             | None => py_None
             | Some t => json_loads t
             end |}.

Definition getHotNotifications : M (list (Notification Info)) :=
  d <- get_db ;;
  match d with
  | None => ret []
  | Some _ =>
      cur <- execute
               "SELECT n.`what`, n.`when`, n.`where`, GROUP_CONCAT(nw.`who`, ', ') as `who`, n.`gatherer`, n.`seen`, n.`info` FROM notifications n LEFT JOIN notifications_who nw ON n.`what` = nw.`what` AND n.`when` = nw.`when` AND n.`where` = nw.`where` GROUP BY n.`what`, n.`when`, n.`where` ORDER BY n.`seen` ASC, n.`when` DESC LIMIT 5"
               select_hot ;;
      u <- get_user ;;
      ret (map (_createNotificationFromResult u) (fetchall cur))
  end.

Definition getAllNotifications : M (list (Notification Info)) :=
  d <- get_db ;;
  match d with
  | None => ret []
  | Some _ =>
      cur <- execute
               "SELECT n.`what`, n.`when`, n.`where`, GROUP_CONCAT(nw.`who`, ', ') as `who`, n.`gatherer`, n.`seen`, n.`info` FROM notifications n INNER JOIN notifications_who nw ON n.`what` = nw.`what` AND n.`when` = nw.`when` AND n.`where` = nw.`where` GROUP BY n.`what`, n.`when`, n.`where` ORDER BY n.`when` DESC"
               select_all ;;
      u <- get_user ;;
      ret (map (_createNotificationFromResult u) (fetchall cur))
  end.

Definition getUnseenNotifications : M (list (Notification Info)) :=
  d <- get_db ;;
  match d with
  | None => ret []
  | Some _ =>
      cur <- execute
               "SELECT n.`what`, n.`when`, n.`where`, GROUP_CONCAT(nw.`who`, ', ') as `who`, n.`gatherer`, n.`seen`, n.`info` FROM notifications n INNER JOIN notifications_who nw ON n.`what` = nw.`what` AND n.`when` = nw.`when` AND n.`where` = nw.`where` WHERE n.`seen` = 0 GROUP BY n.`what`, n.`when`, n.`where` ORDER BY n.`when` DESC"
               select_unseen ;;
      u <- get_user ;;
      ret (map (_createNotificationFromResult u) (fetchall cur))
  end.

Definition setSeen (path : option string) : M unit :=
  match path with
  | None =>
      execute "UPDATE notifications SET seen = 1" (update_seen (fun _ => true))
  | Some p =>
      execute "UPDATE notifications SET seen = 1 WHERE `where` = ?"
              (update_seen (fun r => String.eqb (n_where r) p))
  end.

(** [now] is the value of [datetime.datetime.now()] at the call. *)
Definition clean (now : Z) : M unit :=
  let lastWeek := now - timedelta 7 in
  let timestamp := lastWeek in
  execute "REMOVE FROM notifications WHERE `when` < ?"
          (delete_notifications (fun r => n_when r <? timestamp)).

Definition getUnseenCount : M Z :=
  d <- get_db ;;
  match d with
  | None => ret 0
  | Some _ =>
      query <- execute "SELECT COUNT(*) FROM notifications WHERE `seen` = 0"
                       (select_count (fun r => negb (n_seen r))) ;;
      unseen <- subscript (fetchone query) ;;
      ret unseen
  end.

Definition getLastNotificationTime (now : Z) : M Z :=
  try_except_any
    (cur <- execute "SELECT `when` FROM notifications ORDER BY `when` DESC LIMIT 1"
                    select_last_when ;;
     result <- subscript (fetchone cur) ;;
     ret (fromtimestamp result))
    (ret (now - timedelta 7)).

(** Python truth of [subscription.wants]. *)
Definition truthy (w : option bool) : bool :=
  match w with
  | Some true => true
  | _ => false
  end.

(** The argument is a Subscription object, so the two [subscription is None]
    tests of the method are false. *)
Definition saveSubscription (subscription : Subscription) : M unit :=
  try_except
    (match wants subscription with
     | None =>
         execute "DELETE FROM subscriptions WHERE `where` = ?"
                 (delete_subscription (sub_where subscription))
     | Some _ =>
         execute "INSERT INTO subscriptions (`where`, `wants`) VALUES (?, ?)"
                 (insert_subscription
                    {| s_where := sub_where subscription;
                       s_wants := wants subscription |})
     end)
    IntegrityError
    (execute "UPDATE subscriptions SET `wants` = ? WHERE `where` = ?"
             (update_subscription (wants subscription) (sub_where subscription))) ;;
  (if negb (truthy (wants subscription)) then
     execute "DELETE FROM notifications WHERE `where` LIKE ?"
             (delete_notifications
                (fun r => like (sub_where subscription ++ "%") (n_where r)))
   else ret tt) ;;
  if truthy (wants subscription)
  then notify (SubscribedEvent (sub_where subscription))
  else notify (BlacklistedEvent (sub_where subscription)).

Definition _createSubscriptionFromResult (r : subscriptions_row) : Subscription :=
  {| sub_where := s_where r;
     wants := Some (match s_wants r with Some true => true | _ => false end) |}.

Definition getSubscription (where_ : string) : M (option Subscription) :=
  cur <- execute "SELECT * FROM subscriptions WHERE `where` = ?"
                 (select_subscriptions (fun r => String.eqb (s_where r) where_)) ;;
  match fetchall cur with
  | [] => ret None
  | r :: _ => ret (Some (_createSubscriptionFromResult r))
  end.

Definition getSubscriptions : M (list Subscription) :=
  cur <- execute "SELECT * FROM subscriptions" (select_subscriptions (fun _ => true)) ;;
  ret (map _createSubscriptionFromResult (fetchall cur)).

(** The twelve public operations, for sequences of calls. *)
Inductive operation : Type :=
| StoreNotification (n : Notification Info)
| RemoveNotification (n : Notification Info)
| GetHotNotifications
| GetAllNotifications
| GetUnseenNotifications
| SetSeen (path : option string)
| GetUnseenCount
| GetLastNotificationTime (now : Z)
| Clean (now : Z)
| SaveSubscription (s : Subscription)
| GetSubscription (where_ : string)
| GetSubscriptions.

(** The backend after a call, whether it returned or raised. *)
Definition after (o : operation) (s : Backend) : Backend :=
  match o with
  | StoreNotification n => snd (storeNotification n s)
  | RemoveNotification n => snd (removeNotification n s)
  | GetHotNotifications => snd (getHotNotifications s)
  | GetAllNotifications => snd (getAllNotifications s)
  | GetUnseenNotifications => snd (getUnseenNotifications s)
  | SetSeen p => snd (setSeen p s)
  | GetUnseenCount => snd (getUnseenCount s)
  | GetLastNotificationTime now => snd (getLastNotificationTime now s)
  | Clean now => snd (clean now s)
  | SaveSubscription sub => snd (saveSubscription sub s)
  | GetSubscription w => snd (getSubscription w s)
  | GetSubscriptions => snd (getSubscriptions s)
  end.

Definition after_all (ops : list operation) (s : Backend) : Backend :=
  fold_left (fun s o => after o s) ops s.

End SqliteStorageBackend.

(** ** Notions used by the statements below *)

(** A backend whose session is open on connection [c]. *)
Definition open_on (u : option string) (c : Connection) (ev : list Event)
  : Backend :=
  {| self_user := u; self_db := Some c; notified := ev |}.

(** A backend with no session. *)
Definition closed (u : option string) (ev : list Event) : Backend :=
  {| self_user := u; self_db := None; notified := ev |}.

(** The order of the hot list: [a] may stand before [b] when [a] is unseen
    and [b] seen, or when both are in the same class and [a] is not older. *)
Definition hot_before {Info} (a b : Notification Info) : Prop :=
  (seen a = false /\ seen b = true)
  \/ (seen a = seen b /\ when b <= when a).

(** The key columns of an event as a read returns it. *)
Definition event_key {Info} (e : Notification Info) : key :=
  (what e, when e, where_ e).

(** A notification row has an actor when some row of notifications_who
    carries its key. *)
Definition has_actor (c : Connection) (n : notifications_row) : Prop :=
  exists w, In w (notifications_who c) /\ w_key w = n_key n.

(** Every notification row of the store the backend is connected to has at
    least one actor row. *)
Definition every_notification_has_actor (s : Backend) : Prop :=
  forall c, self_db s = Some c ->
            forall n, In n (notifications c) -> has_actor c n.

(** The same on a connection, for a statement, and for a method: a statement
    keeps actors when each connection with the property is taken to one with
    it, a method when each backend is. *)
Definition keeps_actors (c : Connection) : Prop :=
  forall n, In n (notifications c) -> has_actor c n.

Definition statement_keeps_actors {A} (st : statement A) : Prop :=
  forall c, keeps_actors c ->
            match st c with
            | Ok (_, c') => keeps_actors c'
            | Raise _ => True
            end.

Definition preserves {A} (m : M A) : Prop :=
  forall s, every_notification_has_actor s ->
            every_notification_has_actor (snd (m s)).

(** The connection [c'] is [c] with further actor rows, all of key [k]. *)
Definition who_grows (k : key) (c c' : Connection) : Prop :=
  foreign_keys c' = foreign_keys c
  /\ notifications c' = notifications c
  /\ subscriptions c' = subscriptions c
  /\ exists extra,
      notifications_who c' = (notifications_who c ++ extra)%list
      /\ forall x, In x extra -> w_key x = k.

(** The key under which storeNotification writes [n]. *)
Definition store_key {Info} (n : Notification Info) : key :=
  (what n, getWhenTimestamp n, where_ n).

(** An operation that, if it stores a notification, stores one with actors. *)
Definition stores_actors {Info} (o : @operation Info) : Prop :=
  match o with
  | StoreNotification n => who n <> []
  | _ => True
  end.

(** ** Concrete stores and notifications *)

Definition empty_store (fk : bool) : Connection :=
  {| foreign_keys := fk; notifications := []; notifications_who := [];
     subscriptions := [] |}.

(** An unseen "edited" notification on /a at second [t] by [actors]. *)
Definition edit (t : Z) (actors : list string) : Notification unit :=
  {| what := "edited"; where_ := "/a"; when := t; who := actors; user := None;
     gatherer := "history"; seen := false; info := tt |}.

(** A stored "edited" row on [w] at second [t], and an actor row for it; the
    actors of the stores below are names, which the who column stores as
    they are. *)
Definition stored (w : string) (t : Z) (is_seen : bool) : notifications_row :=
  {| n_what := "edited"; n_when := t; n_where := w; n_seen := is_seen;
     n_gatherer := "history"; n_info := Some "null" |}.

Definition actor (w : string) (t : Z) (name : string) : who_row :=
  {| w_what := "edited"; w_when := t; w_where := w; w_who := name |}.

(** Four events, one of them under /a_b. *)
Definition four_paths (fk : bool) : Connection :=
  {| foreign_keys := fk;
     notifications := [stored "/a_b/x" 1 false; stored "/axb/y" 2 false;
                       stored "/A_B/z" 3 false; stored "/c" 4 false];
     notifications_who := [actor "/a_b/x" 1 "bob"; actor "/axb/y" 2 "bob";
                           actor "/A_B/z" 3 "bob"; actor "/c" 4 "bob"];
     subscriptions := [] |}.

(** One event on /a, seen, edited by bob at second 100. *)
Definition one_seen (fk : bool) : Connection :=
  {| foreign_keys := fk;
     notifications := [stored "/a" 100 true];
     notifications_who := [actor "/a" 100 "bob"];
     subscriptions := [] |}.

(** The seen event of second 100 by bob and an unseen one of the same
    (what, where, info) of second 200 by dan. *)
Definition seen_and_unseen (fk : bool) : Connection :=
  {| foreign_keys := fk;
     notifications := [stored "/a" 100 true; stored "/a" 200 false];
     notifications_who := [actor "/a" 100 "bob"; actor "/a" 200 "dan"];
     subscriptions := [] |}.

(** Five events with an actor, at seconds 10 to 50, and an older one at
    second 1 without any. *)
Definition six_events (fk : bool) : Connection :=
  {| foreign_keys := fk;
     notifications := [stored "/old" 1 false; stored "/a" 10 false;
                       stored "/a" 20 false; stored "/a" 30 false;
                       stored "/a" 40 false; stored "/a" 50 false];
     notifications_who := [actor "/a" 10 "bob"; actor "/a" 20 "bob";
                           actor "/a" 30 "bob"; actor "/a" 40 "bob";
                           actor "/a" 50 "bob"];
     subscriptions := [] |}.

(** The [where] of the notification rows of the store [s] is connected to. *)
Definition stored_wheres (s : Backend) : list string :=
  match self_db s with
  | Some c => map n_where (notifications c)
  | None => []
  end.

(** The stored who values of the actor rows of the store [s] is connected
    to. *)
Definition stored_actors (s : Backend) : list string :=
  match self_db s with
  | Some c => map w_who (notifications_who c)
  | None => []
  end.

(** ** The constraints of the schema *)

(** The primary key of an actor row. *)
Definition who_pk (w : who_row) : key * string := (w_key w, w_who w).

(** The constraints that [initialize] declares: the three primary keys and,
    where foreign keys are enforced, a notification for every actor row. *)
Definition well_formed (c : Connection) : Prop :=
  NoDup (map n_key (notifications c))
  /\ NoDup (map who_pk (notifications_who c))
  /\ NoDup (map s_where (subscriptions c))
  /\ (foreign_keys c = true ->
      forall w, In w (notifications_who c) ->
                exists n, In n (notifications c) /\ n_key n = w_key w).

(** A property of connections holds on a backend when it holds of the
    connection of its session, if there is one; a statement or a method
    keeps it when it takes connections, or backends, on which it holds to
    such. *)
Definition holds_on (I : Connection -> Prop) (s : Backend) : Prop :=
  forall c, self_db s = Some c -> I c.

Definition statement_keeps (I : Connection -> Prop) {A} (st : statement A) : Prop :=
  forall c, I c -> match st c with
                   | Ok (_, c') => I c'
                   | Raise _ => True
                   end.

Definition keeps (I : Connection -> Prop) {A} (m : M A) : Prop :=
  forall s, holds_on I s -> holds_on I (snd (m s)).

(** [insert_who r] is refused on [c]. *)
Definition rejects (r : who_row) (c : Connection) : Prop :=
  insert_who r c = Raise IntegrityError.

(** [sep] occurs in [s]. *)
Fixpoint occurs (sep s : string) : bool :=
  String.prefix sep s
  || match s with
     | EmptyString => false
     | String _ s' => occurs sep s'
     end.

(** ** The session of the backend *)

(** [posixpath.join(a, b)] of Python 2, the language of the package: an
    absolute [b] replaces [a]; otherwise [a] is tested with [endswith], an
    AttributeError when [a] is None. *)
Fixpoint ends_with_slash (s : string) : bool :=
  match s with
  | EmptyString => false
  | String ch EmptyString => Ascii.eqb ch "/"
  | String _ s' => ends_with_slash s'
  end.

Definition path_join (a : option string) (b : string) : result string :=
  if String.prefix "/" b then Ok b
  else match a with
       | None => Raise AttributeError
       | Some a =>
           if (String.eqb a "" || ends_with_slash a)%bool
           then Ok (a ++ b)
           else Ok (a ++ "/" ++ b)
       end.

(** The backend object with the two attributes its session uses beside
    [user] and [db]: the configured directory (None when the environment
    variable is not set) and the path of the store. *)
Record Engine : Type := {
  backend : Backend;
  directory : option string;
  db_path : option string
}.

Definition with_backend (e : Engine) (b : Backend) : Engine :=
  {| backend := b; directory := directory e; db_path := db_path e |}.

Section Session.

Context {Info : Type} `{Json Info}.

(** What [sqlite3.connect(path)] gives: a connection on the tables of the
    file at [path] (empty ones for a new file), or the exception of a file
    that cannot be opened.  The store files are taken to be written by
    this backend only, so that the tables a file holds are those of the
    schema below. *)
Variable sqlite3_connect : string -> result Connection.

(** The exception, if any, with which SQLite refuses CREATE TABLE IF NOT
    EXISTS of a table on a connection (the file is not a database or cannot
    be written). *)
Variable create_table_error : string -> Connection -> option exn.

(** CREATE TABLE IF NOT EXISTS: refused, or done without a change to the
    rows. *)
Definition create_table (table : string) : statement unit :=
  fun c =>
    match create_table_error table c with
    | Some x => Raise x
    | None => Ok (tt, c)
    end.

(** One of the three CREATE TABLE statements of [initialize] is refused on
    [c]. *)
Definition a_table_is_refused (c : Connection) : Prop :=
  exists table,
    In table ["notifications"; "notifications_who"; "subscriptions"]
    /\ create_table_error table c <> None.

(** [self.db] is assigned before the three CREATE TABLE statements run, so
    an exception of one of them leaves the connection in [self.db]. *)
Definition initialize (e : Engine) : result unit * Engine :=
  match self_db (backend e), self_user (backend e) with
  | Some _, _ => (Ok tt, e)
  | None, None => (Ok tt, e)
  | None, Some usr =>
      match path_join (directory e) (usr ++ ".sqlite") with
      | Raise x => (Raise x, e)
      | Ok p =>
          let e1 := {| backend := backend e; directory := directory e;
                       db_path := Some p |} in
          match sqlite3_connect p with
          | Raise x => (Raise x, e1)
          | Ok c =>
              let '(r, b) :=
                (execute
                   "CREATE TABLE IF NOT EXISTS notifications(`what` TEXT, `when` INTEGER, `where` TEXT, `seen` INTEGER, `gatherer` TEXT, `info` TEXT, PRIMARY KEY(`what`, `when`, `where`))"
                   (create_table "notifications") ;;
                 execute
                   "CREATE TABLE IF NOT EXISTS notifications_who(`what` TEXT, `when` INTEGER, `where` TEXT, `who` INTEGER, PRIMARY KEY(`what`, `when`, `where`, `who`), FOREIGN KEY(`what`, `when`, `where`) REFERENCES notifications(`what`, `when`, `where`) ON DELETE CASCADE)"
                   (create_table "notifications_who") ;;
                 execute
                   "CREATE TABLE IF NOT EXISTS subscriptions(`where` TEXT PRIMARY KEY, `wants` INTEGER)"
                   (create_table "subscriptions"))
                  (set_db (backend e) c) in
              (r, with_backend e1 b)
          end
      end
  end.

(** [self.db.commit(); self.db.close(); self.db = None] *)
Definition terminate (e : Engine) : result unit * Engine :=
  match self_db (backend e) with
  | None => (Ok tt, e)
  | Some _ =>
      (Ok tt, with_backend e {| self_user := self_user (backend e);
                                self_db := None;
                                notified := notified (backend e) |})
  end.

(** The value returned and the backend afterwards; an exception of any of
    the three calls is caught and gives False. *)
Definition validateBackend (e : Engine) : bool * Engine :=
  match initialize e with
  | (Raise _, e1) => (false, e1)
  | (Ok _, e1) =>
      match getHotNotifications (Info := Info) (backend e1) with
      | (Raise _, b2) => (false, with_backend e1 b2)
      | (Ok _, b2) =>
          match terminate (with_backend e1 b2) with
          | (Raise _, e3) => (false, e3)
          | (Ok _, e3) => (true, e3)
          end
      end
  end.

Definition setUser (usr : option string) (e : Engine) : Engine :=
  match self_db (backend e) with
  | Some _ => e
  | None =>
      with_backend e {| self_user := usr; self_db := None;
                        notified := notified (backend e) |}
  end.

Definition getUser (e : Engine) : option string := self_user (backend e).

End Session.

(** ** The caller of the browser views *)

Section Views.

Context {Info : Type} `{Json Info}.

(** Modelled from the spec: [storage_manager.py] and [gatherer_manager.py]
    are not under src/.  The storage is taken to be the engine itself, whose
    contract the views call, and the gatherer a function from the time of the
    last check to the candidate notifications, or None. *)
Variable getNewNotifications : Z -> option (list (Notification Info)).

(** [updateNotifications] of AllView and of HotViewlet (the same body). *)
Definition updateNotifications (now : Z) : M unit :=
  lastCheck <- getLastNotificationTime now ;;
  match getNewNotifications lastCheck with
  | None => ret tt
  | Some newNotifications =>
      for_each newNotifications (fun notification => storeNotification notification)
  end.

End Views.

(** Every notification row and every actor row of [c] is in [c'], whose
    subscriptions and foreign-key setting are those of [c]. *)
Definition only_adds (c c' : Connection) : Prop :=
  (forall r, In r (notifications c) -> In r (notifications c'))
  /\ (forall w, In w (notifications_who c) -> In w (notifications_who c'))
  /\ subscriptions c' = subscriptions c
  /\ foreign_keys c' = foreign_keys c.

(** ** dict_factory *)

(** A Python dict with text keys, as the list of its items; [d[k] = v]
    replaces the value of a key that is there and adds the key otherwise. *)
Fixpoint dict_set {V} (d : list (string * V)) (k : string) (v : V)
  : list (string * V) :=
  match d with
  | [] => [(k, v)]
  | (k', v') :: d' =>
      if String.eqb k' k then (k, v) :: d' else (k', v') :: dict_set d' k v
  end.

Fixpoint dict_get {V} (d : list (string * V)) (k : string) : option V :=
  match d with
  | [] => None
  | (k', v') :: d' => if String.eqb k' k then Some v' else dict_get d' k
  end.

(** The loop of [dict_factory] from column [idx] on; [description] holds the
    names [col[0]] of the columns.  None is the IndexError of [row[idx]]. *)
Fixpoint dict_factory_from {V} (description : list string) (row : list V)
         (idx : nat) (d : list (string * V)) : option (list (string * V)) :=
  match description with
  | [] => Some d
  | col :: rest =>
      match nth_error row idx with
      | None => None
      | Some v => dict_factory_from rest row (S idx) (dict_set d col v)
      end
  end.

Definition dict_factory {V} (description : list string) (row : list V)
  : option (list (string * V)) :=
  dict_factory_from description row 0 [].

(** The last position of [name] in [l]. *)
Fixpoint last_index (name : string) (l : list string) : option nat :=
  match l with
  | [] => None
  | x :: l' =>
      match last_index name l' with
      | Some j => Some (S j)
      | None => if String.eqb x name then Some 0%nat else None
      end
  end.

(** * Properties *)

Local Open Scope list_scope.

(** ** Sorting *)

Section Ordering.

Variable R : Type.
Variable leb : R -> R -> bool.
Hypothesis leb_total : forall a b, leb a b = true \/ leb b a = true.
Hypothesis leb_trans :
  forall a b c, leb a b = true -> leb b c = true -> leb a c = true.

Lemma insert_sorted_In (x y : R) (l : list R) :
  In y (insert_sorted leb x l) <-> y = x \/ In y l.
Proof.
  induction l as [|z l IH]; simpl.
  - intuition.
  - destruct (leb x z); simpl; rewrite ?IH; intuition.
Qed.

Lemma order_by_In (y : R) (l : list R) : In y (order_by leb l) <-> In y l.
Proof.
  induction l as [|x l IH]; simpl; [tauto|].
  rewrite insert_sorted_In, IH. intuition.
Qed.

Lemma insert_sorted_length (x : R) (l : list R) :
  length (insert_sorted leb x l) = S (length l).
Proof.
  induction l as [|z l IH]; simpl; [reflexivity|].
  destruct (leb x z); simpl; congruence.
Qed.

Lemma insert_sorted_Permutation (x : R) (l : list R) :
  Permutation (insert_sorted leb x l) (x :: l).
Proof.
  induction l as [|z l IH]; simpl; [apply Permutation_refl|].
  destruct (leb x z); [apply Permutation_refl|].
  eapply perm_trans; [apply perm_skip; exact IH | apply perm_swap].
Qed.

Lemma order_by_Permutation (l : list R) : Permutation (order_by leb l) l.
Proof.
  induction l as [|x l IH]; simpl; [apply perm_nil|].
  eapply perm_trans; [apply insert_sorted_Permutation | apply perm_skip; exact IH].
Qed.

Lemma order_by_length (l : list R) : length (order_by leb l) = length l.
Proof.
  induction l as [|x l IH]; simpl; [reflexivity|].
  rewrite insert_sorted_length. congruence.
Qed.

Lemma insert_sorted_ordered (x : R) (l : list R) :
  StronglySorted (fun a b => leb a b = true) l ->
  StronglySorted (fun a b => leb a b = true) (insert_sorted leb x l).
Proof.
  induction 1 as [|z l Hs IH Hz]; simpl.
  - constructor; constructor.
  - destruct (leb x z) eqn:E.
    + constructor; [constructor; assumption|].
      constructor; [assumption|].
      rewrite Forall_forall in *. intros b Hb. eapply leb_trans; eauto.
    + constructor; [assumption|].
      rewrite Forall_forall in *. intros b Hb.
      apply insert_sorted_In in Hb. destruct Hb as [->|Hb]; auto.
      destruct (leb_total x z) as [T|T]; congruence.
Qed.

Lemma order_by_ordered (l : list R) :
  StronglySorted (fun a b => leb a b = true) (order_by leb l).
Proof.
  induction l as [|x l IH]; simpl.
  - constructor.
  - apply insert_sorted_ordered, IH.
Qed.

End Ordering.

Lemma StronglySorted_firstn {A} (P : A -> A -> Prop) (n : nat) (l : list A) :
  StronglySorted P l -> StronglySorted P (firstn n l).
Proof.
  intros Hs. revert n. induction Hs as [|x l Hs IH Hx]; intros [|n]; simpl;
    try constructor.
  - apply IH.
  - rewrite Forall_forall in *. intros b Hb. apply Hx.
    eapply (In_nth_error) in Hb. destruct Hb as [i Hi].
    apply nth_error_In with i.
    rewrite nth_error_firstn in Hi. destruct (Nat.ltb i n); congruence.
Qed.

Lemma StronglySorted_map {A B} (P : B -> B -> Prop) (f : A -> B) (l : list A) :
  StronglySorted (fun a b => P (f a) (f b)) l -> StronglySorted P (map f l).
Proof.
  induction 1 as [|x l Hs IH Hx]; simpl; constructor; auto.
  rewrite Forall_forall in *. intros b Hb.
  apply in_map_iff in Hb. destruct Hb as [a [<- Ha]]. auto.
Qed.

Lemma StronglySorted_weaken {A} (P Q : A -> A -> Prop) (l : list A) :
  (forall a b, P a b -> Q a b) -> StronglySorted P l -> StronglySorted Q l.
Proof.
  intros HPQ. induction 1 as [|x l Hs IH Hx]; constructor; auto.
  eapply Forall_impl; [|exact Hx]. auto.
Qed.

Lemma hot_leb_total (a b : result_row) :
  hot_leb a b = true \/ hot_leb b a = true.
Proof.
  unfold hot_leb. destruct (r_seen a), (r_seen b); simpl; auto;
    destruct (Z.leb_spec (r_when b) (r_when a)); auto;
    right; apply Z.leb_le; lia.
Qed.

Lemma hot_leb_trans (a b c : result_row) :
  hot_leb a b = true -> hot_leb b c = true -> hot_leb a c = true.
Proof.
  unfold hot_leb. destruct (r_seen a), (r_seen b), (r_seen c); simpl;
    try discriminate; auto; rewrite !Z.leb_le; lia.
Qed.

(** ** Running statements on an open or closed session *)

Lemma execute_open {A} (sql : string) (st : statement A) u c ev :
  sqlite_accepts sql = true ->
  execute sql st (open_on u c ev)
  = match st c with
    | Ok (a, c') => (Ok a, open_on u c' ev)
    | Raise e => (Raise e, open_on u c ev)
    end.
Proof.
  intros Hs. unfold execute, open_on, set_db. simpl. rewrite Hs.
  destruct (st c) as [[a c']|e]; reflexivity.
Qed.

Lemma self_db_open_on u c ev : self_db (open_on u c ev) = Some c.
Proof. reflexivity. Qed.


Section Reads.

Context {Info : Type} `{Json Info}.

(** C9: getLastNotificationTime never raises.  Without a session (the read
    fails) and on an empty table it returns now minus seven days; on a
    non-empty table it returns the largest timestamp stored. *)
Theorem getLastNotificationTime_week_ago_or_latest :
  forall (now : Z) (u : option string) (c : Connection) (ev : list Event),
    getLastNotificationTime now (closed u ev)
    = (Ok (now - 7 * 86400), closed u ev)
    /\ exists t : Z,
        getLastNotificationTime now (open_on u c ev) = (Ok t, open_on u c ev)
        /\ match notifications c with
           | [] => t = now - 7 * 86400
           | _ :: _ =>
               In t (map n_when (notifications c))
               /\ forall r, In r (notifications c) -> n_when r <= t
           end.
Proof.
  intros now u c ev. split; [reflexivity|].
  unfold getLastNotificationTime, try_except_any, bind.
  rewrite execute_open by reflexivity. unfold select_last_when.
  pose proof (order_by_In Z (fun a b => b <=? a)) as HIn.
  pose proof (order_by_length Z (fun a b => b <=? a)
                (map n_when (notifications c))) as Hlen.
  assert (Hs : StronglySorted (fun a b : Z => (b <=? a) = true)
                 (order_by (fun a b => b <=? a) (map n_when (notifications c)))).
  { apply order_by_ordered.
    - intros a b. rewrite !Z.leb_le. lia.
    - intros a b d. rewrite !Z.leb_le. lia. }
  destruct (notifications c) as [|r0 rs] eqn:En.
  - simpl. eexists. split; reflexivity.
  - destruct (order_by (fun a b => b <=? a) (map n_when (r0 :: rs)))
      as [|t l'] eqn:Eo; [simpl in Hlen; discriminate|].
    exists t. simpl. unfold fromtimestamp. split; [reflexivity|]. split.
    + change (In t (map n_when (r0 :: rs))). apply HIn. rewrite Eo. left; reflexivity.
    + intros r Hr.
      assert (Hm : In (n_when r) (t :: l')).
      { rewrite <- Eo. apply HIn. apply in_map. exact Hr. }
      inversion Hs as [|? ? _ Hall]; subst.
      destruct Hm as [<-|Hm]; [lia|].
      rewrite Forall_forall in Hall. apply Z.leb_le. auto.
Qed.

End Reads.

(** ** Keys, joins and groups *)

Lemma key_eqb_eq (a b : key) : key_eqb a b = true <-> a = b.
Proof.
  destruct a as [[a1 a2] a3], b as [[b1 b2] b3]. unfold key_eqb.
  rewrite !andb_true_iff, !String.eqb_eq, Z.eqb_eq.
  split; [intros [[-> ->] ->]; reflexivity | intros [= -> -> ->]; auto].
Qed.

Lemma key_eqb_refl (a : key) : key_eqb a a = true.
Proof. apply key_eqb_eq. reflexivity. Qed.

Lemma partners_In c n w :
  In w (partners c n) <-> In w (notifications_who c) /\ w_key w = n_key n.
Proof.
  unfold partners. rewrite filter_In, key_eqb_eq. intuition congruence.
Qed.

Lemma partners_same_key c n n' : n_key n = n_key n' -> partners c n = partners c n'.
Proof. intros E. unfold partners. rewrite E. reflexivity. Qed.

Lemma inner_join_In c j :
  In j (inner_join c) ->
  exists n w, In n (notifications c) /\ In w (partners c n) /\ fst j = n.
Proof.
  unfold inner_join. rewrite in_flat_map. intros [n [Hn Hj]].
  apply in_map_iff in Hj. destruct Hj as [w [<- Hw]]. eauto.
Qed.

Lemma left_join_In c j :
  In j (left_join c) ->
  In (fst j) (notifications c)
  /\ (snd j = None -> partners c (fst j) = []).
Proof.
  unfold left_join. rewrite in_flat_map. intros [n [Hn Hj]].
  destruct (partners c n) as [|w ws] eqn:E.
  - destruct Hj as [<-|[]]. simpl. auto.
  - apply in_map_iff in Hj. destruct Hj as [x [<- Hx]]. simpl.
    split; [assumption | discriminate].
Qed.

Lemma left_join_lonely c n :
  In n (notifications c) -> partners c n = [] -> In (n, None) (left_join c).
Proof.
  intros Hn E. unfold left_join. apply in_flat_map. exists n.
  rewrite E. simpl. auto.
Qed.

Lemma group_heads_In l j : In j (group_heads l) -> In j l.
Proof.
  induction l as [|x l IH]; simpl; [tauto|].
  destruct (existsb (same_group x) l); simpl; intuition.
Qed.

Lemma group_heads_covers l x :
  In x l -> exists j, In j (group_heads l) /\ n_key (fst j) = n_key (fst x).
Proof.
  revert x. induction l as [|y l IH]; intros x; simpl; [tauto|].
  intros [->|Hx].
  - destruct (existsb (same_group x) l) eqn:E.
    + apply existsb_exists in E. destruct E as [z [Hz Hs]].
      apply key_eqb_eq in Hs. destruct (IH z Hz) as [j [Hj Hk]].
      exists j. split; [assumption | congruence].
    + exists x. simpl. auto.
  - destruct (IH x Hx) as [j [Hj Hk]]. exists j.
    destruct (existsb (same_group y) l); simpl; auto.
Qed.

Lemma group_heads_one_per_row (f : notifications_row -> list joined_row) ns :
  (forall n j, In j (f n) -> fst j = n) ->
  (length (group_heads (flat_map f ns)) <= length ns)%nat.
Proof.
  intros Hf. induction ns as [|n ns IH]; cbn [flat_map length group_heads]; [lia|].
  assert (G : forall l rest, (forall j, In j l -> fst j = n) ->
              (length (group_heads (l ++ rest)) <= S (length (group_heads rest)))%nat).
  { induction l as [|x l IHl]; intros rest Hl; simpl; [lia|].
    destruct (existsb (same_group x) (l ++ rest)) eqn:E.
    - apply IHl. intros j Hj. apply Hl. right. exact Hj.
    - destruct l as [|y l].
      + simpl. lia.
      + exfalso. rewrite <- not_true_iff_false in E. apply E.
        apply existsb_exists. exists y. split; [left; reflexivity|].
        unfold same_group. rewrite (Hl x), (Hl y) by (simpl; auto).
        apply key_eqb_refl. }
  eapply Nat.le_trans; [apply (G (f n) (flat_map f ns) (Hf n))|].
  apply le_n_S, IH.
Qed.

Lemma group_by_key_In l row :
  In row (group_by_key l) ->
  exists j, In j l /\ row = aggregate j (filter (same_group j) l).
Proof.
  unfold group_by_key. rewrite in_map_iff. intros [j [<- Hj]].
  exists j. split; [apply group_heads_In; assumption | reflexivity].
Qed.

Lemma non_null_all_None {A} (l : list (option A)) :
  (forall x, In x l -> x = None) -> non_null l = [].
Proof.
  induction l as [|[a|] l IH]; simpl; intros Hl; auto.
  specialize (Hl (Some a) (or_introl eq_refl)). discriminate.
Qed.

Lemma left_join_covers c n :
  In n (notifications c) -> exists x, In (n, x) (left_join c).
Proof.
  intros Hn. unfold left_join.
  destruct (partners c n) as [|w ws] eqn:E.
  - exists None. apply in_flat_map. exists n. rewrite E. simpl. auto.
  - exists (Some (w_who w)). apply in_flat_map. exists n. rewrite E.
    split; [exact Hn | left; reflexivity].
Qed.

Lemma left_join_one_per_row c :
  (length (group_heads (left_join c)) <= length (notifications c))%nat.
Proof.
  unfold left_join. apply group_heads_one_per_row.
  intros n x Hx. destruct (partners c n).
  - destruct Hx as [<-|[]]. reflexivity.
  - apply in_map_iff in Hx. destruct Hx as [w' [<- _]]. reflexivity.
Qed.

(** GROUP BY makes one row per key. *)
Lemma group_heads_NoDup l : NoDup (map (fun j => n_key (fst j)) (group_heads l)).
Proof.
  induction l as [|x l IH]; cbn [group_heads map]; [constructor|].
  destruct (existsb (same_group x) l) eqn:E; [exact IH|].
  cbn [map]. constructor; [|exact IH].
  intros Hin. apply in_map_iff in Hin. destruct Hin as [j [Hk Hj]].
  apply group_heads_In in Hj. rewrite <- not_true_iff_false in E. apply E.
  apply existsb_exists. exists j. split; [exact Hj|].
  unfold same_group. apply key_eqb_eq. symmetry. exact Hk.
Qed.

Lemma group_by_key_NoDup l :
  NoDup (map (fun row => (r_what row, r_when row, r_where row)) (group_by_key l)).
Proof.
  unfold group_by_key. rewrite map_map. exact (group_heads_NoDup l).
Qed.

(** The group of a notification without actor rows in the left join has no
    actor to concatenate. *)
Lemma group_concat_of_lonely_group c j :
  In j (left_join c) ->
  partners c (fst j) = [] ->
  group_concat ", " (map snd (filter (same_group j) (left_join c))) = None.
Proof.
  intros Hj Hlonely. unfold group_concat.
  rewrite non_null_all_None; [reflexivity|].
  intros x Hx. apply in_map_iff in Hx. destruct Hx as [y [<- Hy]].
  apply filter_In in Hy. destruct Hy as [Hy Hs].
  apply key_eqb_eq in Hs.
  destruct (snd y) as [a|] eqn:Ey; [|reflexivity].
  exfalso.
  assert (Hp : partners c (fst y) = []).
  { rewrite (partners_same_key c (fst y) (fst j)) by congruence. exact Hlonely. }
  revert Hy. unfold left_join. rewrite in_flat_map.
  intros [n [Hn' Hin]].
  destruct (partners c n) as [|w ws] eqn:En.
  - destruct Hin as [<-|[]]. simpl in Ey. discriminate.
  - apply in_map_iff in Hin. destruct Hin as [x [<- Hx]].
    simpl in Hp. rewrite Hp in En. discriminate.
Qed.

Lemma firstn_reaches {A} (n : nat) (before after : list A) (e : A) :
  (length before < n)%nat -> In e (firstn n (before ++ e :: after)).
Proof.
  intros Hlt. rewrite firstn_app. apply in_or_app. right.
  destruct (n - length before)%nat as [|k] eqn:E; [lia|].
  left. reflexivity.
Qed.

Lemma firstn_stops_before {A} (n : nat) (before rest : list A) :
  (n <= length before)%nat -> firstn n (before ++ rest) = firstn n before.
Proof.
  intros Hle. rewrite firstn_app.
  replace (n - length before)%nat with 0%nat by lia.
  apply app_nil_r.
Qed.

Lemma firstn_In {A} (n : nat) (l : list A) (x : A) : In x (firstn n l) -> In x l.
Proof.
  revert n. induction l as [|y l IH]; intros [|n]; simpl; try tauto.
  intros [E|Hx]; [left; exact E | right; exact (IH n Hx)].
Qed.

Section HotList.

Context {Info : Type} `{Json Info}.

Lemma events_NoDup u (leb : result_row -> result_row -> bool) (rows : list result_row) :
  NoDup (map (fun row => (r_what row, r_when row, r_where row)) rows) ->
  NoDup (map event_key
             (map (_createNotificationFromResult (Info := Info) u) (order_by leb rows))).
Proof.
  intros Hn. rewrite map_map.
  eapply Permutation_NoDup;
    [apply Permutation_map, Permutation_sym, order_by_Permutation|].
  exact Hn.
Qed.

(** What getHotNotifications returns on an open session: the first five of
    a list that holds one event per notification row of the store, every
    key once, in the hot order; an event of a row without actor rows has no
    actors. *)
Lemma getHotNotifications_ranked u c ev :
  exists ranked : list (Notification Info),
    getHotNotifications (open_on u c ev) = (Ok (firstn 5 ranked), open_on u c ev)
    /\ StronglySorted hot_before ranked
    /\ NoDup (map event_key ranked)
    /\ (forall k, (exists e, In e ranked /\ event_key e = k)
                  <-> (exists n, In n (notifications c) /\ n_key n = k))
    /\ (forall e, In e ranked ->
          exists n, In n (notifications c) /\ n_key n = event_key e
                    /\ seen e = n_seen n /\ gatherer e = n_gatherer n
                    /\ (partners c n = [] -> who e = []))
    /\ (length ranked <= length (notifications c))%nat.
Proof.
  exists (map (_createNotificationFromResult u)
              (order_by hot_leb (group_by_key (left_join c)))).
  split.
  { unfold getHotNotifications, bind, get_db.
    rewrite self_db_open_on. cbv iota beta.
    rewrite execute_open by reflexivity. unfold select_hot, get_user, ret, fetchall.
    simpl self_user. rewrite firstn_map. reflexivity. }
  split.
  { apply StronglySorted_map.
    eapply StronglySorted_weaken;
      [|apply (order_by_ordered _ hot_leb hot_leb_total hot_leb_trans)].
    intros a b Hab. unfold hot_before, hot_leb in *. simpl.
    unfold fromtimestamp.
    destruct (r_seen a), (r_seen b); simpl in Hab;
      try discriminate; auto; right; split; auto; apply Z.leb_le; exact Hab. }
  split; [apply events_NoDup, group_by_key_NoDup|].
  split; [split|split].
  - intros [e [He Hk]]. apply in_map_iff in He. destruct He as [row [<- Hrow]].
    apply order_by_In in Hrow. apply group_by_key_In in Hrow.
    destruct Hrow as [j [Hj ->]].
    exists (fst j). split; [apply (left_join_In c j Hj) | exact Hk].
  - intros [n [Hn Hk]]. destruct (left_join_covers c n Hn) as [x Hx].
    destruct (group_heads_covers _ _ Hx) as [j [Hj Hjk]]. cbn [fst] in Hjk.
    exists (_createNotificationFromResult u
              (aggregate j (filter (same_group j) (left_join c)))).
    split.
    + apply in_map. apply order_by_In. unfold group_by_key. apply in_map_iff.
      exists j. split; [reflexivity | exact Hj].
    + rewrite <- Hk, <- Hjk. reflexivity.
  - intros e He. apply in_map_iff in He. destruct He as [row [<- Hrow]].
    apply order_by_In in Hrow. apply group_by_key_In in Hrow.
    destruct Hrow as [j [Hj ->]].
    exists (fst j). split; [apply (left_join_In c j Hj)|].
    split; [reflexivity|]. split; [reflexivity|]. split; [reflexivity|].
    intros Hlonely. unfold _createNotificationFromResult, aggregate.
    cbn [who r_who]. rewrite (group_concat_of_lonely_group c j Hj Hlonely).
    reflexivity.
  - rewrite length_map, order_by_length. unfold group_by_key. rewrite length_map.
    apply left_join_one_per_row.
Qed.

(** C7: on an open session getHotNotifications returns at most five events,
    every unseen one before every seen one and, within a class, newest
    first: the list returned is the first five of the events of the store,
    one per notification row and key, ranked unseen first and then newest
    first. *)
Theorem getHotNotifications_at_most_5_unseen_first_newest_first :
  forall (u : option string) (c : Connection) (ev : list Event),
  exists l ranked : list (Notification Info),
    getHotNotifications (open_on u c ev) = (Ok l, open_on u c ev)
    /\ (length l <= 5)%nat
    /\ StronglySorted hot_before l
    /\ l = firstn 5 ranked
    /\ StronglySorted hot_before ranked
    /\ NoDup (map event_key ranked)
    /\ (forall k, (exists e, In e ranked /\ event_key e = k)
                  <-> (exists n, In n (notifications c) /\ n_key n = k))
    /\ (forall e, In e ranked ->
          exists n, In n (notifications c) /\ n_key n = event_key e
                    /\ seen e = n_seen n).
Proof.
  intros u c ev.
  destruct (getHotNotifications_ranked u c ev)
    as (ranked & E & Hs & Hn & Hk & Hrow & _).
  exists (firstn 5 ranked), ranked.
  split; [exact E|]. split; [apply firstn_le_length|].
  split; [apply StronglySorted_firstn; exact Hs|].
  split; [reflexivity|]. split; [exact Hs|]. split; [exact Hn|].
  split; [exact Hk|].
  intros e He. destruct (Hrow e He) as (n & Hin & Hkey & Hseen & _).
  exists n. auto.
Qed.

(** C8 (amended): a notification row without actor rows is never among the
    events of getAllNotifications.  In the ranking of which
    getHotNotifications returns the first five it stands as an event with an
    empty actor list; it is returned when fewer than five events rank before
    it (in particular when the table holds at most five rows), and when five
    or more do, the list returned is made of five of those and does not hold
    it. *)
Theorem actorless_event_not_in_all_and_in_hot_unless_five_rank_before :
  forall (u : option string) (c : Connection) (ev : list Event)
         (r : notifications_row),
    In r (notifications c) ->
    partners c r = [] ->
    (exists l : list (Notification Info),
        getAllNotifications (open_on u c ev) = (Ok l, open_on u c ev)
        /\ forall e, In e l -> event_key e <> n_key r)
    /\ exists (l before rest : list (Notification Info)) (e : Notification Info),
        getHotNotifications (open_on u c ev) = (Ok l, open_on u c ev)
        /\ l = firstn 5 (before ++ e :: rest)
        /\ StronglySorted hot_before (before ++ e :: rest)
        /\ NoDup (map event_key (before ++ e :: rest))
        /\ (forall k, (exists e', In e' (before ++ e :: rest) /\ event_key e' = k)
                      <-> (exists n, In n (notifications c) /\ n_key n = k))
        /\ event_key e = n_key r
        /\ who e = []
        /\ ((length before < 5)%nat -> In e l)
        /\ ((5 <= length before)%nat ->
            l = firstn 5 before
            /\ forall e', In e' l -> event_key e' <> n_key r)
        /\ ((length (notifications c) <= 5)%nat -> In e l).
Proof.
  intros u c ev r Hr Hlonely. split.
  - unfold getAllNotifications, bind, get_db.
    rewrite self_db_open_on. cbv iota beta.
    rewrite execute_open by reflexivity.
    unfold select_all, get_user, ret, fetchall.
    eexists. split; [reflexivity|].
    intros e He Hk. apply in_map_iff in He. destruct He as [row [<- Hrow]].
    apply order_by_In in Hrow. apply group_by_key_In in Hrow.
    destruct Hrow as [j [Hj ->]].
    apply inner_join_In in Hj. destruct Hj as [n [w [Hn [Hw Hfst]]]].
    unfold event_key, _createNotificationFromResult, aggregate, fromtimestamp in Hk.
    simpl in Hk. rewrite Hfst in Hk.
    rewrite (partners_same_key c n r Hk) in Hw. rewrite Hlonely in Hw.
    destruct Hw.
  - destruct (getHotNotifications_ranked u c ev)
      as (ranked & E & Hs & Hn & Hk & Hrow & Hlen).
    destruct (proj2 (Hk (n_key r))) as [e [He Hke]]; [exists r; auto|].
    destruct (in_split e ranked He) as (before & rest & ->).
    exists (firstn 5 (before ++ e :: rest)), before, rest, e.
    split; [exact E|]. split; [reflexivity|]. split; [exact Hs|].
    split; [exact Hn|]. split; [exact Hk|]. split; [exact Hke|].
    split.
    { destruct (Hrow e He) as (n & Hin & Hkey & _ & _ & Hwho).
      apply Hwho. rewrite (partners_same_key c n r) by congruence. exact Hlonely. }
    split; [apply firstn_reaches|].
    split.
    + intros Hfive. rewrite (firstn_stops_before 5 before (e :: rest) Hfive).
      split; [reflexivity|].
      intros e' He' Hk'. apply firstn_In in He'.
      rewrite map_app in Hn. cbn [map] in Hn.
      apply NoDup_remove_2 in Hn. apply Hn. apply in_or_app. left.
      rewrite Hke, <- Hk'. apply in_map. exact He'.
    + intros Hfive. apply firstn_reaches.
      rewrite length_app in Hlen. cbn [length] in Hlen. lia.
Qed.

End HotList.

(** ** The write path *)

Lemma who_grows_refl k c : who_grows k c c.
Proof.
  repeat split. exists []. rewrite app_nil_r. split; [reflexivity|].
  intros x [].
Qed.

Lemma who_grows_trans k c1 c2 c3 :
  who_grows k c1 c2 -> who_grows k c2 c3 -> who_grows k c1 c3.
Proof.
  intros (F1 & N1 & S1 & e1 & W1 & K1) (F2 & N2 & S2 & e2 & W2 & K2).
  repeat split; try congruence.
  exists (e1 ++ e2). split.
  - rewrite W2, W1, app_assoc. reflexivity.
  - intros x Hx. apply in_app_or in Hx. destruct Hx; auto.
Qed.

Lemma who_grows_In k c c' w :
  who_grows k c c' -> In w (notifications_who c) -> In w (notifications_who c').
Proof.
  intros (_ & _ & _ & e & W & _) Hw. rewrite W. apply in_or_app. auto.
Qed.

Lemma filter_none {A} (p : A -> bool) (l : list A) :
  (forall x, In x l -> p x = false) -> filter p l = [].
Proof.
  induction l as [|x l IH]; intros Hl; cbn [filter]; [reflexivity|].
  rewrite (Hl x) by (left; reflexivity).
  apply IH. intros y Hy. apply Hl. right. exact Hy.
Qed.

Lemma who_grows_partners k c c' n :
  who_grows k c c' -> n_key n <> k -> partners c' n = partners c n.
Proof.
  intros (_ & _ & _ & e & W & K) Hk. unfold partners. rewrite W, filter_app.
  rewrite (filter_none _ e); [apply app_nil_r|].
  intros x Hx. apply not_true_iff_false. intros E.
  apply key_eqb_eq in E. apply Hk. rewrite E. apply K. exact Hx.
Qed.

Lemma insert_who_grows r c :
  match insert_who r c with
  | Ok (_, c') => who_grows (w_key r) c c'
  | Raise e => e = IntegrityError
  end.
Proof.
  unfold insert_who.
  destruct (existsb _ (notifications_who c)); [reflexivity|].
  destruct (foreign_keys c && _)%bool; [reflexivity|].
  repeat split. exists [stored_who r]. split; [reflexivity|].
  intros x [<-|[]]. reflexivity.
Qed.

(** Where the notification exists, an insert of one of its actors leaves an
    actor row of that key, whether it succeeds or not. *)
Lemma insert_who_leaves_actor r c :
  (exists n, In n (notifications c) /\ n_key n = w_key r) ->
  match insert_who r c with
  | Ok (_, c') => exists x, In x (notifications_who c') /\ w_key x = w_key r
  | Raise _ => exists x, In x (notifications_who c) /\ w_key x = w_key r
  end.
Proof.
  intros [n [Hn Hk]]. unfold insert_who.
  destruct (existsb _ (notifications_who c)) eqn:E.
  - apply existsb_exists in E. destruct E as [x [Hx Hm]].
    apply andb_true_iff in Hm. destruct Hm as [Hm _]. apply key_eqb_eq in Hm.
    exists x. auto.
  - assert (P : existsb (fun n => key_eqb (w_key r) (n_key n)) (notifications c) = true).
    { apply existsb_exists. exists n. split; [assumption|].
      apply key_eqb_eq. congruence. }
    rewrite P, andb_false_r. exists (stored_who r). simpl. split; [|reflexivity].
    apply in_or_app. right. left. reflexivity.
Qed.

Lemma count_positive {A} (p : A -> bool) (l : list A) :
  (0 <? Z.of_nat (length (filter p l))) = existsb p l.
Proof.
  induction l as [|x l IH]; simpl; [reflexivity|].
  destruct (p x); simpl; [|exact IH].
  apply Z.ltb_lt. lia.
Qed.

Section WritePath.

Context {Info : Type} `{Json Info}.

(** The loop of [_updateNotification]: every IntegrityError is passed over,
    so the loop returns, having added actor rows under the key of [n]. *)
Lemma for_each_insert_who_passing sql (n : Notification Info) ws :
  sqlite_accepts sql = true ->
  forall u c ev,
  exists c',
    for_each ws
      (fun w => try_except (execute sql (insert_who (who_row_of n w)))
                           IntegrityError (ret tt))
      (open_on u c ev)
    = (Ok tt, open_on u c' ev)
    /\ who_grows (store_key n) c c'.
Proof.
  intros Hs. induction ws as [|w ws IH]; intros u c ev; simpl.
  - exists c. split; [reflexivity | apply who_grows_refl].
  - unfold bind, try_except. rewrite execute_open by exact Hs.
    pose proof (insert_who_grows (who_row_of n w) c) as G.
    destruct (insert_who (who_row_of n w) c) as [[[] c1]|e].
    + destruct (IH u c1 ev) as [c' [E G']]. exists c'.
      split; [exact E | eapply who_grows_trans; eauto].
    + subst e. simpl. apply IH.
Qed.

(** The loop of [_createNotification]: it returns or stops at the first
    IntegrityError; in both cases actor rows of the key of [n] were added,
    and if [n] has actors and its notification row exists, an actor row of
    that key is there afterwards. *)
Lemma for_each_insert_who_raising sql (n : Notification Info) ws :
  sqlite_accepts sql = true ->
  forall u c ev,
  exists res c',
    for_each ws (fun w => execute sql (insert_who (who_row_of n w)))
             (open_on u c ev)
    = (res, open_on u c' ev)
    /\ (res = Ok tt \/ res = Raise IntegrityError)
    /\ who_grows (store_key n) c c'
    /\ (ws <> [] ->
        (exists r, In r (notifications c) /\ n_key r = store_key n) ->
        exists x, In x (notifications_who c') /\ w_key x = store_key n).
Proof.
  intros Hs. induction ws as [|w ws IH]; intros u c ev; simpl.
  - exists (Ok tt), c. split; [reflexivity|]. split; [left; reflexivity|].
    split; [apply who_grows_refl|]. intros Hne. congruence.
  - unfold bind. rewrite execute_open by exact Hs.
    pose proof (insert_who_grows (who_row_of n w) c) as G.
    pose proof (insert_who_leaves_actor (who_row_of n w) c) as L.
    destruct (insert_who (who_row_of n w) c) as [[[] c1]|e].
    + destruct (IH u c1 ev) as (res & c' & E & R & G' & _).
      exists res, c'. split; [exact E|]. split; [exact R|].
      split; [eapply who_grows_trans; eauto|].
      intros _ P. destruct (L P) as [x [Hx Hk]].
      exists x. split; [eapply who_grows_In; eauto | exact Hk].
    + subst e. exists (Raise IntegrityError), c.
      split; [reflexivity|]. split; [right; reflexivity|].
      split; [apply who_grows_refl|].
      intros _ P. exact (L P).
Qed.

(** storeNotification on an open session always returns.  It merges (adds
    actor rows under the key of [n]) when an unseen row matches; otherwise it
    changes nothing when the primary key of [n] is taken, and else appends
    the row of [n] and then actor rows under its key. *)
Lemma storeNotification_open (n : Notification Info) u c ev :
  exists c',
    storeNotification n (open_on u c ev) = (Ok tt, open_on u c' ev)
    /\ if existsb (matches_unseen n) (notifications c)
       then who_grows (store_key n) c c'
       else if existsb (fun r => key_eqb (n_key (notifications_row_of n)) (n_key r))
                       (notifications c)
       then c' = c
       else who_grows (store_key n)
              (set_notifications c (notifications c ++ [notifications_row_of n])) c'
            /\ (who n <> [] ->
                exists x, In x (notifications_who c') /\ w_key x = store_key n).
Proof.
  unfold storeNotification, bind at 1, get_db.
  rewrite self_db_open_on. cbv beta iota.
  unfold try_except, _notificationExist, bind.
  rewrite execute_open by reflexivity.
  unfold select_count, fetchone, hd_error, subscript, ret.
  rewrite count_positive.
  destruct (existsb (matches_unseen n) (notifications c)) eqn:E.
  - unfold _updateNotification, bind.
    rewrite execute_open by reflexivity. unfold select_when, fetchone.
    apply existsb_exists in E. destruct E as [r [Hr Hm]].
    match goal with
    | |- context [map n_when (filter ?q (notifications c))] =>
        assert (Hq : In r (filter q (notifications c)))
    end.
    { apply filter_In. split; [exact Hr|].
      unfold matches_unseen in Hm. rewrite !andb_true_iff in Hm.
      rewrite !andb_true_iff. tauto. }
    match goal with
    | |- context [map n_when ?l] => destruct l as [|r1 l1]; [destruct Hq|]
    end.
    cbn [map hd_error subscript ret].
    match goal with
    | |- context [for_each (who n) ?body (open_on u c ev)] =>
        destruct (for_each_insert_who_passing
                    "INSERT INTO notifications_who (`what`, `when`, `where`, `who`) VALUES (?, ?, ?, ?)"
                    n (who n) eq_refl u c ev) as [c' [E' G]]
    end.
    rewrite E'. exists c'. split; [reflexivity | exact G].
  - unfold _createNotification, bind.
    rewrite execute_open by reflexivity. unfold insert_notification.
    destruct (existsb (fun r => key_eqb (n_key (notifications_row_of n)) (n_key r))
                      (notifications c)) eqn:P.
    + exists c. split; reflexivity.
    + destruct (for_each_insert_who_raising
                  "INSERT INTO notifications_who (`what`, `when`, `where`, `who`) VALUES (?, ?, ?, ?)"
                  n (who n) eq_refl u
                  (set_notifications c (notifications c ++ [notifications_row_of n])) ev)
        as (res & c' & E' & R & G & L).
      rewrite E'. exists c'. split.
      * destruct R; subst res; reflexivity.
      * split; [exact G|]. intros Hne. apply L; [exact Hne|].
        exists (notifications_row_of n). split; [|reflexivity].
        simpl. apply in_or_app. right. left. reflexivity.
Qed.

(** The merge leaves the actor rows of every notification of another key as
    they are; in particular those of the unseen row it found, when that row
    was stored under another timestamp. *)
Lemma storeNotification_merge_keeps_other_keys (n : Notification Info) u c ev r :
  existsb (matches_unseen n) (notifications c) = true ->
  In r (notifications c) ->
  n_key r <> store_key n ->
  exists c',
    storeNotification n (open_on u c ev) = (Ok tt, open_on u c' ev)
    /\ notifications c' = notifications c
    /\ partners c' r = partners c r.
Proof.
  intros E Hr Hk.
  destruct (storeNotification_open n u c ev) as [c' [R S]].
  rewrite E in S. exists c'. split; [exact R|].
  pose proof S as (_ & N & _ & _). split; [exact N|].
  apply (who_grows_partners _ _ _ r S Hk).
Qed.

(** A notification without actors that finds no merge candidate and a free
    primary key is stored as a notification row alone. *)
Lemma storeNotification_without_actors (n : Notification Info) u c ev :
  who n = [] ->
  existsb (matches_unseen n) (notifications c) = false ->
  (forall r, In r (notifications c) -> n_key r <> store_key n) ->
  storeNotification n (open_on u c ev)
  = (Ok tt,
     open_on u (set_notifications c (notifications c ++ [notifications_row_of n])) ev).
Proof.
  intros Hw E Hfree.
  assert (P : existsb (fun r => key_eqb (n_key (notifications_row_of n)) (n_key r))
                      (notifications c) = false).
  { apply not_true_iff_false. intros P. apply existsb_exists in P.
    destruct P as [r [Hr Hk]]. apply key_eqb_eq in Hk.
    apply (Hfree r Hr). symmetry. exact Hk. }
  unfold storeNotification, bind at 1, get_db.
  rewrite self_db_open_on. cbv beta iota.
  unfold try_except, _notificationExist, bind.
  rewrite execute_open by reflexivity.
  unfold select_count, fetchone, hd_error, subscript, ret.
  rewrite count_positive, E.
  unfold _createNotification, bind.
  rewrite execute_open by reflexivity. unfold insert_notification.
  rewrite P, Hw. reflexivity.
Qed.

End WritePath.

(** ** Seen events and the merge *)

Section SeenIsolation.

Context {Info : Type} `{Json Info}.

Lemma seen_row_is_no_merge_candidate (n : Notification Info) r :
  n_seen r = true -> matches_unseen n r = false.
Proof.
  intros Hs. unfold matches_unseen. rewrite Hs. apply andb_false_r.
Qed.

(** C6 (amended): only unseen rows are merge candidates.  When every stored row
    with the (what, where, info) of [n] is seen, storeNotification returns
    and, if no stored row has the primary key (what, when, where) of [n],
    appends the row of [n] (carrying the seen flag of [n]) while every stored
    row keeps exactly its actor rows; if a stored row has that primary key,
    the store is left as it was. *)
Theorem storeNotification_seen_event_is_not_merged_into :
  forall (u : option string) (c : Connection) (ev : list Event)
         (n : Notification Info),
    (forall r, In r (notifications c) ->
               n_what r = what n -> n_where r = where_ n ->
               n_info r = Some (json_dumps (info n)) ->
               n_seen r = true) ->
    (forall r, n_seen r = true -> matches_unseen n r = false)
    /\ ((forall r, In r (notifications c) -> n_key r <> store_key n) ->
     exists c',
       storeNotification n (open_on u c ev) = (Ok tt, open_on u c' ev)
       /\ notifications c' = notifications c ++ [notifications_row_of n]
       /\ n_seen (notifications_row_of n) = seen n
       /\ forall r, In r (notifications c) -> partners c' r = partners c r)
    /\ ((exists r, In r (notifications c) /\ n_key r = store_key n) ->
        storeNotification n (open_on u c ev) = (Ok tt, open_on u c ev)).
Proof.
  intros u c ev n Hseen.
  assert (E : existsb (matches_unseen n) (notifications c) = false).
  { apply not_true_iff_false. intros E. apply existsb_exists in E.
    destruct E as [r [Hr Hm]]. unfold matches_unseen in Hm.
    rewrite !andb_true_iff, !String.eqb_eq in Hm.
    destruct Hm as [[[Hw Hp] Hi] Hu].
    destruct (n_info r) as [t|] eqn:Ei; [|discriminate].
    apply String.eqb_eq in Hi. subst t.
    rewrite (Hseen r Hr Hw Hp Ei) in Hu. discriminate. }
  destruct (storeNotification_open n u c ev) as [c' [R S]].
  rewrite E in S. split; [apply seen_row_is_no_merge_candidate|]. split.
  - intros Hfree.
    assert (P : existsb (fun r => key_eqb (n_key (notifications_row_of n)) (n_key r))
                        (notifications c) = false).
    { apply not_true_iff_false. intros P. apply existsb_exists in P.
      destruct P as [r [Hr Hk]]. apply key_eqb_eq in Hk.
      apply (Hfree r Hr). symmetry. exact Hk. }
    rewrite P in S. destruct S as [G _]. exists c'.
    split; [exact R|]. pose proof G as (_ & N & _ & _).
    split; [exact N|]. split; [reflexivity|].
    intros r Hr. rewrite (who_grows_partners _ _ _ r G (Hfree r Hr)).
    reflexivity.
  - intros [r [Hr Hk]].
    assert (P : existsb (fun r => key_eqb (n_key (notifications_row_of n)) (n_key r))
                        (notifications c) = true).
    { apply existsb_exists. exists r. split; [exact Hr|].
      apply key_eqb_eq. symmetry. exact Hk. }
    rewrite P in S. subst c'. exact R.
Qed.

End SeenIsolation.

(** ** Operations that keep an actor for every notification *)

Lemma every_notification_has_actor_open u c ev :
  every_notification_has_actor (open_on u c ev) <-> keeps_actors c.
Proof.
  unfold every_notification_has_actor, keeps_actors. simpl. split.
  - intros I. apply I. reflexivity.
  - intros I c' [= <-]. exact I.
Qed.

Lemma backend_cases (s : Backend) :
  (exists u c ev, s = open_on u c ev) \/ (exists u ev, s = closed u ev).
Proof.
  destruct s as [u [c|] ev];
    [left; exists u, c, ev | right; exists u, ev]; reflexivity.
Qed.

Lemma preserves_ret {A} (a : A) : preserves (ret a).
Proof. intros s I. exact I. Qed.

Lemma preserves_get_db : preserves get_db.
Proof. intros s I. exact I. Qed.

Lemma preserves_get_user : preserves get_user.
Proof. intros s I. exact I. Qed.

Lemma preserves_subscript {R} (row : option R) : preserves (subscript row).
Proof. intros s I. destruct row; exact I. Qed.

Lemma preserves_notify e : preserves (notify e).
Proof. intros s I c E. apply (I c). exact E. Qed.

Lemma preserves_bind {A B} (m : M A) (k : A -> M B) :
  preserves m -> (forall a, preserves (k a)) -> preserves (bind m k).
Proof.
  intros Hm Hk s I. unfold bind. specialize (Hm s I).
  destruct (m s) as [[a|e] s']; simpl in *; [apply Hk|]; assumption.
Qed.

Lemma preserves_try_except {A} (m h : M A) e :
  preserves m -> preserves h -> preserves (try_except m e h).
Proof.
  intros Hm Hh s I. unfold try_except. specialize (Hm s I).
  destruct (m s) as [[a|e'] s']; simpl in *; [assumption|].
  destruct (exn_eqb e e'); [apply Hh|]; assumption.
Qed.

Lemma preserves_try_except_any {A} (m h : M A) :
  preserves m -> preserves h -> preserves (try_except_any m h).
Proof.
  intros Hm Hh s I. unfold try_except_any. specialize (Hm s I).
  destruct (m s) as [[a|e'] s']; simpl in *; [|apply Hh]; assumption.
Qed.

Lemma preserves_execute {A} sql (st : statement A) :
  statement_keeps_actors st -> preserves (execute sql st).
Proof.
  intros Hst s I. destruct (backend_cases s) as [(u & c & ev & ->)|(u & ev & ->)].
  - unfold execute. rewrite self_db_open_on.
    destruct (sqlite_accepts sql); [|exact I].
    apply every_notification_has_actor_open in I. specialize (Hst c I).
    destruct (st c) as [[a c']|e]; simpl.
    + apply (every_notification_has_actor_open u c' ev). exact Hst.
    + apply every_notification_has_actor_open. exact I.
  - exact I.
Qed.

Lemma reading_keeps_actors {A} (f : Connection -> A) :
  statement_keeps_actors (fun c => Ok (f c, c)).
Proof. intros c I. exact I. Qed.

Lemma update_seen_keeps_actors p : statement_keeps_actors (update_seen p).
Proof.
  intros c I n Hn. simpl in Hn. apply in_map_iff in Hn.
  destruct Hn as [m [<- Hm]]. destruct (I m Hm) as [w [Hw Hk]].
  exists w. split; [exact Hw|]. rewrite Hk. destruct (p m); reflexivity.
Qed.

Lemma delete_notifications_keeps_actors p :
  (forall a b, n_key a = n_key b -> p a = p b) ->
  statement_keeps_actors (delete_notifications p).
Proof.
  intros Hp c I n Hn. simpl in Hn. apply filter_In in Hn.
  destruct Hn as [Hn Hpn]. destruct (I n Hn) as [w [Hw Hk]].
  exists w. split; [|exact Hk]. simpl.
  destruct (foreign_keys c); [|exact Hw].
  apply filter_In. split; [exact Hw|].
  apply negb_true_iff, not_true_iff_false. intros E.
  apply existsb_exists in E. destruct E as [g [Hg Hgk]].
  apply filter_In in Hg. destruct Hg as [_ Hpg].
  apply key_eqb_eq in Hgk.
  rewrite (Hp g n) in Hpg by congruence.
  rewrite Hpg in Hpn. discriminate.
Qed.

Lemma subscriptions_only_keeps_actors (f : Connection -> list subscriptions_row) :
  statement_keeps_actors (fun c => Ok (tt, set_subscriptions c (f c))).
Proof. intros c I. exact I. Qed.

Lemma insert_subscription_keeps_actors r :
  statement_keeps_actors (insert_subscription r).
Proof.
  intros c I. unfold insert_subscription.
  destruct (existsb _ (subscriptions c)); [exact Logic.I | exact I].
Qed.

Section Invariant.

Context {Info : Type} `{Json Info}.

Lemma preserves_storeNotification (n : Notification Info) :
  who n <> [] -> preserves (storeNotification n).
Proof.
  intros Hne s I.
  destruct (backend_cases s) as [(u & c & ev & ->)|(u & ev & ->)]; [|exact I].
  destruct (storeNotification_open n u c ev) as [c' [E S]]. rewrite E. simpl.
  apply every_notification_has_actor_open in I.
  apply every_notification_has_actor_open.
  destruct (existsb (matches_unseen n) (notifications c)).
  - intros r Hr. pose proof S as (_ & N & _ & _). rewrite N in Hr.
    destruct (I r Hr) as [w [Hw Hk]]. exists w.
    split; [eapply who_grows_In; [exact S | exact Hw] | exact Hk].
  - destruct (existsb _ (notifications c)); [subst c'; exact I|].
    destruct S as [G A]. intros r Hr.
    pose proof G as (_ & N & _ & _). rewrite N in Hr. simpl in Hr.
    apply in_app_or in Hr. destruct Hr as [Hr|[<-|[]]].
    + destruct (I r Hr) as [w [Hw Hk]]. exists w.
      split; [|exact Hk]. eapply who_grows_In; [exact G | exact Hw].
    + exact (A Hne).
Qed.

Lemma after_keeps_actors (o : @operation Info) :
  stores_actors o ->
  forall s, every_notification_has_actor s ->
            every_notification_has_actor (after o s).
Proof.
  destruct o; simpl; intros Ho;
    match goal with
    | |- forall s, _ -> every_notification_has_actor (snd (?m s)) =>
        change (preserves m)
    end.
  - apply preserves_storeNotification. exact Ho.
  - unfold removeNotification.
    apply preserves_bind; [apply preserves_get_db|]. intros [c|]; [|apply preserves_ret].
    apply preserves_try_except; [|apply preserves_ret].
    apply preserves_execute, delete_notifications_keeps_actors.
    intros a b [= -> -> ->]. reflexivity.
  - unfold getHotNotifications.
    apply preserves_bind; [apply preserves_get_db|]. intros [c|]; [|apply preserves_ret].
    apply preserves_bind; [apply preserves_execute, reading_keeps_actors|]. intros cur.
    apply preserves_bind; [apply preserves_get_user|]. intros u. apply preserves_ret.
  - unfold getAllNotifications.
    apply preserves_bind; [apply preserves_get_db|]. intros [c|]; [|apply preserves_ret].
    apply preserves_bind; [apply preserves_execute, reading_keeps_actors|]. intros cur.
    apply preserves_bind; [apply preserves_get_user|]. intros u. apply preserves_ret.
  - unfold getUnseenNotifications.
    apply preserves_bind; [apply preserves_get_db|]. intros [c|]; [|apply preserves_ret].
    apply preserves_bind; [apply preserves_execute, reading_keeps_actors|]. intros cur.
    apply preserves_bind; [apply preserves_get_user|]. intros u. apply preserves_ret.
  - unfold setSeen. destruct path; apply preserves_execute, update_seen_keeps_actors.
  - unfold getUnseenCount.
    apply preserves_bind; [apply preserves_get_db|]. intros [c|]; [|apply preserves_ret].
    apply preserves_bind; [apply preserves_execute, reading_keeps_actors|]. intros cur.
    apply preserves_bind; [apply preserves_subscript|]. intros x. apply preserves_ret.
  - unfold getLastNotificationTime.
    apply preserves_try_except_any; [|apply preserves_ret].
    apply preserves_bind; [apply preserves_execute, reading_keeps_actors|]. intros cur.
    apply preserves_bind; [apply preserves_subscript|]. intros x. apply preserves_ret.
  - unfold clean. apply preserves_execute, delete_notifications_keeps_actors.
    intros a b [= _ -> _]. reflexivity.
  - unfold saveSubscription.
    apply preserves_bind.
    { apply preserves_try_except.
      - destruct (wants s); apply preserves_execute.
        + apply insert_subscription_keeps_actors.
        + apply subscriptions_only_keeps_actors.
      - apply preserves_execute, subscriptions_only_keeps_actors. }
    intros _. apply preserves_bind.
    { destruct (negb (truthy (wants s))); [|apply preserves_ret].
      apply preserves_execute, delete_notifications_keeps_actors.
      intros a b [= _ _ ->]. reflexivity. }
    intros _. destruct (truthy (wants s)); apply preserves_notify.
  - unfold getSubscription.
    apply preserves_bind; [apply preserves_execute, reading_keeps_actors|]. intros cur.
    destruct (fetchall cur); apply preserves_ret.
  - unfold getSubscriptions.
    apply preserves_bind; [apply preserves_execute, reading_keeps_actors|]. intros cur.
    apply preserves_ret.
Qed.

(** C4 (amended): an actor for every notification row is an invariant of
    every sequence of the twelve operations in which each notification
    handed to storeNotification has at least one actor. *)
Theorem every_notification_has_actor_invariant :
  forall (ops : list (@operation Info)) (s : Backend),
    Forall stores_actors ops ->
    every_notification_has_actor s ->
    every_notification_has_actor (after_all ops s).
Proof.
  intros ops s Hops. revert s.
  induction Hops as [|o ops Ho Hops IH]; intros s I; simpl.
  - exact I.
  - apply IH. apply (after_keeps_actors o Ho s I).
Qed.

End Invariant.

(** ** Subscriptions *)

(** C10: on an open session saveSubscription returns and notifies exactly one
    event whatever [wants] is: BlacklistedEvent for None as for False,
    SubscribedEvent for True. *)
Theorem saveSubscription_revocation_notifies_blacklisted :
  forall (u : option string) (c : Connection) (ev : list Event) (w : string),
    (exists c',
        saveSubscription {| sub_where := w; wants := None |} (open_on u c ev)
        = (Ok tt, open_on u c' (ev ++ [BlacklistedEvent w])))
    /\ (exists c',
        saveSubscription {| sub_where := w; wants := Some false |} (open_on u c ev)
        = (Ok tt, open_on u c' (ev ++ [BlacklistedEvent w])))
    /\ (exists c',
        saveSubscription {| sub_where := w; wants := Some true |} (open_on u c ev)
        = (Ok tt, open_on u c' (ev ++ [SubscribedEvent w]))).
Proof.
  intros u c ev w. repeat split.
  - unfold saveSubscription, bind, try_except. cbn [wants sub_where truthy negb].
    repeat (rewrite execute_open by reflexivity; simpl).
    eexists. reflexivity.
  - unfold saveSubscription, bind, try_except. cbn [wants sub_where truthy negb].
    rewrite execute_open by reflexivity. unfold insert_subscription.
    destruct (existsb _ (subscriptions c)); simpl;
      repeat (rewrite execute_open by reflexivity; simpl);
      eexists; reflexivity.
  - unfold saveSubscription, bind, try_except. cbn [wants sub_where truthy negb].
    rewrite execute_open by reflexivity. unfold insert_subscription.
    destruct (existsb _ (subscriptions c)); simpl;
      repeat (rewrite execute_open by reflexivity; simpl);
      eexists; reflexivity.
Qed.

(** *** The cascade of saveSubscription *)

Lemma like_run pattern x :
  like pattern x = true -> like (String "%" pattern) x = true.
Proof.
  intros E. destruct x; cbn [like]; rewrite Ascii.eqb_refl, E; reflexivity.
Qed.

Lemma like_run_skip pattern a x :
  like (String "%" pattern) x = true ->
  like (String "%" pattern) (String a x) = true.
Proof.
  intros E. cbn [like] in *. rewrite Ascii.eqb_refl in *.
  rewrite E. apply orb_true_r.
Qed.

Lemma like_any x : like "%" x = true.
Proof.
  induction x as [|a x IH].
  - reflexivity.
  - apply like_run_skip. exact IH.
Qed.

(** A string matches the pattern made of any of its prefixes and [%]. *)
Lemma like_prefix (p x : string) :
  String.prefix p x = true -> like (p ++ "%")%string x = true.
Proof.
  revert x. induction p as [|a p IH]; intros x Hp.
  - apply like_any.
  - destruct x as [|b x]; [discriminate|].
    cbn [String.prefix] in Hp. destruct (ascii_dec a b) as [<-|]; [|discriminate].
    specialize (IH x Hp).
    change (String a p ++ "%")%string with (String a (p ++ "%")%string).
    destruct (Ascii.eqb a "%") eqn:Ea.
    + apply Ascii.eqb_eq in Ea. subst a.
      apply like_run_skip, like_run. exact IH.
    + cbn [like]. rewrite Ea, IH, Ascii.eqb_refl, orb_true_r. reflexivity.
Qed.

(** On an open session saveSubscription with wants False or None returns,
    keeps exactly the notification rows whose where does not match the
    pattern made of the subscription's where and [%] under LIKE (so every
    row whose where starts with it goes), and with None leaves no
    subscription row for that where. *)
Lemma saveSubscription_cascade u c ev (w : string) (v : option bool) :
  v <> Some true ->
  exists c',
    saveSubscription {| sub_where := w; wants := v |} (open_on u c ev)
    = (Ok tt, open_on u c' (ev ++ [BlacklistedEvent w]))
    /\ notifications c'
       = filter (fun r => negb (like (w ++ "%")%string (n_where r))) (notifications c)
    /\ (forall r, In r (notifications c) ->
                  String.prefix w (n_where r) = true ->
                  ~ In r (notifications c'))
    /\ (v = None -> forall r, In r (subscriptions c') -> s_where r <> w).
Proof.
  intros Hv.
  assert (G : forall l r, In r l -> String.prefix w (n_where r) = true ->
              ~ In r (filter (fun r => negb (like (w ++ "%")%string (n_where r))) l)).
  { intros l r _ Hp Hin. apply filter_In in Hin. destruct Hin as [_ Hl].
    rewrite (like_prefix w (n_where r) Hp) in Hl. discriminate. }
  destruct v as [[|]|]; [congruence| |].
  - unfold saveSubscription, bind, try_except. cbn [wants sub_where truthy negb].
    rewrite execute_open by reflexivity. unfold insert_subscription.
    destruct (existsb _ (subscriptions c)); simpl;
      repeat (rewrite execute_open by reflexivity; simpl);
      eexists; (split; [reflexivity|]); simpl;
      (split; [reflexivity|]); (split; [apply G | discriminate]).
  - unfold saveSubscription, bind, try_except. cbn [wants sub_where truthy negb].
    repeat (rewrite execute_open by reflexivity; simpl).
    eexists. split; [reflexivity|]. simpl.
    split; [reflexivity|]. split; [apply G|].
    intros _ r Hr. apply filter_In in Hr. destruct Hr as [_ Hr].
    apply negb_true_iff, String.eqb_neq in Hr. exact Hr.
Qed.

(** ** Retention *)

(** C2: the text handed to execute by clean is not a statement, so with a
    session clean raises OperationalError, without one AttributeError, and in
    both cases nothing is deleted. *)
Theorem clean_raises_and_deletes_nothing :
  forall (now : Z) (u : option string) (c : Connection) (ev : list Event),
    clean now (open_on u c ev) = (Raise OperationalError, open_on u c ev)
    /\ clean now (closed u ev) = (Raise AttributeError, closed u ev).
Proof. intros. split; reflexivity. Qed.

(** ** Operations without a session *)

(** C3: without a session the seven operations that test [self.db] return
    their default and change nothing, while setSeen, clean, saveSubscription,
    getSubscription and getSubscriptions raise AttributeError. *)
Theorem closed_session_unguarded_operations_raise :
  forall (Info : Type) (J : Json Info) (u : option string) (ev : list Event)
         (n : Notification Info) (path : option string) (now : Z)
         (sub : Subscription) (w : string),
    let s := closed u ev in
    storeNotification n s = (Ok tt, s)
    /\ removeNotification n s = (Ok tt, s)
    /\ getHotNotifications (Info := Info) s = (Ok [], s)
    /\ getAllNotifications (Info := Info) s = (Ok [], s)
    /\ getUnseenNotifications (Info := Info) s = (Ok [], s)
    /\ getUnseenCount s = (Ok 0, s)
    /\ getLastNotificationTime now s = (Ok (now - 7 * 86400), s)
    /\ setSeen path s = (Raise AttributeError, s)
    /\ clean now s = (Raise AttributeError, s)
    /\ saveSubscription sub s = (Raise AttributeError, s)
    /\ getSubscription w s = (Raise AttributeError, s)
    /\ getSubscriptions s = (Raise AttributeError, s).
Proof.
  intros Info J u ev n path now sub w s. subst s.
  repeat split; try reflexivity.
  - destruct path; reflexivity.
  - unfold saveSubscription, bind, try_except.
    destruct (wants sub); reflexivity.
Qed.

(** * Further properties of the backend *)

(** ** What the reads return *)

Lemma when_desc_leb_total (a b : result_row) :
  when_desc_leb a b = true \/ when_desc_leb b a = true.
Proof. unfold when_desc_leb. rewrite !Z.leb_le. lia. Qed.

Lemma when_desc_leb_trans (a b c : result_row) :
  when_desc_leb a b = true -> when_desc_leb b c = true -> when_desc_leb a c = true.
Proof. unfold when_desc_leb. rewrite !Z.leb_le. lia. Qed.

Lemma split_from_nonempty sep s skip acc : split_from sep s skip acc <> [].
Proof.
  revert skip acc. induction s as [|ch s IH]; intros skip acc; cbn [split_from].
  - intros E. discriminate E.
  - destruct skip; [|apply IH].
    destruct (String.prefix sep (String ch s)); [|apply IH].
    intros E. discriminate E.
Qed.

Lemma filter_flat_map_fst {A} (f : A -> list joined_row)
      (p : notifications_row -> bool) (g : A -> notifications_row) (l : list A) :
  (forall a j, In j (f a) -> fst j = g a) ->
  filter (fun j => p (fst j)) (flat_map f l)
  = flat_map f (filter (fun a => p (g a)) l).
Proof.
  intros Hf. induction l as [|a l IH]; [reflexivity|].
  change (flat_map f (a :: l)) with (f a ++ flat_map f l).
  rewrite filter_app.
  etransitivity; [apply f_equal; exact IH|].
  change (filter (fun a => p (g a)) (a :: l))
    with (if p (g a) then a :: filter (fun a => p (g a)) l
          else filter (fun a => p (g a)) l).
  destruct (p (g a)) eqn:E.
  - change (flat_map f (a :: filter (fun a => p (g a)) l))
      with (f a ++ flat_map f (filter (fun a => p (g a)) l)).
    f_equal. apply forallb_filter_id. apply forallb_forall.
    intros j Hj. rewrite (Hf a j Hj). exact E.
  - rewrite filter_none; [reflexivity|].
    intros j Hj. rewrite (Hf a j Hj). exact E.
Qed.

Lemma inner_join_fst c n j :
  In j (map (fun w => (n, Some (w_who w))) (partners c n)) -> fst j = n.
Proof. intros Hj. apply in_map_iff in Hj. destruct Hj as [w [<- _]]. reflexivity. Qed.

Lemma inner_join_intro c n w :
  In n (notifications c) -> In w (notifications_who c) -> w_key w = n_key n ->
  In (n, Some (w_who w)) (inner_join c).
Proof.
  intros Hn Hw Hk. unfold inner_join. apply in_flat_map. exists n.
  split; [exact Hn|]. apply in_map_iff. exists w. split; [reflexivity|].
  apply partners_In. auto.
Qed.

Lemma inner_join_row c j :
  In j (inner_join c) ->
  exists n w, In n (notifications c) /\ In w (partners c n)
              /\ j = (n, Some (w_who w)).
Proof.
  unfold inner_join. rewrite in_flat_map. intros [n [Hn Hj]].
  apply in_map_iff in Hj. destruct Hj as [w [<- Hw]]. eauto.
Qed.

Lemma non_null_with_Some {A} (l : list (option A)) a :
  In (Some a) l -> non_null l <> [].
Proof.
  induction l as [|[b|] l IH]; cbn [non_null]; intros Hin.
  - destruct Hin.
  - intros E. discriminate E.
  - destruct Hin as [E|Hin]; [discriminate E | apply IH; exact Hin].
Qed.

Lemma group_concat_some sep (vals : list (option string)) :
  non_null vals <> [] -> exists s, group_concat sep vals = Some s.
Proof.
  intros Hne. unfold group_concat.
  destruct (map who_text (order_by index_leb (non_null vals))) as [|v vs] eqn:E.
  - exfalso. apply Hne. apply length_zero_iff_nil.
    rewrite <- (order_by_length _ index_leb), <- (length_map who_text), E.
    reflexivity.
  - eexists. reflexivity.
Qed.

(** The group of a row of an inner join has an actor to concatenate. *)
Lemma group_concat_of_inner_group c (p : joined_row -> bool) j :
  In j (filter p (inner_join c)) ->
  exists s, group_concat ", " (map snd (filter (same_group j) (filter p (inner_join c))))
            = Some s.
Proof.
  intros Hj. apply group_concat_some.
  assert (Hg : In j (filter (same_group j) (filter p (inner_join c)))).
  { apply filter_In. split; [exact Hj | apply key_eqb_refl]. }
  apply filter_In in Hj. destruct Hj as [Hj _].
  apply inner_join_row in Hj. destruct Hj as (n & w & _ & _ & Ej).
  assert (Hs : In (Some (w_who w))
                  (map snd (filter (same_group j) (filter p (inner_join c))))).
  { apply in_map_iff. exists j. split; [rewrite Ej; reflexivity | exact Hg]. }
  apply non_null_with_Some in Hs. exact Hs.
Qed.

(** The rows that GROUP BY makes of the inner join restricted by a WHERE
    clause [q] on the notification columns: each comes from a stored row
    passing [q] that has an actor, and carries an actor text; each such
    stored row has its group; there are no more groups than rows passing
    [q]. *)
Lemma grouped_inner_join c (q : notifications_row -> bool) :
  let rows := group_by_key (filter (fun j => q (fst j)) (inner_join c)) in
  (forall row, In row rows ->
     exists n s, In n (notifications c) /\ q n = true /\ has_actor c n
                 /\ (r_what row, r_when row, r_where row) = n_key n
                 /\ r_seen row = n_seen n
                 /\ r_who row = Some s)
  /\ (forall n, In n (notifications c) -> q n = true -> has_actor c n ->
        exists row, In row rows /\ (r_what row, r_when row, r_where row) = n_key n)
  /\ (length rows <= length (filter q (notifications c)))%nat.
Proof.
  intros rows. subst rows. split; [|split].
  - intros row Hrow. apply group_by_key_In in Hrow. destruct Hrow as [j [Hj ->]].
    destruct (group_concat_of_inner_group c (fun j => q (fst j)) j Hj) as [s Hs].
    apply filter_In in Hj. destruct Hj as [Hj Hq].
    apply inner_join_row in Hj. destruct Hj as (n & w & Hn & Hw & ->).
    apply partners_In in Hw. exists n, s.
    split; [exact Hn|]. split; [exact Hq|]. split; [exists w; exact Hw|].
    split; [reflexivity|]. split; [reflexivity | exact Hs].
  - intros n Hn Hq [w [Hw Hk]].
    assert (Hj : In (n, Some (w_who w))
                    (filter (fun j => q (fst j)) (inner_join c))).
    { apply filter_In. split; [apply inner_join_intro; assumption | exact Hq]. }
    destruct (group_heads_covers _ _ Hj) as [j [Hh Hjk]].
    exists (aggregate j (filter (same_group j)
                                (filter (fun j => q (fst j)) (inner_join c)))).
    split; [|exact Hjk].
    unfold group_by_key. apply in_map_iff. exists j. split; [reflexivity | exact Hh].
  - unfold group_by_key. rewrite length_map. unfold inner_join.
    rewrite (filter_flat_map_fst _ q (fun n => n));
      [|intros n j Hj; apply (inner_join_fst c n j Hj)].
    apply group_heads_one_per_row. intros n j Hj. apply (inner_join_fst c n j Hj).
Qed.

Section ReadResults.

Context {Info : Type} `{Json Info}.

Lemma getAllNotifications_open u c ev :
  getAllNotifications (open_on u c ev)
  = (Ok (map (_createNotificationFromResult u)
             (order_by when_desc_leb (group_by_key (inner_join c)))),
     open_on u c ev).
Proof.
  unfold getAllNotifications, bind, get_db.
  rewrite self_db_open_on. cbv iota beta.
  rewrite execute_open by reflexivity. reflexivity.
Qed.

Lemma getUnseenNotifications_open u c ev :
  getUnseenNotifications (open_on u c ev)
  = (Ok (map (_createNotificationFromResult u)
             (order_by when_desc_leb
                (group_by_key
                   (filter (fun j => negb (n_seen (fst j))) (inner_join c))))),
     open_on u c ev).
Proof.
  unfold getUnseenNotifications, bind, get_db.
  rewrite self_db_open_on. cbv iota beta.
  rewrite execute_open by reflexivity. reflexivity.
Qed.

Lemma getUnseenCount_open u c ev :
  getUnseenCount (open_on u c ev)
  = (Ok (Z.of_nat (length (filter (fun r => negb (n_seen r)) (notifications c)))),
     open_on u c ev).
Proof.
  unfold getUnseenCount, bind, get_db.
  rewrite self_db_open_on. cbv iota beta.
  rewrite execute_open by reflexivity. reflexivity.
Qed.

Lemma inner_join_unfiltered c :
  inner_join c = filter (fun j => (fun _ : notifications_row => true) (fst j)) (inner_join c).
Proof.
  symmetry. apply forallb_filter_id. apply forallb_forall. reflexivity.
Qed.

Lemma newest_first_events u (rows : list result_row) :
  StronglySorted (fun a b : Notification Info => when b <= when a)
    (map (_createNotificationFromResult u) (order_by when_desc_leb rows)).
Proof.
  apply StronglySorted_map.
  eapply StronglySorted_weaken;
    [|apply (order_by_ordered _ when_desc_leb when_desc_leb_total when_desc_leb_trans)].
  intros a b Hab. simpl. unfold fromtimestamp. apply Z.leb_le. exact Hab.
Qed.

(** X1: on an open session getAllNotifications returns, newest first, one
    event per key of a notification row that has an actor row, and only
    those: no two events share a key; every event it returns has a non-empty
    actor list. *)
Theorem getAllNotifications_events_with_actors_newest_first :
  forall (u : option string) (c : Connection) (ev : list Event),
  exists l : list (Notification Info),
    getAllNotifications (open_on u c ev) = (Ok l, open_on u c ev)
    /\ StronglySorted (fun a b => when b <= when a) l
    /\ NoDup (map event_key l)
    /\ (forall e, In e l -> who e <> [])
    /\ (forall k, (exists e, In e l /\ event_key e = k)
                  <-> (exists n, In n (notifications c) /\ n_key n = k
                                 /\ has_actor c n))
    /\ (length l <= length (notifications c))%nat.
Proof.
  intros u c ev. rewrite getAllNotifications_open. eexists.
  split; [reflexivity|]. split; [apply newest_first_events|].
  split; [apply events_NoDup, group_by_key_NoDup|].
  destruct (grouped_inner_join c (fun _ => true)) as (Hfrom & Hto & Hlen).
  rewrite <- inner_join_unfiltered in Hfrom, Hto, Hlen.
  split; [|split; [split|]].
  - intros e He. apply in_map_iff in He. destruct He as [row [<- Hrow]].
    apply order_by_In in Hrow.
    destruct (Hfrom row Hrow) as (n & s & _ & _ & _ & _ & _ & Hs).
    simpl. rewrite Hs. apply split_from_nonempty.
  - intros [e [He Hk]]. apply in_map_iff in He. destruct He as [row [<- Hrow]].
    apply order_by_In in Hrow.
    destruct (Hfrom row Hrow) as (n & s & Hn & _ & Ha & Hkey & _).
    exists n. split; [exact Hn|]. split; [|exact Ha].
    rewrite <- Hkey, <- Hk. reflexivity.
  - intros (n & Hn & Hk & Ha).
    destruct (Hto n Hn eq_refl Ha) as [row [Hrow Hkey]].
    exists (_createNotificationFromResult u row). split.
    + apply in_map. apply order_by_In. exact Hrow.
    + rewrite <- Hk, <- Hkey. reflexivity.
  - rewrite length_map, order_by_length.
    eapply Nat.le_trans; [exact Hlen|]. apply filter_length_le.
Qed.

(** X2: on an open session getUnseenNotifications returns, newest first, one
    event per key of an unseen notification row that has an actor row, and
    only those; every event is unseen with a non-empty actor list; and there
    are at most as many events as getUnseenCount counts. *)
Theorem getUnseenNotifications_unseen_events_within_count :
  forall (u : option string) (c : Connection) (ev : list Event),
  exists (l : list (Notification Info)) (count : Z),
    getUnseenNotifications (open_on u c ev) = (Ok l, open_on u c ev)
    /\ getUnseenCount (open_on u c ev) = (Ok count, open_on u c ev)
    /\ StronglySorted (fun a b => when b <= when a) l
    /\ (forall e, In e l -> seen e = false /\ who e <> [])
    /\ (forall k, (exists e, In e l /\ event_key e = k)
                  <-> (exists n, In n (notifications c) /\ n_key n = k
                                 /\ n_seen n = false /\ has_actor c n))
    /\ Z.of_nat (length l) <= count.
Proof.
  intros u c ev. rewrite getUnseenNotifications_open, getUnseenCount_open.
  eexists. eexists. split; [reflexivity|]. split; [reflexivity|].
  split; [apply newest_first_events|].
  destruct (grouped_inner_join c (fun r => negb (n_seen r))) as (Hfrom & Hto & Hlen).
  split; [|split; [split|]].
  - intros e He. apply in_map_iff in He. destruct He as [row [<- Hrow]].
    apply order_by_In in Hrow.
    destruct (Hfrom row Hrow) as (n & s & _ & Hq & _ & _ & Hseen & Hs).
    simpl. rewrite Hs, Hseen. split; [|apply split_from_nonempty].
    apply negb_true_iff. exact Hq.
  - intros [e [He Hk]]. apply in_map_iff in He. destruct He as [row [<- Hrow]].
    apply order_by_In in Hrow.
    destruct (Hfrom row Hrow) as (n & s & Hn & Hq & Ha & Hkey & _).
    exists n. split; [exact Hn|]. split; [rewrite <- Hkey, <- Hk; reflexivity|].
    split; [apply negb_true_iff; exact Hq | exact Ha].
  - intros (n & Hn & Hk & Hs & Ha).
    assert (Hq : negb (n_seen n) = true) by (rewrite Hs; reflexivity).
    destruct (Hto n Hn Hq Ha) as [row [Hrow Hkey]].
    exists (_createNotificationFromResult u row). split.
    + apply in_map. apply order_by_In. exact Hrow.
    + rewrite <- Hk, <- Hkey. reflexivity.
  - rewrite length_map, order_by_length. apply inj_le. exact Hlen.
Qed.

End ReadResults.

(** ** Marking as seen *)

Lemma mark_seen_key r : n_key (mark_seen r) = n_key r.
Proof. reflexivity. Qed.

Lemma update_seen_keys (p : notifications_row -> bool) l :
  map n_key (map (fun r => if p r then mark_seen r else r) l) = map n_key l.
Proof.
  rewrite map_map. apply map_ext. intros r. destruct (p r); reflexivity.
Qed.

Lemma unseen_after_update_seen (p : notifications_row -> bool) l :
  length (filter (fun r => negb (n_seen r))
                 (map (fun r => if p r then mark_seen r else r) l))
  = length (filter (fun r => negb (n_seen r) && negb (p r)) l).
Proof.
  induction l as [|r l IH]; [reflexivity|]. cbn [map filter].
  destruct (p r); cbn [mark_seen n_seen negb].
  - rewrite andb_false_r. exact IH.
  - rewrite andb_true_r. destruct (negb (n_seen r)); cbn [length]; congruence.
Qed.

Section Seen.

Context {Info : Type} `{Json Info}.

(** X3: on an open session setSeen() without a path returns; afterwards
    getUnseenCount is 0 and getUnseenNotifications is empty, while the keys
    of the notification rows, the actor rows and the subscriptions are as
    before. *)
Theorem setSeen_everything_leaves_nothing_unseen :
  forall (u : option string) (c : Connection) (ev : list Event),
  exists c',
    setSeen None (open_on u c ev) = (Ok tt, open_on u c' ev)
    /\ map n_key (notifications c') = map n_key (notifications c)
    /\ notifications_who c' = notifications_who c
    /\ subscriptions c' = subscriptions c
    /\ getUnseenCount (open_on u c' ev) = (Ok 0, open_on u c' ev)
    /\ getUnseenNotifications (Info := Info) (open_on u c' ev)
       = (Ok [], open_on u c' ev).
Proof.
  intros u c ev. unfold setSeen. rewrite execute_open by reflexivity.
  cbn [update_seen]. eexists. split; [reflexivity|].
  cbn [set_notifications notifications notifications_who subscriptions].
  split; [apply (update_seen_keys (fun _ => true))|].
  split; [reflexivity|]. split; [reflexivity|].
  assert (Hseen : forall r, In r (map (fun r => if true then mark_seen r else r)
                                      (notifications c)) -> n_seen r = true).
  { intros r Hr. apply in_map_iff in Hr. destruct Hr as [r0 [<- _]]. reflexivity. }
  split.
  - rewrite getUnseenCount_open.
    cbn [notifications]. rewrite filter_none; [reflexivity|].
    intros r Hr. rewrite (Hseen r Hr). reflexivity.
  - rewrite getUnseenNotifications_open.
    rewrite filter_none; [reflexivity|].
    intros j Hj. apply inner_join_In in Hj.
    destruct Hj as (n & w & Hn & _ & ->).
    cbn [notifications] in Hn. rewrite (Hseen n Hn). reflexivity.
Qed.

(** X4: on an open session setSeen(path) returns; afterwards every row whose
    where equals the path is seen, every row with another where is the row
    it was, the keys are as before, and getUnseenCount is the number of rows
    that were unseen under another where. *)
Theorem setSeen_path_marks_that_path_only :
  forall (u : option string) (c : Connection) (ev : list Event) (path : string),
  exists c',
    setSeen (Some path) (open_on u c ev) = (Ok tt, open_on u c' ev)
    /\ map n_key (notifications c') = map n_key (notifications c)
    /\ (forall r, In r (notifications c') -> n_where r = path -> n_seen r = true)
    /\ (forall r, n_where r <> path ->
                  (In r (notifications c') <-> In r (notifications c)))
    /\ getUnseenCount (open_on u c' ev)
       = (Ok (Z.of_nat (length (filter (fun r => negb (n_seen r)
                                                 && negb (String.eqb (n_where r) path))
                                       (notifications c)))),
          open_on u c' ev).
Proof.
  intros u c ev path. unfold setSeen. rewrite execute_open by reflexivity.
  cbn [update_seen]. eexists. split; [reflexivity|].
  cbn [set_notifications notifications].
  split; [apply update_seen_keys|]. split; [|split].
  - intros r Hr Hp. apply in_map_iff in Hr. destruct Hr as [r0 [<- Hr0]].
    destruct (String.eqb (n_where r0) path) eqn:E; [reflexivity|].
    apply String.eqb_neq in E. contradiction.
  - intros r Hp. rewrite in_map_iff. split.
    + intros [r0 [<- Hr0]].
      destruct (String.eqb (n_where r0) path) eqn:E; [|exact Hr0].
      apply String.eqb_eq in E. contradiction.
    + intros Hr. exists r. split; [|exact Hr].
      apply String.eqb_neq in Hp. rewrite Hp. reflexivity.
  - rewrite getUnseenCount_open. cbn [set_notifications notifications].
    rewrite (unseen_after_update_seen (fun r => String.eqb (n_where r) path)).
    reflexivity.
Qed.

End Seen.

(** ** Removing a notification *)

Lemma filter_filter_implied {A} (f g : A -> bool) (l : list A) :
  (forall x, In x l -> f x = true -> g x = true) ->
  filter f (filter g l) = filter f l.
Proof.
  induction l as [|x l IH]; intros Hfg; [reflexivity|]. cbn [filter].
  assert (IH' := IH (fun y Hy => Hfg y (or_intror Hy))).
  destruct (g x) eqn:G; cbn [filter].
  - destruct (f x); [f_equal|]; exact IH'.
  - destruct (f x) eqn:F; [|exact IH'].
    rewrite (Hfg x (or_introl eq_refl) F) in G. discriminate.
Qed.

Lemma filter_all {A} (f : A -> bool) (l : list A) :
  (forall x, In x l -> f x = true) -> filter f l = l.
Proof.
  intros Hf. apply forallb_filter_id. apply forallb_forall. exact Hf.
Qed.

Lemma Connection_ext (c c' : Connection) :
  foreign_keys c' = foreign_keys c ->
  notifications c' = notifications c ->
  notifications_who c' = notifications_who c ->
  subscriptions c' = subscriptions c ->
  c' = c.
Proof. destruct c, c'; simpl; intros; subst; reflexivity. Qed.

(** What DELETE FROM notifications does for a condition that holds exactly
    on the rows of key [k]. *)
Lemma delete_by_key c k (p : notifications_row -> bool) :
  (forall r, p r = key_eqb (n_key r) k) ->
  exists c',
    delete_notifications p c = Ok (tt, c')
    /\ foreign_keys c' = foreign_keys c
    /\ subscriptions c' = subscriptions c
    /\ notifications c' = filter (fun r => negb (key_eqb (n_key r) k)) (notifications c)
    /\ (foreign_keys c = false -> notifications_who c' = notifications_who c)
    /\ (foreign_keys c = true ->
        (exists r, In r (notifications c) /\ n_key r = k) ->
        notifications_who c'
        = filter (fun w => negb (key_eqb (w_key w) k)) (notifications_who c))
    /\ ((forall r, In r (notifications c) -> n_key r <> k) ->
        notifications_who c' = notifications_who c)
    /\ (forall r, n_key r <> k -> partners c' r = partners c r).
Proof.
  intros Hp. eexists. split; [reflexivity|].
  cbn [foreign_keys subscriptions notifications notifications_who].
  assert (Hgone : forall w,
             existsb (fun n => key_eqb (n_key n) (w_key w)) (filter p (notifications c)) = true
             -> w_key w = k).
  { intros w E. apply existsb_exists in E. destruct E as [g [Hg Hk]].
    apply filter_In in Hg. destruct Hg as [_ Hg]. rewrite Hp in Hg.
    apply key_eqb_eq in Hg, Hk. congruence. }
  split; [reflexivity|]. split; [reflexivity|]. split.
  { apply filter_ext. intros r. rewrite Hp. reflexivity. }
  split.
  { intros F. rewrite F. reflexivity. }
  split.
  { intros F [r [Hr Hk]]. rewrite F. apply filter_ext_in. intros w Hw. f_equal.
    destruct (key_eqb (w_key w) k) eqn:E.
    - apply existsb_exists. exists r. split.
      + apply filter_In. split; [exact Hr|]. rewrite Hp. apply key_eqb_eq. exact Hk.
      + apply key_eqb_eq in E. apply key_eqb_eq. congruence.
    - apply not_true_iff_false. intros E'. apply Hgone in E'.
      rewrite E', key_eqb_refl in E. discriminate. }
  split.
  { intros Hfree. destruct (foreign_keys c); [|reflexivity].
    rewrite (filter_none p).
    - apply filter_all. reflexivity.
    - intros r Hr. rewrite Hp. apply not_true_iff_false. intros E.
      apply key_eqb_eq in E. exact (Hfree r Hr E). }
  intros r Hk. unfold partners. cbn [notifications_who].
  destruct (foreign_keys c); [|reflexivity].
  apply filter_filter_implied. intros w _ E.
  apply negb_true_iff, not_true_iff_false. intros E'. apply Hgone in E'.
  apply key_eqb_eq in E. congruence.
Qed.

Section Removal.

Context {Info : Type} `{Json Info}.

Lemma removeNotification_open (n : Notification Info) u c ev :
  removeNotification n (open_on u c ev)
  = (Ok tt,
     open_on u
       match delete_notifications
               (fun r => String.eqb (n_what r) (what n)
                         && Z.eqb (n_when r) (getWhenTimestamp n)
                         && String.eqb (n_where r) (where_ n)) c
       with Ok (_, c') => c' | Raise _ => c end
       ev).
Proof.
  unfold removeNotification, bind, get_db.
  rewrite self_db_open_on. cbv iota beta.
  unfold try_except. rewrite execute_open by reflexivity. reflexivity.
Qed.

(** X5: on an open session removeNotification returns; it removes the rows
    of the notification's key (what, when, where) and no other, leaves the
    actors of every other key and the subscriptions as they were, and
    changes nothing when no row has the key.  The actor rows of the removed
    key go with it when foreign keys are enforced and stay behind
    otherwise. *)
Theorem removeNotification_removes_that_key_only :
  forall (u : option string) (c : Connection) (ev : list Event)
         (n : Notification Info),
  exists c',
    removeNotification n (open_on u c ev) = (Ok tt, open_on u c' ev)
    /\ (forall r, In r (notifications c')
                  <-> In r (notifications c) /\ n_key r <> store_key n)
    /\ (forall r, n_key r <> store_key n -> partners c' r = partners c r)
    /\ subscriptions c' = subscriptions c
    /\ ((forall r, In r (notifications c) -> n_key r <> store_key n) -> c' = c)
    /\ (foreign_keys c = false -> notifications_who c' = notifications_who c)
    /\ (foreign_keys c = true ->
        (exists r, In r (notifications c) /\ n_key r = store_key n) ->
        forall w, In w (notifications_who c') -> w_key w <> store_key n).
Proof.
  intros u c ev n. rewrite removeNotification_open.
  destruct (delete_by_key c (store_key n)
              (fun r => String.eqb (n_what r) (what n)
                        && Z.eqb (n_when r) (getWhenTimestamp n)
                        && String.eqb (n_where r) (where_ n)))
    as (c' & E & F & S & N & W0 & W1 & Wfree & P); [reflexivity|].
  rewrite E. exists c'. split; [reflexivity|]. split; [|split; [exact P|]].
  - intros r. rewrite N, filter_In, negb_true_iff, <- not_true_iff_false, key_eqb_eq.
    reflexivity.
  - split; [exact S|]. split; [|split; [exact W0|]].
    + intros Hfree. apply Connection_ext; auto.
      rewrite N. apply filter_all. intros r Hr.
      apply negb_true_iff, not_true_iff_false. rewrite key_eqb_eq. auto.
    + intros Fk Hex w Hw. rewrite (W1 Fk Hex) in Hw.
      apply filter_In in Hw. destruct Hw as [_ Hw].
      apply negb_true_iff, not_true_iff_false in Hw. rewrite key_eqb_eq in Hw.
      exact Hw.
Qed.

(** X6: storing a notification that finds no merge candidate and a free
    primary key and then removing it leaves the notification rows and the
    subscriptions as they were; with foreign keys enforced and no actor row
    of that key stored before, the store is exactly what it was. *)
Theorem storeNotification_then_removeNotification_restores :
  forall (u : option string) (c : Connection) (ev : list Event)
         (n : Notification Info),
    existsb (matches_unseen n) (notifications c) = false ->
    (forall r, In r (notifications c) -> n_key r <> store_key n) ->
    exists c1 c2,
      storeNotification n (open_on u c ev) = (Ok tt, open_on u c1 ev)
      /\ removeNotification n (open_on u c1 ev) = (Ok tt, open_on u c2 ev)
      /\ In (notifications_row_of n) (notifications c1)
      /\ notifications c2 = notifications c
      /\ subscriptions c2 = subscriptions c
      /\ (foreign_keys c = true ->
          (forall w, In w (notifications_who c) -> w_key w <> store_key n) ->
          c2 = c).
Proof.
  intros u c ev n E Hfree.
  destruct (storeNotification_open n u c ev) as [c1 [R S]].
  rewrite E in S.
  assert (P : existsb (fun r => key_eqb (n_key (notifications_row_of n)) (n_key r))
                      (notifications c) = false).
  { apply not_true_iff_false. intros P. apply existsb_exists in P.
    destruct P as [r [Hr Hk]]. apply key_eqb_eq in Hk.
    apply (Hfree r Hr). symmetry. exact Hk. }
  rewrite P in S. destruct S as [G _].
  destruct G as (F1 & N1 & S1 & extra & W1 & K1).
  cbn [set_notifications foreign_keys notifications notifications_who subscriptions]
    in F1, N1, S1, W1.
  destruct (delete_by_key c1 (store_key n)
              (fun r => String.eqb (n_what r) (what n)
                        && Z.eqb (n_when r) (getWhenTimestamp n)
                        && String.eqb (n_where r) (where_ n)))
    as (c2 & E2 & F2 & S2 & N2 & _ & W2 & _ & _); [reflexivity|].
  exists c1, c2. split; [exact R|].
  split; [rewrite removeNotification_open, E2; reflexivity|].
  assert (Hrow : In (notifications_row_of n) (notifications c1)).
  { rewrite N1. apply in_or_app. right. left. reflexivity. }
  split; [exact Hrow|].
  assert (HN : notifications c2 = notifications c).
  { rewrite N2, N1, filter_app. cbn [filter].
    change (n_key (notifications_row_of n)) with (store_key n).
    rewrite key_eqb_refl. cbn [negb]. rewrite app_nil_r.
    apply filter_all. intros r Hr.
    apply negb_true_iff, not_true_iff_false. rewrite key_eqb_eq. auto. }
  split; [exact HN|]. split; [congruence|].
  intros Fk Hclean. apply Connection_ext; try congruence.
  rewrite W2; [|congruence|exists (notifications_row_of n); split; [exact Hrow | reflexivity]].
  rewrite W1, filter_app, (filter_none _ extra), app_nil_r.
  - apply filter_all. intros w Hw.
    apply negb_true_iff, not_true_iff_false. rewrite key_eqb_eq. auto.
  - intros w Hw. rewrite (K1 w Hw), key_eqb_refl. reflexivity.
Qed.

End Removal.

(** ** Subscriptions *)

Lemma getSubscription_open w u c ev :
  getSubscription w (open_on u c ev)
  = (Ok match filter (fun r => String.eqb (s_where r) w) (subscriptions c) with
        | [] => None
        | r :: _ => Some (_createSubscriptionFromResult r)
        end,
     open_on u c ev).
Proof.
  unfold getSubscription, bind. rewrite execute_open by reflexivity.
  cbn [select_subscriptions fetchall].
  destruct (filter _ (subscriptions c)); reflexivity.
Qed.

Lemma getSubscriptions_open u c ev :
  getSubscriptions (open_on u c ev)
  = (Ok (map _createSubscriptionFromResult (subscriptions c)), open_on u c ev).
Proof.
  unfold getSubscriptions, bind. rewrite execute_open by reflexivity.
  cbn [select_subscriptions fetchall]. unfold ret.
  rewrite filter_all; reflexivity.
Qed.

(** The subscriptions table after saveSubscription: the row of [w] deleted
    for None; for True or False the existing rows of [w] updated, or a row
    appended when there is none. *)
Lemma saveSubscription_subscriptions u c ev w v :
  exists c' ev',
    saveSubscription {| sub_where := w; wants := v |} (open_on u c ev)
    = (Ok tt, open_on u c' ev')
    /\ subscriptions c'
       = match v with
         | None => filter (fun r => negb (String.eqb (s_where r) w)) (subscriptions c)
         | Some b =>
             if existsb (fun x => String.eqb w (s_where x)) (subscriptions c)
             then map (fun r => if String.eqb (s_where r) w
                                then {| s_where := s_where r; s_wants := Some b |}
                                else r)
                      (subscriptions c)
             else subscriptions c ++ [ {| s_where := w; s_wants := Some b |} ]
         end.
Proof.
  destruct v as [[|]|];
    unfold saveSubscription, bind, try_except; cbn [wants sub_where truthy negb].
  - rewrite execute_open by reflexivity. unfold insert_subscription.
    cbn [s_where]. destruct (existsb _ (subscriptions c)); simpl;
      repeat (rewrite execute_open by reflexivity; simpl);
      eexists; eexists; split; reflexivity.
  - rewrite execute_open by reflexivity. unfold insert_subscription.
    cbn [s_where]. destruct (existsb _ (subscriptions c)); simpl;
      repeat (rewrite execute_open by reflexivity; simpl);
      eexists; eexists; split; reflexivity.
  - repeat (rewrite execute_open by reflexivity; simpl).
    eexists. eexists. split; reflexivity.
Qed.

Lemma filter_updated_other (w w' : string) (v : option bool) l :
  w' <> w ->
  filter (fun r => String.eqb (s_where r) w')
         (map (fun r => if String.eqb (s_where r) w
                        then {| s_where := s_where r; s_wants := v |}
                        else r) l)
  = filter (fun r => String.eqb (s_where r) w') l.
Proof.
  intros Hw. induction l as [|x l IH]; [reflexivity|]. cbn [map filter].
  destruct (String.eqb (s_where x) w) eqn:E; cbn [s_where].
  - apply String.eqb_eq in E.
    assert (E' : String.eqb (s_where x) w' = false).
    { apply String.eqb_neq. congruence. }
    rewrite E'. exact IH.
  - destruct (String.eqb (s_where x) w'); [f_equal|]; exact IH.
Qed.

Lemma filter_updated_same (w : string) (b : bool) l :
  existsb (fun x => String.eqb w (s_where x)) l = true ->
  exists rest,
    filter (fun r => String.eqb (s_where r) w)
           (map (fun r => if String.eqb (s_where r) w
                          then {| s_where := s_where r; s_wants := Some b |}
                          else r) l)
    = {| s_where := w; s_wants := Some b |} :: rest.
Proof.
  induction l as [|x l IH]; [discriminate|]. cbn [existsb map filter].
  rewrite (String.eqb_sym w (s_where x)).
  destruct (String.eqb (s_where x) w) eqn:E; cbn [s_where orb].
  - intros _. rewrite E. apply String.eqb_eq in E. rewrite E. eexists. reflexivity.
  - intros Hex. rewrite E. apply IH. exact Hex.
Qed.

(** X7: on an open session saveSubscription returns, and getSubscription of
    the same where then returns the saved subscription (None after a
    revocation), while getSubscription of any other where returns what it
    returned before. *)
Theorem saveSubscription_then_getSubscription :
  forall (u : option string) (c : Connection) (ev : list Event)
         (w : string) (v : option bool),
  exists c' ev',
    saveSubscription {| sub_where := w; wants := v |} (open_on u c ev)
    = (Ok tt, open_on u c' ev')
    /\ getSubscription w (open_on u c' ev')
       = (Ok match v with
             | None => None
             | Some b => Some {| sub_where := w; wants := Some b |}
             end,
          open_on u c' ev')
    /\ forall w', w' <> w ->
                  fst (getSubscription w' (open_on u c' ev'))
                  = fst (getSubscription w' (open_on u c ev)).
Proof.
  intros u c ev w v.
  destruct (saveSubscription_subscriptions u c ev w v) as (c' & ev' & E & S).
  exists c', ev'. split; [exact E|].
  split; [|intros w' Hw]; rewrite !getSubscription_open; cbn [fst]; rewrite S.
  - destruct v as [b|].
    + destruct (existsb _ (subscriptions c)) eqn:X.
      * destruct (filter_updated_same w b _ X) as [rest ->].
        destruct b; reflexivity.
      * rewrite filter_app, (filter_none _ (subscriptions c)).
        -- cbn [filter s_where app]. rewrite String.eqb_refl. destruct b; reflexivity.
        -- intros x Hx. apply not_true_iff_false. intros Ex.
           rewrite <- not_true_iff_false in X. apply X.
           apply existsb_exists. exists x. split; [exact Hx|].
           rewrite String.eqb_sym. exact Ex.
    + rewrite filter_none; [reflexivity|].
      intros x Hx. apply filter_In in Hx. destruct Hx as [_ Hx].
      apply negb_true_iff. exact Hx.
  - destruct v as [b|].
    + destruct (existsb _ (subscriptions c)).
      * rewrite filter_updated_other by exact Hw. reflexivity.
      * rewrite filter_app. cbn [filter s_where].
        assert (Ew : String.eqb w w' = false) by (apply String.eqb_neq; congruence).
        rewrite Ew, app_nil_r. reflexivity.
    + rewrite filter_filter_implied; [reflexivity|].
      intros x _ Ex. apply negb_true_iff, String.eqb_neq.
      apply String.eqb_eq in Ex. congruence.
Qed.

(** ** The constraints of the schema are kept *)

Section Keeping.

Variable I : Connection -> Prop.

Lemma holds_on_open u c ev : holds_on I (open_on u c ev) <-> I c.
Proof.
  unfold holds_on. simpl. split.
  - intros P. apply P. reflexivity.
  - intros P c' [= <-]. exact P.
Qed.

Lemma keeps_ret {A} (a : A) : keeps I (ret a).
Proof. intros s P. exact P. Qed.

Lemma keeps_get_db : keeps I get_db.
Proof. intros s P. exact P. Qed.

Lemma keeps_get_user : keeps I get_user.
Proof. intros s P. exact P. Qed.

Lemma keeps_subscript {R} (row : option R) : keeps I (subscript row).
Proof. intros s P. destruct row; exact P. Qed.

Lemma keeps_notify e : keeps I (notify e).
Proof. intros s P c E. apply (P c). exact E. Qed.

Lemma keeps_bind {A B} (m : M A) (k : A -> M B) :
  keeps I m -> (forall a, keeps I (k a)) -> keeps I (bind m k).
Proof.
  intros Hm Hk s P. unfold bind. specialize (Hm s P).
  destruct (m s) as [[a|e] s']; simpl in *; [apply Hk|]; assumption.
Qed.

Lemma keeps_try_except {A} (m h : M A) e :
  keeps I m -> keeps I h -> keeps I (try_except m e h).
Proof.
  intros Hm Hh s P. unfold try_except. specialize (Hm s P).
  destruct (m s) as [[a|e'] s']; simpl in *; [assumption|].
  destruct (exn_eqb e e'); [apply Hh|]; assumption.
Qed.

Lemma keeps_try_except_any {A} (m h : M A) :
  keeps I m -> keeps I h -> keeps I (try_except_any m h).
Proof.
  intros Hm Hh s P. unfold try_except_any. specialize (Hm s P).
  destruct (m s) as [[a|e'] s']; simpl in *; [|apply Hh]; assumption.
Qed.

Lemma keeps_for_each {A} (l : list A) (body : A -> M unit) :
  (forall a, keeps I (body a)) -> keeps I (for_each l body).
Proof.
  intros Hb. induction l as [|a l IH]; cbn [for_each].
  - apply keeps_ret.
  - apply keeps_bind; [apply Hb | intros _; exact IH].
Qed.

Lemma keeps_execute {A} sql (st : statement A) :
  statement_keeps I st -> keeps I (execute sql st).
Proof.
  intros Hst s P. destruct (backend_cases s) as [(u & c & ev & ->)|(u & ev & ->)].
  - unfold execute. rewrite self_db_open_on.
    destruct (sqlite_accepts sql); [|exact P].
    apply holds_on_open in P. specialize (Hst c P).
    destruct (st c) as [[a c']|e]; simpl.
    + apply (holds_on_open u c' ev). exact Hst.
    + apply holds_on_open. exact P.
  - exact P.
Qed.

Lemma reading_keeps {A} (f : Connection -> A) :
  statement_keeps I (fun c => Ok (f c, c)).
Proof. intros c P. exact P. Qed.

End Keeping.

Lemma NoDup_map_filter {A B} (f : A -> B) (p : A -> bool) (l : list A) :
  NoDup (map f l) -> NoDup (map f (filter p l)).
Proof.
  induction l as [|x l IH]; cbn [map filter]; intros Hn; [exact Hn|].
  inversion Hn as [|? ? Hx Hl]; subst.
  destruct (p x); cbn [map]; [|apply IH; exact Hl].
  constructor; [|apply IH; exact Hl].
  intros Hin. apply Hx. apply in_map_iff in Hin. destruct Hin as [y [Ey Hy]].
  apply filter_In in Hy. apply in_map_iff. exists y. tauto.
Qed.

Lemma NoDup_map_snoc {A B} (f : A -> B) (l : list A) (x : A) :
  NoDup (map f l) -> ~ In (f x) (map f l) -> NoDup (map f (l ++ [x])).
Proof.
  induction l as [|y l IH]; cbn [map app]; intros Hn Hx.
  - constructor; [intros []|constructor].
  - inversion Hn as [|? ? Hy Hl]; subst. constructor.
    + rewrite map_app. intros Hin. apply in_app_or in Hin.
      destruct Hin as [Hin|[E|[]]]; [exact (Hy Hin)|].
      apply Hx. left. symmetry. exact E.
    + apply IH; [exact Hl|]. intros Hin. apply Hx. right. exact Hin.
Qed.

Lemma who_pk_eqb r w :
  key_eqb (w_key r) (w_key w) && String.eqb (w_who r) (w_who w) = true
  <-> who_pk r = who_pk w.
Proof.
  unfold who_pk. split.
  - intros E. apply andb_true_iff in E. destruct E as [Ek Ew].
    apply key_eqb_eq in Ek. apply String.eqb_eq in Ew. congruence.
  - intros E.
    assert (Ek : w_key r = w_key w) by exact (f_equal fst E).
    assert (Ew : w_who r = w_who w) by exact (f_equal snd E).
    apply andb_true_iff. split.
    + apply key_eqb_eq. exact Ek.
    + apply String.eqb_eq. exact Ew.
Qed.

Lemma insert_notification_well_formed r : statement_keeps well_formed (insert_notification r).
Proof.
  intros c (Nn & Nw & Ns & Fk). unfold insert_notification.
  destruct (existsb _ (notifications c)) eqn:E; [exact Logic.I|].
  repeat split; cbn [set_notifications notifications notifications_who
                       subscriptions foreign_keys]; auto.
  - apply NoDup_map_snoc; [exact Nn|]. intros Hin.
    apply in_map_iff in Hin. destruct Hin as [n [Hk Hn]].
    rewrite <- not_true_iff_false in E. apply E.
    apply existsb_exists. exists n. split; [exact Hn|].
    apply key_eqb_eq. congruence.
  - intros F w Hw. destruct (Fk F w Hw) as [n [Hn Hk]].
    exists n. split; [apply in_or_app; left; exact Hn | exact Hk].
Qed.

Lemma insert_who_well_formed r : statement_keeps well_formed (insert_who r).
Proof.
  intros c (Nn & Nw & Ns & Fk). unfold insert_who.
  destruct (existsb _ (notifications_who c)) eqn:E; [exact Logic.I|].
  destruct (foreign_keys c) eqn:F; cbn [andb].
  - destruct (existsb _ (notifications c)) eqn:P; cbn [negb]; [|exact Logic.I].
    repeat split; cbn [set_notifications_who notifications notifications_who
                         subscriptions foreign_keys]; auto.
    + apply NoDup_map_snoc; [exact Nw|]. intros Hin.
      apply in_map_iff in Hin. destruct Hin as [w [Hk Hw]].
      rewrite <- not_true_iff_false in E. apply E.
      apply existsb_exists. exists w. split; [exact Hw|].
      apply (proj2 (who_pk_eqb (stored_who r) w)). congruence.
    + intros _ w Hw. apply in_app_or in Hw. destruct Hw as [Hw|[<-|[]]].
      * apply Fk; [reflexivity | exact Hw].
      * apply existsb_exists in P. destruct P as [n [Hn Hk]].
        apply key_eqb_eq in Hk. exists n. split; [exact Hn | symmetry; exact Hk].
  - repeat split; cbn [set_notifications_who notifications notifications_who
                         subscriptions foreign_keys]; auto.
    + apply NoDup_map_snoc; [exact Nw|]. intros Hin.
      apply in_map_iff in Hin. destruct Hin as [w [Hk Hw]].
      rewrite <- not_true_iff_false in E. apply E.
      apply existsb_exists. exists w. split; [exact Hw|].
      apply (proj2 (who_pk_eqb (stored_who r) w)). congruence.
    + rewrite F. discriminate.
Qed.

Lemma delete_notifications_well_formed p :
  statement_keeps well_formed (delete_notifications p).
Proof.
  intros c (Nn & Nw & Ns & Fk).
  repeat split; cbn [notifications notifications_who subscriptions foreign_keys].
  - apply NoDup_map_filter. exact Nn.
  - destruct (foreign_keys c); [apply NoDup_map_filter|]; exact Nw.
  - exact Ns.
  - intros F w Hw. rewrite F in Hw. apply filter_In in Hw. destruct Hw as [Hw Hg].
    destruct (Fk F w Hw) as [n [Hn Hk]]. exists n. split; [|exact Hk].
    apply filter_In. split; [exact Hn|].
    apply negb_true_iff, not_true_iff_false. intros Hp.
    apply negb_true_iff in Hg. rewrite <- not_true_iff_false in Hg. apply Hg.
    apply existsb_exists. exists n. split.
    + apply filter_In. split; assumption.
    + apply key_eqb_eq. exact Hk.
Qed.

Lemma update_seen_well_formed p : statement_keeps well_formed (update_seen p).
Proof.
  intros c (Nn & Nw & Ns & Fk).
  repeat split; cbn [update_seen set_notifications notifications notifications_who
                       subscriptions foreign_keys]; auto.
  - rewrite update_seen_keys. exact Nn.
  - intros F w Hw. destruct (Fk F w Hw) as [n [Hn Hk]].
    exists (if p n then mark_seen n else n). split.
    + apply in_map_iff. exists n. split; [reflexivity | exact Hn].
    + rewrite <- Hk. destruct (p n); reflexivity.
Qed.

Lemma delete_subscription_well_formed w :
  statement_keeps well_formed (delete_subscription w).
Proof.
  intros c (Nn & Nw & Ns & Fk).
  repeat split; cbn [set_subscriptions notifications notifications_who
                       subscriptions foreign_keys]; auto.
  apply NoDup_map_filter. exact Ns.
Qed.

Lemma insert_subscription_well_formed r :
  statement_keeps well_formed (insert_subscription r).
Proof.
  intros c (Nn & Nw & Ns & Fk). unfold insert_subscription.
  destruct (existsb _ (subscriptions c)) eqn:E; [exact Logic.I|].
  repeat split; cbn [set_subscriptions notifications notifications_who
                       subscriptions foreign_keys]; auto.
  apply NoDup_map_snoc; [exact Ns|]. intros Hin.
  apply in_map_iff in Hin. destruct Hin as [x [Hk Hx]].
  rewrite <- not_true_iff_false in E. apply E.
  apply existsb_exists. exists x. split; [exact Hx|].
  apply String.eqb_eq. congruence.
Qed.

Lemma update_subscription_well_formed v w :
  statement_keeps well_formed (update_subscription v w).
Proof.
  intros c (Nn & Nw & Ns & Fk).
  repeat split; cbn [set_subscriptions notifications notifications_who
                       subscriptions foreign_keys]; auto.
  rewrite map_map.
  rewrite (map_ext _ s_where); [exact Ns|].
  intros r. destruct (String.eqb (s_where r) w); reflexivity.
Qed.

Ltac keeps_well_formed :=
  repeat first
    [ apply keeps_ret | apply keeps_get_db | apply keeps_get_user
    | apply keeps_subscript | apply keeps_notify
    | apply keeps_bind; [|intro]
    | apply keeps_try_except | apply keeps_try_except_any
    | apply keeps_for_each; intro
    | apply keeps_execute
    | apply reading_keeps
    | apply insert_notification_well_formed | apply insert_who_well_formed
    | apply delete_notifications_well_formed | apply update_seen_well_formed
    | apply delete_subscription_well_formed | apply insert_subscription_well_formed
    | apply update_subscription_well_formed
    | match goal with
      | |- keeps _ (match ?x with _ => _ end) => destruct x
      | |- keeps _ (if ?b then _ else _) => destruct b
      end ].

(** ** Storing a notification *)

Lemma rejects_after_insert r c c' : insert_who r c = Ok (tt, c') -> rejects r c'.
Proof.
  unfold rejects, insert_who.
  destruct (existsb _ (notifications_who c)); [discriminate|].
  destruct (foreign_keys c && _)%bool; [discriminate|].
  intros [= <-]. cbn [set_notifications_who notifications_who].
  rewrite existsb_app. cbn [existsb stored_who w_key w_who w_what w_when w_where].
  change (w_what r, w_when r, w_where r) with (w_key r).
  rewrite key_eqb_refl, String.eqb_refl. cbn [andb orb].
  rewrite orb_true_r. reflexivity.
Qed.

Lemma rejects_mono k r c c' : rejects r c -> who_grows k c c' -> rejects r c'.
Proof.
  unfold rejects, insert_who. intros Hr (F & N & _ & extra & W & _).
  rewrite W, existsb_app, F, N.
  destruct (existsb _ (notifications_who c)); [reflexivity|]. cbn [orb].
  destruct (existsb _ extra); [reflexivity|].
  destruct (foreign_keys c && _)%bool; [reflexivity | discriminate].
Qed.

Section Storing.

Context {Info : Type} `{Json Info}.

(** The merge loop leaves a store on which every actor of the notification
    is refused, so that a second run of the loop changes nothing. *)
Lemma for_each_insert_who_passing_saturates sql (n : Notification Info) ws :
  sqlite_accepts sql = true ->
  forall u c ev,
  exists c',
    for_each ws
      (fun w => try_except (execute sql (insert_who (who_row_of n w)))
                           IntegrityError (ret tt))
      (open_on u c ev)
    = (Ok tt, open_on u c' ev)
    /\ who_grows (store_key n) c c'
    /\ forall w, In w ws -> rejects (who_row_of n w) c'.
Proof.
  intros Hs. induction ws as [|w ws IH]; intros u c ev; cbn [for_each].
  - exists c. split; [reflexivity|]. split; [apply who_grows_refl | intros w []].
  - unfold bind, try_except. rewrite execute_open by exact Hs.
    pose proof (insert_who_grows (who_row_of n w) c) as G.
    pose proof (rejects_after_insert (who_row_of n w) c) as A.
    destruct (insert_who (who_row_of n w) c) as [[[] c1]|e] eqn:E.
    + destruct (IH u c1 ev) as (c' & E' & G' & S). exists c'.
      split; [exact E'|]. split; [eapply who_grows_trans; eauto|].
      intros x [<-|Hx]; [|apply S; exact Hx].
      eapply rejects_mono; [apply A; reflexivity | exact G'].
    + subst e. cbn [exn_eqb]. unfold ret.
      destruct (IH u c ev) as (c' & E' & G' & S). exists c'.
      split; [exact E'|]. split; [exact G'|].
      intros x [<-|Hx]; [|apply S; exact Hx].
      eapply rejects_mono; [exact E | exact G'].
Qed.

Lemma for_each_insert_who_passing_refused sql (n : Notification Info) ws u c ev :
  sqlite_accepts sql = true ->
  (forall w, In w ws -> rejects (who_row_of n w) c) ->
  for_each ws
    (fun w => try_except (execute sql (insert_who (who_row_of n w)))
                         IntegrityError (ret tt))
    (open_on u c ev)
  = (Ok tt, open_on u c ev).
Proof.
  intros Hs. induction ws as [|w ws IH]; intros Hr; cbn [for_each]; [reflexivity|].
  unfold bind, try_except. rewrite execute_open by exact Hs.
  rewrite (Hr w (or_introl eq_refl)). cbn [exn_eqb]. unfold ret.
  apply IH. intros x Hx. apply Hr. right. exact Hx.
Qed.

(** The loop of [_createNotification] inserts every actor when the actors
    are stored as distinct values, none of these values is stored yet under
    the key, and the notification row is there. *)
Lemma for_each_insert_who_raising_complete sql (n : Notification Info) ws :
  sqlite_accepts sql = true ->
  NoDup (map integer_affinity ws) ->
  forall u c ev,
    (forall w x, In w ws -> In x (notifications_who c) ->
                 who_pk x <> who_pk (stored_who (who_row_of n w))) ->
    (exists r, In r (notifications c) /\ n_key r = store_key n) ->
    for_each ws (fun w => execute sql (insert_who (who_row_of n w)))
             (open_on u c ev)
    = (Ok tt,
       open_on u (set_notifications_who c
                    (notifications_who c
                     ++ map (fun w => stored_who (who_row_of n w)) ws)) ev).
Proof.
  intros Hs. induction ws as [|w ws IH]; intros Hnd u c ev Hnew Hparent;
    cbn [for_each map].
  - rewrite app_nil_r. destruct c; reflexivity.
  - cbn [map] in Hnd. inversion Hnd as [|? ? Hw Hnd']; subst.
    unfold bind. rewrite execute_open by exact Hs. unfold insert_who.
    assert (E1 : existsb (fun x => key_eqb (w_key (who_row_of n w)) (w_key x)
                                   && String.eqb (integer_affinity (w_who (who_row_of n w)))
                                                 (w_who x))
                         (notifications_who c) = false).
    { apply not_true_iff_false. intros E. apply existsb_exists in E.
      destruct E as [x [Hx Hk]].
      apply (proj1 (who_pk_eqb (stored_who (who_row_of n w)) x)) in Hk.
      apply (Hnew w x (or_introl eq_refl) Hx). symmetry. exact Hk. }
    assert (E2 : existsb (fun r => key_eqb (w_key (who_row_of n w)) (n_key r))
                         (notifications c) = true).
    { destruct Hparent as [r [Hr Hk]]. apply existsb_exists. exists r.
      split; [exact Hr|]. apply key_eqb_eq. symmetry. exact Hk. }
    rewrite E1, E2. cbn [negb]. rewrite andb_false_r.
    rewrite IH.
    + cbn [set_notifications_who notifications_who notifications foreign_keys
             subscriptions]. rewrite <- app_assoc. reflexivity.
    + exact Hnd'.
    + cbn [set_notifications_who notifications_who]. intros v x Hv Hx.
      apply in_app_or in Hx. destruct Hx as [Hx|[<-|[]]].
      * apply Hnew; [right; exact Hv | exact Hx].
      * unfold who_pk, stored_who, who_row_of. cbn [w_who]. intros E.
        apply Hw. assert (Ea : integer_affinity w = integer_affinity v)
          by exact (f_equal snd E).
        rewrite Ea. apply in_map. exact Hv.
    + exact Hparent.
Qed.

(** With a merge candidate in the store, storeNotification is the merge
    loop. *)
Lemma storeNotification_merges (n : Notification Info) u c ev :
  existsb (matches_unseen n) (notifications c) = true ->
  storeNotification n (open_on u c ev)
  = for_each (who n)
      (fun w => try_except
                  (execute
                     "INSERT INTO notifications_who (`what`, `when`, `where`, `who`) VALUES (?, ?, ?, ?)"
                     (insert_who (who_row_of n w)))
                  IntegrityError (ret tt))
      (open_on u c ev).
Proof.
  intros E.
  destruct (for_each_insert_who_passing
              "INSERT INTO notifications_who (`what`, `when`, `where`, `who`) VALUES (?, ?, ?, ?)"
              n (who n) eq_refl u c ev) as [c' [E' _]].
  rewrite E'.
  unfold storeNotification, bind at 1, get_db.
  rewrite self_db_open_on. cbv beta iota.
  unfold try_except, _notificationExist, bind.
  rewrite execute_open by reflexivity.
  unfold select_count, fetchone, hd_error, subscript, ret.
  rewrite count_positive, E.
  unfold _updateNotification, bind.
  rewrite execute_open by reflexivity. unfold select_when, fetchone.
  apply existsb_exists in E. destruct E as [r [Hr Hm]].
  match goal with
  | |- context [map n_when (filter ?q (notifications c))] =>
      assert (Hq : In r (filter q (notifications c)))
  end.
  { apply filter_In. split; [exact Hr|].
    unfold matches_unseen in Hm. rewrite !andb_true_iff in Hm.
    rewrite !andb_true_iff. tauto. }
  match goal with
  | |- context [map n_when ?l] => destruct l as [|r1 l1]; [destruct Hq|]
  end.
  cbn [map hd_error subscript ret]. rewrite E'. reflexivity.
Qed.

(** Without a merge candidate and with a free primary key, storeNotification
    inserts the row and runs the insert loop, passing over its
    IntegrityError. *)
Lemma storeNotification_creates (n : Notification Info) u c ev :
  existsb (matches_unseen n) (notifications c) = false ->
  (forall r, In r (notifications c) -> n_key r <> store_key n) ->
  storeNotification n (open_on u c ev)
  = (Ok tt,
     snd (for_each (who n)
            (fun w => execute
                        "INSERT INTO notifications_who (`what`, `when`, `where`, `who`) VALUES (?, ?, ?, ?)"
                        (insert_who (who_row_of n w)))
            (open_on u (set_notifications c
                          (notifications c ++ [notifications_row_of n])) ev))).
Proof.
  intros E Hfree.
  assert (P : existsb (fun r => key_eqb (n_key (notifications_row_of n)) (n_key r))
                      (notifications c) = false).
  { apply not_true_iff_false. intros P. apply existsb_exists in P.
    destruct P as [r [Hr Hk]]. apply key_eqb_eq in Hk.
    apply (Hfree r Hr). symmetry. exact Hk. }
  destruct (for_each_insert_who_raising
              "INSERT INTO notifications_who (`what`, `when`, `where`, `who`) VALUES (?, ?, ?, ?)"
              n (who n) eq_refl u
              (set_notifications c (notifications c ++ [notifications_row_of n])) ev)
    as (res & c' & E' & R & _).
  unfold storeNotification, bind at 1, get_db.
  rewrite self_db_open_on. cbv beta iota.
  unfold try_except, _notificationExist, bind.
  rewrite execute_open by reflexivity.
  unfold select_count, fetchone, hd_error, subscript, ret.
  rewrite count_positive, E.
  unfold _createNotification, bind.
  rewrite execute_open by reflexivity. unfold insert_notification.
  rewrite P, E'. destruct R; subst res; reflexivity.
Qed.

(** X9: on an open session storeNotification always returns.  It removes
    and alters no notification row (the table afterwards is the old one,
    possibly with the row of the notification appended), keeps every actor
    row, leaves the actors of every other key and the subscriptions as they
    were, and notifies no event. *)
Theorem storeNotification_returns_and_only_adds :
  forall (u : option string) (c : Connection) (ev : list Event)
         (n : Notification Info),
  exists c',
    storeNotification n (open_on u c ev) = (Ok tt, open_on u c' ev)
    /\ (notifications c' = notifications c
        \/ notifications c' = notifications c ++ [notifications_row_of n])
    /\ (forall w, In w (notifications_who c) -> In w (notifications_who c'))
    /\ (forall r, n_key r <> store_key n -> partners c' r = partners c r)
    /\ subscriptions c' = subscriptions c.
Proof.
  intros u c ev n.
  destruct (storeNotification_open n u c ev) as [c' [R S]].
  exists c'. split; [exact R|].
  assert (G : who_grows (store_key n) c c'
              \/ who_grows (store_key n)
                   (set_notifications c (notifications c ++ [notifications_row_of n])) c').
  { destruct (existsb (matches_unseen n) (notifications c)); [left; exact S|].
    destruct (existsb _ (notifications c)); [subst c'; left; apply who_grows_refl|].
    right. apply S. }
  destruct G as [G|G].
  - pose proof G as (_ & N & Sb & _).
    split; [left; exact N|]. split; [intros w; apply (who_grows_In _ _ _ w G)|].
    split; [intros r Hk; apply (who_grows_partners _ _ _ r G Hk) | exact Sb].
  - pose proof G as (_ & N & Sb & _).
    split; [right; exact N|]. split; [intros w; apply (who_grows_In _ _ _ w G)|].
    split; [intros r Hk; apply (who_grows_partners _ _ _ r G Hk) | exact Sb].
Qed.

(** X10: storing the same notification twice in a row is storing it once,
    when the who column stores its actors as distinct values (as it does
    not for '7' and '007') and every actor row stored under its key has its
    notification row: the second storeNotification returns and leaves the
    store as the first one left it. *)
Theorem storeNotification_twice_is_once :
  forall (u : option string) (c : Connection) (ev : list Event)
         (n : Notification Info),
    NoDup (map integer_affinity (who n)) ->
    (forall w, In w (notifications_who c) -> w_key w = store_key n ->
               exists r, In r (notifications c) /\ n_key r = store_key n) ->
    exists c1,
      storeNotification n (open_on u c ev) = (Ok tt, open_on u c1 ev)
      /\ storeNotification n (open_on u c1 ev) = (Ok tt, open_on u c1 ev).
Proof.
  intros u c ev n Hnd Horphan.
  destruct (existsb (matches_unseen n) (notifications c)) eqn:E.
  - (* merge, and merge again *)
    destruct (for_each_insert_who_passing_saturates
                "INSERT INTO notifications_who (`what`, `when`, `where`, `who`) VALUES (?, ?, ?, ?)"
                n (who n) eq_refl u c ev) as (c1 & E1 & G & S).
    exists c1. split; [rewrite storeNotification_merges by exact E; exact E1|].
    pose proof G as (_ & N & _ & _).
    rewrite storeNotification_merges by (rewrite N; exact E).
    apply for_each_insert_who_passing_refused; [reflexivity | exact S].
  - destruct (existsb (fun r => key_eqb (n_key (notifications_row_of n)) (n_key r))
                      (notifications c)) eqn:P.
    + (* the primary key is taken: nothing happens, twice *)
      destruct (storeNotification_open n u c ev) as [c1 [R S]].
      rewrite E, P in S. subst c1. exists c. split; exact R.
    + (* the row is created with all its actors *)
      assert (Hfree : forall r, In r (notifications c) -> n_key r <> store_key n).
      { intros r Hr Hk. rewrite <- not_true_iff_false in P. apply P.
        apply existsb_exists. exists r. split; [exact Hr|].
        apply key_eqb_eq. symmetry. exact Hk. }
      set (c0 := set_notifications c (notifications c ++ [notifications_row_of n])).
      assert (L : for_each (who n)
                    (fun w => execute
                                "INSERT INTO notifications_who (`what`, `when`, `where`, `who`) VALUES (?, ?, ?, ?)"
                                (insert_who (who_row_of n w)))
                    (open_on u c0 ev)
                  = (Ok tt,
                     open_on u (set_notifications_who c0
                                  (notifications_who c0
                                   ++ map (fun w => stored_who (who_row_of n w))
                                          (who n))) ev)).
      { apply for_each_insert_who_raising_complete; [reflexivity | exact Hnd | |].
        - intros w x _ Hx Hk. cbn [c0 set_notifications notifications_who] in Hx.
          assert (Hkey : w_key x = store_key n) by exact (f_equal fst Hk).
          destruct (Horphan x Hx Hkey) as [r [Hr Hrk]]. exact (Hfree r Hr Hrk).
        - exists (notifications_row_of n). split; [|reflexivity].
          cbn [c0 set_notifications notifications]. apply in_or_app.
          right. left. reflexivity. }
      set (c1 := set_notifications_who c0
                   (notifications_who c0
                    ++ map (fun w => stored_who (who_row_of n w)) (who n))).
      exists c1. split.
      { rewrite storeNotification_creates by assumption.
        fold c0. rewrite L. reflexivity. }
      destruct (seen n) eqn:Hseen.
      * (* the new row is seen: no candidate, and its key is taken *)
        destruct (storeNotification_open n u c1 ev) as [c2 [R S]].
        assert (E1 : existsb (matches_unseen n) (notifications c1) = false).
        { cbn [c1 c0 set_notifications_who set_notifications notifications].
          rewrite existsb_app, E. cbn [existsb orb].
          unfold matches_unseen at 1. cbn [notifications_row_of n_seen].
          rewrite Hseen. cbn [negb]. rewrite andb_false_r. reflexivity. }
        assert (P1 : existsb (fun r => key_eqb (n_key (notifications_row_of n)) (n_key r))
                             (notifications c1) = true).
        { cbn [c1 c0 set_notifications_who set_notifications notifications].
          rewrite existsb_app. cbn [existsb]. rewrite key_eqb_refl.
          cbn [orb]. apply orb_true_r. }
        rewrite E1, P1 in S. subst c2. exact R.
      * (* the new row is its own merge candidate: every actor is refused *)
        assert (E1 : existsb (matches_unseen n) (notifications c1) = true).
        { cbn [c1 c0 set_notifications_who set_notifications notifications].
          rewrite existsb_app. cbn [existsb].
          unfold matches_unseen at 2.
          cbn [notifications_row_of n_what n_where n_info n_seen].
          rewrite !String.eqb_refl, Hseen. cbn [andb negb orb]. apply orb_true_r. }
        rewrite storeNotification_merges by exact E1.
        apply for_each_insert_who_passing_refused; [reflexivity|].
        intros w Hw. unfold rejects, insert_who.
        cbn [c1 set_notifications_who notifications_who].
        rewrite existsb_app.
        replace (existsb _ (map (fun w => stored_who (who_row_of n w)) (who n)))
          with true; [rewrite orb_true_r; reflexivity|].
        symmetry. apply existsb_exists. exists (stored_who (who_row_of n w)).
        split; [apply (in_map (fun w => stored_who (who_row_of n w))); exact Hw|].
        cbn [stored_who w_key w_who w_what w_when w_where].
        change (w_what (who_row_of n w), w_when (who_row_of n w),
                w_where (who_row_of n w)) with (w_key (who_row_of n w)).
        rewrite key_eqb_refl, String.eqb_refl. reflexivity.
Qed.

End Storing.

(** ** Actors written and read back *)

Lemma string_app_nil_r (s : string) : (s ++ "")%string = s.
Proof. induction s as [|ch s IH]; simpl; congruence. Qed.

Lemma string_app_assoc (a b d : string) :
  ((a ++ b) ++ d)%string = (a ++ (b ++ d))%string.
Proof. induction a as [|ch a IH]; simpl; congruence. Qed.

Lemma prefix_empty (s : string) : String.prefix "" s = true.
Proof. destruct s; reflexivity. Qed.

Lemma prefix_comma_space_extended ch x t :
  String.prefix ", " (String ch x) = false ->
  String.prefix ", " (String ch (x ++ String "," t)) = false.
Proof.
  cbn [String.prefix]. destruct (ascii_dec "," ch) as [_|]; [|reflexivity].
  destruct x as [|d x]; cbn [append String.prefix].
  - intros _. destruct (ascii_dec " " ","); [discriminate | reflexivity].
  - destruct (ascii_dec " " d); [|reflexivity].
    rewrite !prefix_empty. discriminate.
Qed.

(** Splitting at ", " a text that does not contain it, followed by ", " and
    more, cuts it off there. *)
Lemma split_from_cut x r acc :
  occurs ", " x = false ->
  split_from ", " (x ++ ", " ++ r) 0 acc
  = (acc ++ x)%string :: split_from ", " r 0 "".
Proof.
  revert acc. induction x as [|ch x IH]; intros acc Hx.
  - cbn [append split_from String.prefix String.length Nat.sub].
    destruct (ascii_dec "," ","); [|congruence].
    destruct (ascii_dec " " " "); [|congruence].
    rewrite prefix_empty, string_app_nil_r. reflexivity.
  - cbn [occurs] in Hx. apply orb_false_iff in Hx. destruct Hx as [Hp Hx].
    change (String ch x ++ ", " ++ r)%string
      with (String ch (x ++ String "," (String " " r))).
    cbn [split_from].
    rewrite (prefix_comma_space_extended ch x _ Hp).
    change (x ++ String "," (String " " r))%string with (x ++ ", " ++ r)%string.
    rewrite (IH _ Hx), string_app_assoc. reflexivity.
Qed.

Lemma split_from_whole x acc :
  occurs ", " x = false -> split_from ", " x 0 acc = [(acc ++ x)%string].
Proof.
  revert acc. induction x as [|ch x IH]; intros acc Hx.
  - rewrite string_app_nil_r. reflexivity.
  - cbn [occurs] in Hx. apply orb_false_iff in Hx. destruct Hx as [Hp Hx].
    cbn [split_from]. rewrite Hp, (IH _ Hx), string_app_assoc. reflexivity.
Qed.

Lemma joined_unfold (vs : list string) (v : string) :
  fold_left (fun acc x => acc ++ ", " ++ x)%string vs v
  = (v ++ fold_right (fun x t => ", " ++ x ++ t)%string "" vs)%string.
Proof.
  revert v. induction vs as [|x vs IH]; intros v; cbn [fold_left fold_right].
  - rewrite string_app_nil_r. reflexivity.
  - rewrite IH, !string_app_assoc. reflexivity.
Qed.

Lemma non_null_map_Some {A} (vs : list A) : non_null (map Some vs) = vs.
Proof. induction vs as [|x vs IH]; cbn [map non_null]; congruence. Qed.

(** Python's [split(', ')] undoes the joining by ", " of texts that do not
    contain the separator. *)
Lemma split_joined (v : string) (vs : list string) :
  (forall a, In a (v :: vs) -> occurs ", " a = false) ->
  split (fold_left (fun acc x => acc ++ ", " ++ x)%string vs v) ", " = v :: vs.
Proof.
  intros Hs. rewrite joined_unfold. unfold split.
  assert (G : forall l x acc,
             (forall a, In a (x :: l) -> occurs ", " a = false) ->
             split_from ", "
               (x ++ fold_right (fun y t => ", " ++ y ++ t)%string "" l) 0 acc
             = (acc ++ x)%string :: l).
  { induction l as [|y l IHl]; intros x acc Hxl; cbn [fold_right].
    - rewrite string_app_nil_r. apply split_from_whole. apply Hxl. left. reflexivity.
    - rewrite split_from_cut by (apply Hxl; left; reflexivity).
      rewrite IHl by (intros a Ha; apply Hxl; right; exact Ha).
      reflexivity. }
  apply (G vs v ""). exact Hs.
Qed.

(** GROUP_CONCAT(who, ', ') followed by [split(', ')] gives the texts of the
    stored values, in the order of the index, when none of these texts
    contains the separator. *)
Lemma split_group_concat (vs : list string) :
  vs <> [] ->
  (forall a, In a vs -> occurs ", " (who_text a) = false) ->
  exists s, group_concat ", " (map Some vs) = Some s
            /\ split s ", " = map who_text (order_by index_leb vs).
Proof.
  intros Hne Hs. unfold group_concat. rewrite non_null_map_Some.
  assert (Hin : forall t, In t (map who_text (order_by index_leb vs)) ->
                          occurs ", " t = false).
  { intros t Ht. apply in_map_iff in Ht. destruct Ht as [a [<- Ha]].
    apply Hs. apply (order_by_In _ index_leb). exact Ha. }
  destruct (map who_text (order_by index_leb vs)) as [|t ts] eqn:E.
  - exfalso. apply Hne. apply length_zero_iff_nil.
    rewrite <- (order_by_length _ index_leb), <- (length_map who_text), E.
    reflexivity.
  - eexists. split; [reflexivity|]. apply split_joined. exact Hin.
Qed.

Section RoundTrip.

Context {Info : Type} `{Json Info}.

(** Without a merge candidate, with a free primary key, actors that are
    stored as distinct values and no actor row under the key yet,
    storeNotification inserts the row and one actor row per actor. *)
Lemma storeNotification_creates_complete (n : Notification Info) u c ev :
  existsb (matches_unseen n) (notifications c) = false ->
  (forall r, In r (notifications c) -> n_key r <> store_key n) ->
  NoDup (map integer_affinity (who n)) ->
  (forall w, In w (notifications_who c) -> w_key w <> store_key n) ->
  storeNotification n (open_on u c ev)
  = (Ok tt,
     open_on u
       {| foreign_keys := foreign_keys c;
          notifications := notifications c ++ [notifications_row_of n];
          notifications_who :=
            notifications_who c
            ++ map (fun w => stored_who (who_row_of n w)) (who n);
          subscriptions := subscriptions c |}
       ev).
Proof.
  intros E Hfree Hnd Hclean.
  rewrite storeNotification_creates by assumption.
  rewrite for_each_insert_who_raising_complete; [reflexivity|reflexivity|exact Hnd| |].
  - intros w x _ Hx Hk. cbn [set_notifications notifications_who] in Hx.
    apply (Hclean x Hx). exact (f_equal fst Hk).
  - exists (notifications_row_of n). split; [|reflexivity].
    cbn [set_notifications notifications]. apply in_or_app. right. left. reflexivity.
Qed.

(** X11: a notification stored where it finds no merge candidate, a free
    primary key and no actor row under its key, whose actors the who column
    stores as distinct values and writes as texts without ", ", is read back
    by getAllNotifications with the same what, where, when, gatherer and
    seen flag, the user of the backend, its payload passed through
    json.dumps and json.loads, and as actors the texts of the stored values
    ('007' comes back as '7'), in an order that need not be the one they
    were given in. *)
Theorem storeNotification_then_getAllNotifications_reads_it_back :
  forall (u : option string) (c : Connection) (ev : list Event)
         (n : Notification Info),
    existsb (matches_unseen n) (notifications c) = false ->
    (forall r, In r (notifications c) -> n_key r <> store_key n) ->
    (forall w, In w (notifications_who c) -> w_key w <> store_key n) ->
    NoDup (map integer_affinity (who n)) ->
    who n <> [] ->
    (forall a, In a (who n) -> occurs ", " (who_text (integer_affinity a)) = false) ->
    exists c1 l e,
      storeNotification n (open_on u c ev) = (Ok tt, open_on u c1 ev)
      /\ getAllNotifications (open_on u c1 ev) = (Ok l, open_on u c1 ev)
      /\ In e l
      /\ what e = what n /\ where_ e = where_ n /\ when e = when n
      /\ Permutation (who e) (map (fun a => who_text (integer_affinity a)) (who n))
      /\ user e = u /\ gatherer e = gatherer n /\ seen e = seen n
      /\ info e = json_loads (json_dumps (info n)).
Proof.
  intros u c ev n E Hfree Hclean Hnd Hne Hsep.
  set (row := notifications_row_of n).
  set (c1 := {| foreign_keys := foreign_keys c;
                notifications := notifications c ++ [row];
                notifications_who :=
                  notifications_who c
                  ++ map (fun w => stored_who (who_row_of n w)) (who n);
                subscriptions := subscriptions c |}).
  assert (Hstore : storeNotification n (open_on u c ev) = (Ok tt, open_on u c1 ev)).
  { apply storeNotification_creates_complete; assumption. }
  (* the actor rows of the new notification *)
  assert (Hp : partners c1 row = map (fun w => stored_who (who_row_of n w)) (who n)).
  { unfold partners. cbn [c1 notifications_who]. rewrite filter_app.
    rewrite (filter_none _ (notifications_who c)).
    - cbn [app]. apply filter_all. intros w Hw.
      apply in_map_iff in Hw. destruct Hw as [a [<- _]]. apply key_eqb_refl.
    - intros w Hw. apply not_true_iff_false. intros Ek.
      apply key_eqb_eq in Ek. apply (Hclean w Hw). symmetry. exact Ek. }
  (* the rows of the join that carry its key *)
  assert (Hold : forall j, In j (flat_map
                                   (fun m => map (fun w => (m, Some (w_who w))) (partners c1 m))
                                   (notifications c)) ->
                           n_key (fst j) <> store_key n).
  { intros j Hj. apply in_flat_map in Hj. destruct Hj as [m [Hm Hj]].
    apply in_map_iff in Hj. destruct Hj as [w [<- _]]. exact (Hfree m Hm). }
  assert (Hjoin : inner_join c1
                  = flat_map (fun m => map (fun w => (m, Some (w_who w))) (partners c1 m))
                             (notifications c)
                    ++ map (fun a => (row, Some (integer_affinity a))) (who n)).
  { unfold inner_join. cbn [c1 notifications]. fold c1. rewrite flat_map_app.
    f_equal. cbn [flat_map]. rewrite app_nil_r, Hp, map_map. reflexivity. }
  destruct (who n) as [|a0 actors] eqn:Ew; [congruence|].
  assert (Hin : In (row, Some (integer_affinity a0)) (inner_join c1)).
  { rewrite Hjoin. apply in_or_app. right. left. reflexivity. }
  destruct (group_heads_covers _ _ Hin) as [j [Hj Hk]]. cbn [fst] in Hk.
  assert (Hjrow : fst j = row).
  { apply group_heads_In in Hj. rewrite Hjoin in Hj. apply in_app_or in Hj.
    destruct Hj as [Hj|Hj].
    - exfalso. exact (Hold j Hj Hk).
    - apply in_map_iff in Hj. destruct Hj as [a [<- _]]. reflexivity. }
  assert (Hgroup : filter (same_group j) (inner_join c1)
                   = map (fun a => (row, Some (integer_affinity a))) (a0 :: actors)).
  { rewrite Hjoin, filter_app, (filter_none (same_group j)).
    - cbn [app]. apply filter_all. intros x Hx.
      apply in_map_iff in Hx. destruct Hx as [a [<- _]].
      unfold same_group. rewrite Hjrow. apply key_eqb_refl.
    - intros x Hx. apply not_true_iff_false. intros Ek. apply key_eqb_eq in Ek.
      apply (Hold x Hx). rewrite <- Ek. exact Hk. }
  destruct (split_group_concat (map integer_affinity (a0 :: actors)))
    as [s [Hs Hsplit]].
  { discriminate. }
  { intros v Hv. apply in_map_iff in Hv. destruct Hv as [a [<- Ha]].
    apply Hsep. exact Ha. }
  exists c1. eexists.
  exists (_createNotificationFromResult u
            (aggregate j (filter (same_group j) (inner_join c1)))).
  split; [exact Hstore|].
  split; [apply getAllNotifications_open|].
  split.
  { apply in_map. apply order_by_In. unfold group_by_key. apply in_map_iff.
    exists j. split; [reflexivity | exact Hj]. }
  unfold _createNotificationFromResult, aggregate.
  cbn [what where_ when who user gatherer seen info
       r_what r_when r_where r_who r_gatherer r_seen r_info].
  rewrite Hgroup, map_map. cbn [snd].
  rewrite <- (map_map integer_affinity (@Some string)), Hs, Hsplit, Hjrow.
  repeat split.
  rewrite <- (map_map integer_affinity who_text).
  apply Permutation_map. apply order_by_Permutation.
Qed.

End RoundTrip.

(** ** The session *)

Section SessionProperties.

Context {Info : Type} `{Json Info}.

Variable sqlite3_connect : string -> result Connection.
Variable create_table_error : string -> Connection -> option exn.

Lemma getHotNotifications_returns (b : Backend) :
  exists l : list (Notification Info), getHotNotifications b = (Ok l, b).
Proof.
  destruct (backend_cases b) as [(u & c & ev & ->)|(u & ev & ->)].
  - unfold getHotNotifications, bind, get_db.
    rewrite self_db_open_on. cbv iota beta.
    rewrite execute_open by reflexivity. eexists. reflexivity.
  - eexists. reflexivity.
Qed.

(** The three CREATE TABLE statements on a fresh connection: they return
    and change nothing, or one of them is refused and its exception leaves
    the backend connected. *)
Lemma create_tables_outcome (b : Backend) (c : Connection) :
  let tables :=
    (execute
       "CREATE TABLE IF NOT EXISTS notifications(`what` TEXT, `when` INTEGER, `where` TEXT, `seen` INTEGER, `gatherer` TEXT, `info` TEXT, PRIMARY KEY(`what`, `when`, `where`))"
       (create_table create_table_error "notifications") ;;
     execute
       "CREATE TABLE IF NOT EXISTS notifications_who(`what` TEXT, `when` INTEGER, `where` TEXT, `who` INTEGER, PRIMARY KEY(`what`, `when`, `where`, `who`), FOREIGN KEY(`what`, `when`, `where`) REFERENCES notifications(`what`, `when`, `where`) ON DELETE CASCADE)"
       (create_table create_table_error "notifications_who") ;;
     execute
       "CREATE TABLE IF NOT EXISTS subscriptions(`where` TEXT PRIMARY KEY, `wants` INTEGER)"
       (create_table create_table_error "subscriptions"))
      (set_db b c) in
  (tables = (Ok tt, set_db b c) /\ ~ a_table_is_refused create_table_error c)
  \/ (exists x, tables = (Raise x, set_db b c))
     /\ a_table_is_refused create_table_error c.
Proof.
  cbv zeta. unfold bind, execute, create_table.
  cbn [set_db self_db self_user notified].
  replace (sqlite_accepts _) with true by reflexivity.
  destruct (create_table_error "notifications" c) as [x|] eqn:E1.
  { right. split; [exists x; reflexivity|].
    exists "notifications". split; [simpl; auto | congruence]. }
  cbn [set_db self_db self_user notified].
  replace (sqlite_accepts _) with true by reflexivity.
  destruct (create_table_error "notifications_who" c) as [x|] eqn:E2.
  { right. split; [exists x; reflexivity|].
    exists "notifications_who". split; [simpl; auto | congruence]. }
  cbn [set_db self_db self_user notified].
  replace (sqlite_accepts _) with true by reflexivity.
  destruct (create_table_error "subscriptions" c) as [x|] eqn:E3.
  { right. split; [exists x; reflexivity|].
    exists "subscriptions". split; [simpl; auto | congruence]. }
  left. split; [reflexivity|].
  intros [t [[<-|[<-|[<-|[]]]] Ht]]; congruence.
Qed.

(** What [initialize] does: nothing with a session or without a user;
    otherwise it raises without a session when the path cannot be built or
    the file cannot be opened, raises with the session open when a CREATE
    TABLE is refused, and else returns with the session open. *)
Lemma initialize_outcome (e : Engine) :
  (initialize sqlite3_connect create_table_error e = (Ok tt, e)
   /\ (self_db (backend e) <> None \/ self_user (backend e) = None))
  \/ (self_db (backend e) = None
      /\ exists usr, self_user (backend e) = Some usr
         /\ ((exists x, path_join (directory e) (usr ++ ".sqlite") = Raise x
                        /\ initialize sqlite3_connect create_table_error e = (Raise x, e))
             \/ exists p,
                 path_join (directory e) (usr ++ ".sqlite") = Ok p
                 /\ let e1 := {| backend := backend e; directory := directory e;
                                 db_path := Some p |} in
                    (exists x, sqlite3_connect p = Raise x
                               /\ initialize sqlite3_connect create_table_error e
                                  = (Raise x, e1))
                    \/ exists c,
                        sqlite3_connect p = Ok c
                        /\ ((initialize sqlite3_connect create_table_error e
                             = (Ok tt, with_backend e1 (set_db (backend e) c))
                             /\ ~ a_table_is_refused create_table_error c)
                            \/ ((exists x,
                                   initialize sqlite3_connect create_table_error e
                                   = (Raise x, with_backend e1 (set_db (backend e) c)))
                                /\ a_table_is_refused create_table_error c)))).
Proof.
  destruct e as [[usr db ev] dir path]. unfold initialize.
  cbn [backend self_db self_user directory].
  destruct db as [c|]; [left; split; [reflexivity | left; discriminate]|].
  destruct usr as [usr|]; [|left; split; [reflexivity | right; reflexivity]].
  right. split; [reflexivity|]. exists usr. split; [reflexivity|].
  destruct (path_join dir (usr ++ ".sqlite")) as [p|x].
  - right. exists p. split; [reflexivity|]. cbv zeta.
    destruct (sqlite3_connect p) as [c|x].
    + right. exists c. split; [reflexivity|].
      destruct (create_tables_outcome
                  {| self_user := Some usr; self_db := None; notified := ev |} c)
        as [[E R]|[[x E] R]]; cbv zeta in E; rewrite E.
      * left. split; [reflexivity | exact R].
      * right. split; [exists x; reflexivity | exact R].
    + left. exists x. split; reflexivity.
  - left. exists x. split; reflexivity.
Qed.

(** X12: validateBackend keeps the user and notifies nothing.  When it
    returns True no session is left, also when one was open before the
    call.  It returns False exactly when there was no session, a user is
    bound, and the path of the user's store cannot be built, the store
    cannot be opened, or one of the three CREATE TABLE statements is
    refused; in the last case, and only then, it leaves the session open,
    since [initialize] had assigned the connection and the error path does
    not call [terminate]. *)
Theorem validateBackend_result_and_session :
  forall e : Engine,
    let v := validateBackend (Info := Info) sqlite3_connect create_table_error e in
    self_user (backend (snd v)) = self_user (backend e)
    /\ notified (backend (snd v)) = notified (backend e)
    /\ (fst v = true -> self_db (backend (snd v)) = None)
    /\ (fst v = false
        <-> self_db (backend e) = None
            /\ exists usr,
                self_user (backend e) = Some usr
                /\ match path_join (directory e) (usr ++ ".sqlite") with
                   | Raise _ => True
                   | Ok p =>
                       match sqlite3_connect p with
                       | Raise _ => True
                       | Ok c => a_table_is_refused create_table_error c
                       end
                   end)
    /\ (self_db (backend (snd v)) <> None
        <-> self_db (backend e) = None
            /\ exists usr p c,
                self_user (backend e) = Some usr
                /\ path_join (directory e) (usr ++ ".sqlite") = Ok p
                /\ sqlite3_connect p = Ok c
                /\ a_table_is_refused create_table_error c
                /\ self_db (backend (snd v)) = Some c
                /\ fst v = false).
Proof.
  intros e. cbv zeta. unfold validateBackend.
  destruct (initialize_outcome e) as [[E D]|(D & usr & U & Hcase)].
  - (* initialize returns at once: the read returns and terminate closes *)
    rewrite E. destruct (getHotNotifications_returns (backend e)) as [l ->].
    unfold terminate, with_backend. cbn [backend].
    destruct (self_db (backend e)) as [c|] eqn:Edb;
      cbn [fst snd backend self_db self_user notified].
    + split; [reflexivity|]. split; [reflexivity|]. split; [reflexivity|].
      split; (split; [intros Hn | intros [Hn _]; discriminate Hn]).
      * discriminate Hn.
      * exfalso. apply Hn. reflexivity.
    + split; [reflexivity|]. split; [reflexivity|]. split; [intros _; exact Edb|].
      split; split.
      * intros Hn. discriminate Hn.
      * intros (_ & usr & Hu & _). destruct D as [D|D]; congruence.
      * intros Hn. congruence.
      * intros (_ & usr & p & c & Hu & _). destruct D as [D|D]; congruence.
  - destruct Hcase as [(x & P & E)|(p & P & Hopen)].
    + (* the path cannot be built *)
      rewrite E. cbn [fst snd].
      split; [reflexivity|]. split; [reflexivity|]. split; [intros Hn; discriminate Hn|].
      split; split.
      * intros _. split; [exact D|]. exists usr. split; [exact U|].
        rewrite P. exact Logic.I.
      * reflexivity.
      * intros Hn. congruence.
      * intros (_ & usr' & p & c & U' & P' & _).
        assert (usr' = usr) by congruence. subst usr'. congruence.
    + cbv zeta in Hopen. destruct Hopen as [(x & O & E)|(c & O & Hcreate)].
      * (* the store cannot be opened *)
        rewrite E. cbn [fst snd backend].
        split; [reflexivity|]. split; [reflexivity|].
        split; [intros Hn; discriminate Hn|].
        split; split.
        -- intros _. split; [exact D|]. exists usr. split; [exact U|].
           rewrite P, O. exact Logic.I.
        -- reflexivity.
        -- intros Hn. congruence.
        -- intros (_ & usr' & p' & c & U' & P' & O' & _).
           assert (usr' = usr) by congruence. subst usr'.
           assert (p' = p) by congruence. subst p'. congruence.
      * destruct Hcreate as [[E R]|[[x E] R]].
        -- (* opened: the read returns and terminate closes *)
           rewrite E. cbn [with_backend backend].
           destruct (getHotNotifications_returns (set_db (backend e) c)) as [l ->].
           unfold terminate.
           cbn [with_backend backend set_db self_db self_user notified fst snd].
           split; [reflexivity|]. split; [reflexivity|]. split; [reflexivity|].
           split; split.
           ++ intros Hn. discriminate Hn.
           ++ intros (_ & usr' & U' & Hbad).
              assert (usr' = usr) by congruence. subst usr'.
              rewrite P, O in Hbad. exfalso. exact (R Hbad).
           ++ intros Hn. exfalso. apply Hn. reflexivity.
           ++ intros (_ & usr' & p' & c' & U' & P' & O' & Hbad & _).
              assert (usr' = usr) by congruence. subst usr'.
              assert (p' = p) by congruence. subst p'.
              assert (c' = c) by congruence. subst c'. exfalso. exact (R Hbad).
        -- (* a CREATE TABLE is refused: the session stays open *)
           rewrite E.
           cbn [with_backend backend set_db self_db self_user notified fst snd].
           split; [reflexivity|]. split; [reflexivity|].
           split; [intros Hn; discriminate Hn|].
           split; split.
           ++ intros _. split; [exact D|]. exists usr. split; [exact U|].
              rewrite P, O. exact R.
           ++ reflexivity.
           ++ intros _. split; [exact D|]. exists usr, p, c.
              repeat split; assumption.
           ++ intros _. discriminate.
Qed.

(** X13: after initialize returned, a second call returns and changes
    nothing.  When initialize raises, either no session is left (the path
    could not be built or the file not be opened), or the exception came
    from a CREATE TABLE: then the connection stays in [self.db], and a
    second initialize returns at once, without creating the tables.
    terminate returns, closes the session, keeps the user and is idempotent;
    setUser is ignored while a session is open and binds the user
    otherwise. *)
Theorem session_lifecycle :
  forall (e : Engine) (usr : option string),
    match initialize sqlite3_connect create_table_error e with
    | (Ok _, e1) => initialize sqlite3_connect create_table_error e1 = (Ok tt, e1)
    | (Raise x, e1) =>
        self_db (backend e1) = None
        \/ (exists c, self_db (backend e1) = Some c
                      /\ a_table_is_refused create_table_error c
                      /\ initialize sqlite3_connect create_table_error e1 = (Ok tt, e1))
    end
    /\ fst (terminate e) = Ok tt
    /\ self_db (backend (snd (terminate e))) = None
    /\ getUser (snd (terminate e)) = getUser e
    /\ terminate (snd (terminate e)) = (Ok tt, snd (terminate e))
    /\ (self_db (backend e) <> None -> setUser usr e = e)
    /\ (self_db (backend e) = None -> getUser (setUser usr e) = usr).
Proof.
  intros e usr. split.
  - destruct (initialize_outcome e) as [[E D]|(D & u & U & Hcase)].
    + rewrite E. exact E.
    + destruct Hcase as [(x & P & E)|(p & P & Hopen)].
      * rewrite E. left. exact D.
      * cbv zeta in Hopen. destruct Hopen as [(x & O & E)|(c & O & Hcreate)].
        -- rewrite E. left. exact D.
        -- destruct Hcreate as [[E R]|[[x E] R]]; rewrite E.
           ++ reflexivity.
           ++ right. exists c. split; [reflexivity|]. split; [exact R | reflexivity].
  - destruct e as [[u db ev] dir path].
    unfold terminate, setUser, getUser. cbn [backend self_db self_user].
    destruct db as [c|]; cbn; repeat split; try reflexivity; congruence.
Qed.

End SessionProperties.

(** *** One store per user *)

Lemma string_app_inv_head (a x y : string) :
  (a ++ x)%string = (a ++ y)%string -> x = y.
Proof. induction a as [|ch a IH]; simpl; [auto | intros [= E]; auto]. Qed.

Lemma list_of_string_app (a b : string) :
  list_ascii_of_string (a ++ b) = list_ascii_of_string a ++ list_ascii_of_string b.
Proof. induction a as [|ch a IH]; simpl; congruence. Qed.

Lemma string_app_inv_tail (x y t : string) :
  (x ++ t)%string = (y ++ t)%string -> x = y.
Proof.
  intros E. apply (f_equal list_ascii_of_string) in E.
  rewrite !list_of_string_app in E. apply app_inv_tail in E.
  apply (f_equal string_of_list_ascii) in E.
  rewrite !string_of_list_ascii_of_string in E. exact E.
Qed.

Lemma prefix_slash_file (usr : string) :
  String.prefix "/" (usr ++ ".sqlite") = String.prefix "/" usr.
Proof.
  destruct usr as [|ch usr]; [reflexivity|]. cbn [append String.prefix].
  destruct (ascii_dec "/" ch); [|reflexivity]. rewrite !prefix_empty. reflexivity.
Qed.

(** X14: under one configured directory, two user identifiers that do not
    start with "/" are given the same store path by initialize only if they
    are the same identifier. *)
Theorem store_path_per_user :
  forall (dir : string) (u1 u2 p : string),
    String.prefix "/" u1 = false ->
    String.prefix "/" u2 = false ->
    path_join (Some dir) (u1 ++ ".sqlite") = Ok p ->
    path_join (Some dir) (u2 ++ ".sqlite") = Ok p ->
    u1 = u2.
Proof.
  intros dir u1 u2 p H1 H2. unfold path_join.
  rewrite !prefix_slash_file, H1, H2.
  destruct (String.eqb dir "" || ends_with_slash dir)%bool;
    intros [= <-] [= E].
  - apply string_app_inv_head in E. apply string_app_inv_tail in E. auto.
  - apply string_app_inv_head in E. injection E as E.
    apply string_app_inv_tail in E. auto.
Qed.

(** ** The update of the views *)

Lemma only_adds_refl c : only_adds c c.
Proof. repeat split; auto. Qed.

Lemma only_adds_trans c1 c2 c3 : only_adds c1 c2 -> only_adds c2 c3 -> only_adds c1 c3.
Proof.
  intros (N1 & W1 & S1 & F1) (N2 & W2 & S2 & F2).
  repeat split; try congruence; auto.
Qed.

Lemma who_grows_only_adds k c c' : who_grows k c c' -> only_adds c c'.
Proof.
  intros G. pose proof G as (F & N & S & _). repeat split; auto.
  - intros r Hr. rewrite N. exact Hr.
  - intros w. apply (who_grows_In _ _ _ w G).
Qed.

Section ViewsProperties.

Context {Info : Type} `{Json Info}.

Variable getNewNotifications : Z -> option (list (Notification Info)).

Lemma storeNotification_only_adds (n : Notification Info) u c ev :
  exists c', storeNotification n (open_on u c ev) = (Ok tt, open_on u c' ev)
             /\ only_adds c c'.
Proof.
  destruct (storeNotification_open n u c ev) as [c' [R S]].
  exists c'. split; [exact R|].
  destruct (existsb (matches_unseen n) (notifications c)).
  - eapply who_grows_only_adds. exact S.
  - destruct (existsb _ (notifications c)); [subst c'; apply only_adds_refl|].
    destruct S as [G _]. apply who_grows_only_adds in G.
    destruct G as (N & W & Sb & F). repeat split; auto.
    intros r Hr. apply N. cbn [set_notifications notifications].
    apply in_or_app. left. exact Hr.
Qed.

Lemma for_each_storeNotification_open (l : list (Notification Info)) u c ev :
  exists c', for_each l (fun n => storeNotification n) (open_on u c ev)
             = (Ok tt, open_on u c' ev)
             /\ only_adds c c'.
Proof.
  revert c. induction l as [|n l IH]; intros c; cbn [for_each].
  - exists c. split; [reflexivity | apply only_adds_refl].
  - unfold bind. destruct (storeNotification_only_adds n u c ev) as [c1 [-> A1]].
    destruct (IH c1) as [c' [E A]]. exists c'.
    split; [exact E | eapply only_adds_trans; eauto].
Qed.

Lemma for_each_storeNotification_closed (l : list (Notification Info)) u ev :
  for_each l (fun n => storeNotification n) (closed u ev) = (Ok tt, closed u ev).
Proof.
  induction l as [|n l IH]; cbn [for_each]; [reflexivity|].
  unfold bind. change (storeNotification n (closed u ev)) with (Ok tt, closed u ev).
  exact IH.
Qed.

Lemma getLastNotificationTime_returns now s :
  exists t, getLastNotificationTime now s = (Ok t, s).
Proof.
  destruct (backend_cases s) as [(u & c & ev & ->)|(u & ev & ->)].
  - unfold getLastNotificationTime, try_except_any, bind.
    rewrite execute_open by reflexivity. unfold select_last_when.
    destruct (firstn 1 _) as [|t l]; eexists; reflexivity.
  - eexists. reflexivity.
Qed.

(** X15: updateNotifications of the views always returns, with or without a
    session.  Without a session it changes nothing; with one it removes or
    alters no notification row and no actor row, leaves the subscriptions
    alone and notifies no event, whatever the gatherer hands over; and it
    keeps the constraints of the schema. *)
Theorem updateNotifications_returns_and_only_adds :
  forall (now : Z) (u : option string) (c : Connection) (ev : list Event),
    (exists c',
        updateNotifications getNewNotifications now (open_on u c ev)
        = (Ok tt, open_on u c' ev)
        /\ (forall r, In r (notifications c) -> In r (notifications c'))
        /\ (forall w, In w (notifications_who c) -> In w (notifications_who c'))
        /\ subscriptions c' = subscriptions c
        /\ (well_formed c -> well_formed c'))
    /\ updateNotifications getNewNotifications now (closed u ev)
       = (Ok tt, closed u ev).
Proof.
  intros now u c ev. split.
  - assert (K : keeps well_formed (updateNotifications getNewNotifications now)).
    { unfold updateNotifications, getLastNotificationTime, storeNotification,
        _notificationExist, _updateNotification, _createNotification.
      keeps_well_formed. }
    destruct (getLastNotificationTime_returns now (open_on u c ev)) as [t Et].
    assert (Eq : updateNotifications getNewNotifications now (open_on u c ev)
                 = match getNewNotifications t with
                   | Some l => for_each l (fun n => storeNotification n) (open_on u c ev)
                   | None => (Ok tt, open_on u c ev)
                   end).
    { unfold updateNotifications, bind. rewrite Et.
      destruct (getNewNotifications t); reflexivity. }
    specialize (K (open_on u c ev)). rewrite Eq in K. rewrite Eq.
    destruct (getNewNotifications t) as [l|].
    + destruct (for_each_storeNotification_open l u c ev) as [c' [E (N & W & S & _)]].
      rewrite E in K. rewrite E. exists c'. split; [reflexivity|].
      split; [exact N|]. split; [exact W|]. split; [exact S|].
      intros Wf. apply (proj1 (holds_on_open well_formed u c' ev)).
      apply K. apply (proj2 (holds_on_open well_formed u c ev)). exact Wf.
    + exists c. split; [reflexivity|]. split; [auto|]. split; [auto|].
      split; [reflexivity | auto].
  - unfold updateNotifications, bind.
    destruct (getLastNotificationTime_returns now (closed u ev)) as [t ->].
    destruct (getNewNotifications t) as [l|]; [|reflexivity].
    apply for_each_storeNotification_closed.
Qed.

End ViewsProperties.

(** ** NullBackend and the backend without a session *)

(** X16: NullBackend never raises, changes nothing and notifies nothing.  On
    a backend without a session SqliteStorageBackend returns the same as
    NullBackend for storeNotification, removeNotification, the three lists
    and getUnseenCount; its getLastNotificationTime is seven days earlier
    than that of NullBackend, which is the current time; and the five
    operations that NullBackend answers with its defaults (setSeen, clean,
    saveSubscription, getSubscription, getSubscriptions) raise in it. *)
Theorem NullBackend_against_backend_without_session :
  forall (Info : Type) (J : Json Info) (u : option string) (ev : list Event)
         (n : Notification Info) (path : option string) (now : Z)
         (sub : Subscription) (w : string),
    let s := closed u ev in
    storeNotification n s = NullBackend.storeNotification n s
    /\ removeNotification n s = NullBackend.removeNotification n s
    /\ getHotNotifications (Info := Info) s = NullBackend.getHotNotifications s
    /\ getAllNotifications (Info := Info) s = NullBackend.getAllNotifications s
    /\ getUnseenNotifications (Info := Info) s = NullBackend.getUnseenNotifications s
    /\ getUnseenCount s = NullBackend.getUnseenCount s
    /\ (exists t, NullBackend.getLastNotificationTime now s = (Ok t, s)
                  /\ getLastNotificationTime now s = (Ok (t - 7 * 86400), s)
                  /\ t = now)
    /\ (NullBackend.setSeen path s = (Ok tt, s)
        /\ fst (setSeen path s) = Raise AttributeError)
    /\ (NullBackend.clean now s = (Ok tt, s)
        /\ fst (clean now s) = Raise AttributeError)
    /\ (NullBackend.saveSubscription sub s = (Ok tt, s)
        /\ fst (saveSubscription sub s) = Raise AttributeError)
    /\ (NullBackend.getSubscription w s = (Ok None, s)
        /\ fst (getSubscription w s) = Raise AttributeError)
    /\ (NullBackend.getSubscriptions s = (Ok [], s)
        /\ fst (getSubscriptions s) = Raise AttributeError).
Proof.
  intros Info J u ev n path now sub w s. subst s.
  repeat split; try reflexivity.
  - exists now. repeat split.
  - destruct path; reflexivity.
  - unfold saveSubscription, bind, try_except. destruct (wants sub); reflexivity.
Qed.

(** ** dict_factory *)

Lemma dict_get_set_same {V} (d : list (string * V)) k v :
  dict_get (dict_set d k v) k = Some v.
Proof.
  induction d as [|[k' v'] d IH]; cbn [dict_set dict_get].
  - rewrite String.eqb_refl. reflexivity.
  - destruct (String.eqb k' k) eqn:E; cbn [dict_get].
    + rewrite String.eqb_refl. reflexivity.
    + rewrite E. exact IH.
Qed.

Lemma dict_get_set_other {V} (d : list (string * V)) k v k' :
  k <> k' -> dict_get (dict_set d k v) k' = dict_get d k'.
Proof.
  intros Hk. induction d as [|[k0 v0] d IH]; cbn [dict_set dict_get].
  - apply String.eqb_neq in Hk. rewrite Hk. reflexivity.
  - destruct (String.eqb k0 k) eqn:E; cbn [dict_get].
    + apply String.eqb_eq in E. subst k0.
      apply String.eqb_neq in Hk. rewrite Hk. reflexivity.
    + destruct (String.eqb k0 k'); [reflexivity | exact IH].
Qed.

Lemma dict_factory_from_spec {V} (description : list string) (row : list V) :
  forall idx d,
    (idx + length description <= length row)%nat ->
    exists d',
      dict_factory_from description row idx d = Some d'
      /\ forall name,
          dict_get d' name
          = match last_index name description with
            | Some j => nth_error row (idx + j)
            | None => dict_get d name
            end.
Proof.
  induction description as [|col rest IH]; intros idx d Hlen;
    cbn [dict_factory_from last_index length] in *.
  - exists d. split; [reflexivity|]. reflexivity.
  - destruct (nth_error row idx) as [v|] eqn:Ev.
    + destruct (IH (S idx) (dict_set d col v)) as [d' [E G]]; [lia|].
      exists d'. split; [exact E|]. intros name. rewrite G.
      destruct (last_index name rest) as [j|].
      * f_equal. lia.
      * destruct (String.eqb col name) eqn:Ec.
        -- apply String.eqb_eq in Ec. subst name.
           rewrite dict_get_set_same, Nat.add_0_r. symmetry. exact Ev.
        -- apply dict_get_set_other. apply String.eqb_neq. exact Ec.
    + exfalso. apply nth_error_None in Ev. lia.
Qed.

Lemma dict_factory_from_short {V} (description : list string) (row : list V) :
  forall idx d,
    (idx <= length row)%nat ->
    (length row < idx + length description)%nat ->
    dict_factory_from description row idx d = None.
Proof.
  induction description as [|col rest IH]; intros idx d Hidx Hlen;
    cbn [dict_factory_from length] in *; [lia|].
  destruct (nth_error row idx) as [v|] eqn:Ev; [|reflexivity].
  assert (idx < length row)%nat by (apply nth_error_Some; congruence).
  apply IH; lia.
Qed.

Lemma last_index_NoDup name l i :
  NoDup l -> nth_error l i = Some name -> last_index name l = Some i.
Proof.
  intros Hn. revert i. induction Hn as [|x l Hx Hn IH]; intros i Hi.
  - destruct i; discriminate.
  - cbn [last_index]. destruct i as [|i]; cbn [nth_error] in Hi.
    + injection Hi as ->.
      destruct (last_index name l) as [j|] eqn:E.
      * exfalso. apply Hx. clear - E.
        revert j E. induction l as [|y l IHl]; intros j E; [discriminate|].
        cbn [last_index] in E. destruct (last_index name l) as [j'|].
        -- right. eapply IHl. reflexivity.
        -- destruct (String.eqb y name) eqn:Ey; [|discriminate].
           apply String.eqb_eq in Ey. left. exact Ey.
      * rewrite String.eqb_refl. reflexivity.
    + rewrite (IH i Hi). reflexivity.
Qed.

(** X17: dict_factory needs a row at least as long as the description and
    raises otherwise; the dict it returns maps a column name to the value at
    the last position of that name, and answers no other key.  With
    distinct column names every name maps to the value at its own
    position. *)
Theorem dict_factory_maps_names_to_values :
  forall (V : Type) (description : list string) (row : list V),
    ((length row < length description)%nat ->
     dict_factory description row = None)
    /\ ((length description <= length row)%nat ->
        exists d,
          dict_factory description row = Some d
          /\ (forall name,
                dict_get d name
                = match last_index name description with
                  | Some j => nth_error row j
                  | None => None
                  end)
          /\ (NoDup description ->
              forall i name, nth_error description i = Some name ->
                             dict_get d name = nth_error row i)).
Proof.
  intros V description row. split.
  - intros Hlen. apply dict_factory_from_short; [lia | simpl; exact Hlen].
  - intros Hlen.
    destruct (dict_factory_from_spec description row 0 []) as [d [E G]];
      [simpl; exact Hlen|].
    exists d. split; [exact E|]. split.
    + intros name. rewrite G. destruct (last_index name description); reflexivity.
    + intros Hn i name Hi. rewrite G, (last_index_NoDup name description i Hn Hi).
      reflexivity.
Qed.

(** ** Listing the subscriptions *)

Lemma filter_unique_where (l : list subscriptions_row) (r : subscriptions_row) :
  NoDup (map s_where l) -> In r l ->
  filter (fun x => String.eqb (s_where x) (s_where r)) l = [r].
Proof.
  induction l as [|x l IH]; intros Hn Hr; [destruct Hr|].
  cbn [map] in Hn. inversion Hn as [|? ? Hx Hl]; subst. cbn [filter].
  destruct Hr as [->|Hr].
  - rewrite String.eqb_refl. f_equal. apply filter_none.
    intros y Hy. apply String.eqb_neq. intros E. apply Hx.
    rewrite <- E. apply in_map. exact Hy.
  - assert (E : String.eqb (s_where x) (s_where r) = false).
    { apply String.eqb_neq. intros E. apply Hx. rewrite E. apply in_map. exact Hr. }
    rewrite E. apply IH; assumption.
Qed.

(** X18: on an open session whose subscriptions table has one row per
    where, getSubscriptions returns one subscription per row, each with
    wants True or False, and a subscription is in the list exactly when
    getSubscription of its where returns it. *)
Theorem getSubscriptions_lists_what_getSubscription_finds :
  forall (u : option string) (c : Connection) (ev : list Event),
    NoDup (map s_where (subscriptions c)) ->
    exists l,
      getSubscriptions (open_on u c ev) = (Ok l, open_on u c ev)
      /\ length l = length (subscriptions c)
      /\ (forall sub, In sub l -> exists b, wants sub = Some b)
      /\ (forall sub, In sub l
                      <-> getSubscription (sub_where sub) (open_on u c ev)
                          = (Ok (Some sub), open_on u c ev)).
Proof.
  intros u c ev Hn. rewrite getSubscriptions_open. eexists.
  split; [reflexivity|]. split; [apply length_map|]. split.
  - intros sub Hs. apply in_map_iff in Hs. destruct Hs as [r [<- _]].
    eexists. reflexivity.
  - intros sub. rewrite getSubscription_open. split.
    + intros Hs. apply in_map_iff in Hs. destruct Hs as [r [<- Hr]].
      cbn [_createSubscriptionFromResult sub_where].
      rewrite (filter_unique_where _ r Hn Hr). reflexivity.
    + intros E.
      destruct (filter _ (subscriptions c)) as [|r rest] eqn:F; [discriminate|].
      injection E as <-. apply in_map.
      assert (Hr : In r (filter (fun x => String.eqb (s_where x)
                                             (sub_where (_createSubscriptionFromResult r)))
                                (subscriptions c))).
      { rewrite F. left. reflexivity. }
      apply filter_In in Hr. tauto.
Qed.

End Column.

(** * The properties at concrete stores *)

(** The stores below are evaluated with the who column of names and integer
    literals. *)
#[local] Existing Instance names_column.
Local Open Scope list_scope.

(** ** The operations on concrete stores *)

(** C1: bob's edit stored at second 100 and alice's edit of the same
    (what, where, info) stored at second 200 while the first is unseen: one
    event is read back, of second 100, and its only actor is bob; alice's
    actor row was written under second 200.  With alice's edit at second 100
    the actors read back are bob and alice, in some order. *)
Theorem storeNotification_merge_at_other_timestamp_drops_actors :
  forall (fk : bool) (u : option string),
    (exists e,
        fst (getAllNotifications
               (after_all [StoreNotification (edit 100 ["bob"]);
                           StoreNotification (edit 200 ["alice"])]
                          (open_on u (empty_store fk) [])))
        = Ok [e]
        /\ when e = 100 /\ who e = ["bob"])
    /\ (exists e,
        fst (getAllNotifications
               (after_all [StoreNotification (edit 100 ["bob"]);
                           StoreNotification (edit 100 ["alice"])]
                          (open_on u (empty_store fk) [])))
        = Ok [e]
        /\ when e = 100 /\ Permutation (who e) ["bob"; "alice"]).
Proof.
  intros [|] u; split; vm_compute; eexists;
    (split; [reflexivity|]); (split; [reflexivity|]);
    try reflexivity; apply perm_swap.
Qed.

(** The merge can reach a seen event: with the seen event of second 100 and
    an unseen one of second 200 stored, carol's edit of second 100 finds the
    unseen row as merge candidate and her actor row is written under second
    100, the key of the seen event. *)
Lemma storeNotification_merge_reaches_seen_event :
  forall fk : bool,
    fst (getAllNotifications
           (after (StoreNotification (edit 100 ["carol"]))
                  (open_on None (seen_and_unseen fk) [])))
    = Ok [ {| what := "edited"; where_ := "/a"; when := 200; who := ["dan"];
              user := None; gatherer := "history"; seen := false; info := tt |};
           {| what := "edited"; where_ := "/a"; when := 100;
              who := ["bob"; "carol"];
              user := None; gatherer := "history"; seen := true; info := tt |} ].
Proof. intros [|]; vm_compute; reflexivity. Qed.

(** The who column stores '7' and '007' as one value: storing an edit by 7,
    007 and bob in an empty store stops at the second actor, whose insert
    is refused, and leaves the actor 7 alone; storing the same edit again
    finds the row as merge candidate and adds bob. *)
Lemma storeNotification_stops_at_actors_stored_alike :
  forall fk : bool,
    stored_actors
      (after (StoreNotification (edit 100 ["7"; "007"; "bob"]))
             (open_on None (empty_store fk) []))
    = ["7"]
    /\ stored_actors
         (after_all [StoreNotification (edit 100 ["7"; "007"; "bob"]);
                     StoreNotification (edit 100 ["7"; "007"; "bob"])]
                    (open_on None (empty_store fk) []))
       = ["7"; "bob"].
Proof. intros [|]; split; vm_compute; reflexivity. Qed.

(** C5: with events under /a_b, /axb, /A_B and /c stored, saving the
    subscription (/a_b, False) or revoking it leaves only the event under /c,
    although /axb/y and /A_B/z do not start with /a_b. *)
Theorem saveSubscription_deletes_beyond_the_prefix :
  forall (fk : bool) (u : option string),
    String.prefix "/a_b" "/axb/y" = false
    /\ String.prefix "/a_b" "/A_B/z" = false
    /\ stored_wheres
         (snd (saveSubscription {| sub_where := "/a_b"; wants := Some false |}
                                (open_on u (four_paths fk) [])))
       = ["/c"]
    /\ stored_wheres
         (snd (saveSubscription {| sub_where := "/a_b"; wants := None |}
                                (open_on u (four_paths fk) [])))
       = ["/c"].
Proof.
  intros [|] u; repeat split; vm_compute; reflexivity.
Qed.

(** Storing a notification without actors in an empty store leaves a
    notification row and no actor row (against C4 as stated). *)
Lemma storeNotification_without_actors_persists_a_row :
  every_notification_has_actor (open_on None (empty_store false) [])
  /\ who (edit 100 []) = []
  /\ self_db (after (StoreNotification (edit 100 []))
                    (open_on None (empty_store false) []))
     = Some {| foreign_keys := false;
               notifications := [stored "/a" 100 false];
               notifications_who := [];
               subscriptions := [] |}
  /\ ~ every_notification_has_actor
        (after (StoreNotification (edit 100 []))
               (open_on None (empty_store false) [])).
Proof.
  split; [|split; [|split]].
  - intros c [= <-] n [].
  - reflexivity.
  - vm_compute. reflexivity.
  - intros I.
    destruct (I _ eq_refl (stored "/a" 100 false)) as [w [[] _]].
    vm_compute. left. reflexivity.
Qed.

Lemma every_notification_has_actor_invariant_witness :
  Forall stores_actors
         [StoreNotification (edit 100 ["bob"]); SetSeen None;
          StoreNotification (edit 200 ["alice"]);
          RemoveNotification (edit 100 [])]
  /\ every_notification_has_actor (open_on None (empty_store true) [])
  /\ every_notification_has_actor
       (after_all [StoreNotification (edit 100 ["bob"]); SetSeen None;
                   StoreNotification (edit 200 ["alice"]);
                   RemoveNotification (edit 100 [])]
                  (open_on None (empty_store true) [])).
Proof.
  assert (F : Forall stores_actors
                [StoreNotification (edit 100 ["bob"]); SetSeen None;
                 StoreNotification (edit 200 ["alice"]);
                 RemoveNotification (edit 100 [])]).
  { repeat constructor; simpl; discriminate. }
  assert (I : every_notification_has_actor (open_on None (empty_store true) [])).
  { intros c [= <-] n []. }
  split; [exact F|]. split; [exact I|].
  exact (every_notification_has_actor_invariant _ _ F I).
Defined.

(** After bob's edit of second 100 was seen, storing the same edit of second
    100 again creates nothing: the store holds the seen event alone (against
    C6 as stated). *)
Lemma storeNotification_same_timestamp_after_seen_creates_nothing :
  In (stored "/a" 100 true) (notifications (one_seen false))
  /\ n_what (stored "/a" 100 true) = what (edit 100 ["alice"])
  /\ n_where (stored "/a" 100 true) = where_ (edit 100 ["alice"])
  /\ n_info (stored "/a" 100 true) = Some (json_dumps (info (edit 100 ["alice"])))
  /\ storeNotification (edit 100 ["alice"]) (open_on None (one_seen false) [])
     = (Ok tt, open_on None (one_seen false) [])
  /\ ~ exists r, In r (notifications (one_seen false)) /\ n_seen r = false.
Proof.
  repeat split; try (left; reflexivity).
  intros [r [[<-|[]] Hs]]. discriminate.
Qed.

Lemma storeNotification_seen_event_is_not_merged_into_witness :
  exists c',
    storeNotification (edit 200 ["alice"]) (open_on None (one_seen false) [])
    = (Ok tt, open_on None c' [])
    /\ notifications c'
       = notifications (one_seen false) ++ [notifications_row_of (edit 200 ["alice"])]
    /\ n_seen (notifications_row_of (edit 200 ["alice"])) = seen (edit 200 ["alice"])
    /\ forall r, In r (notifications (one_seen false)) ->
                 partners c' r = partners (one_seen false) r.
Proof.
  destruct (storeNotification_seen_event_is_not_merged_into
              None (one_seen false) [] (edit 200 ["alice"]))
    as (_ & Hfree & _).
  - intros r [<-|[]] _ _ _. reflexivity.
  - apply Hfree. intros r [<-|[]]. discriminate.
Defined.

(** With six events stored, the one without actors is the oldest and is not
    among the five that getHotNotifications returns (against C8 as stated). *)
Lemma actorless_event_ranked_sixth_is_not_hot :
  In (stored "/old" 1 false) (notifications (six_events false))
  /\ partners (six_events false) (stored "/old" 1 false) = []
  /\ exists l : list (Notification unit),
      getHotNotifications (open_on None (six_events false) [])
      = (Ok l, open_on None (six_events false) [])
      /\ forall e, In e l -> event_key e <> n_key (stored "/old" 1 false).
Proof.
  split; [left; reflexivity|]. split; [reflexivity|].
  eexists. split; [vm_compute; reflexivity|].
  intros e He.
  repeat (destruct He as [<-|He]; [discriminate|]). destruct He.
Qed.

Lemma actorless_event_not_in_all_and_in_hot_unless_five_rank_before_witness :
  (exists l : list (Notification unit),
      getAllNotifications (open_on None (six_events false) [])
      = (Ok l, open_on None (six_events false) [])
      /\ forall e, In e l -> event_key e <> n_key (stored "/old" 1 false))
  /\ exists (l before rest : list (Notification unit)) (e : Notification unit),
      getHotNotifications (open_on None (six_events false) [])
      = (Ok l, open_on None (six_events false) [])
      /\ l = firstn 5 (before ++ e :: rest)
      /\ StronglySorted hot_before (before ++ e :: rest)
      /\ NoDup (map event_key (before ++ e :: rest))
      /\ (forall k, (exists e', In e' (before ++ e :: rest) /\ event_key e' = k)
                    <-> (exists n, In n (notifications (six_events false))
                                   /\ n_key n = k))
      /\ event_key e = n_key (stored "/old" 1 false)
      /\ who e = []
      /\ ((length before < 5)%nat -> In e l)
      /\ ((5 <= length before)%nat ->
          l = firstn 5 before
          /\ forall e', In e' l -> event_key e' <> n_key (stored "/old" 1 false))
      /\ ((length (notifications (six_events false)) <= 5)%nat -> In e l).
Proof.
  apply (actorless_event_not_in_all_and_in_hot_unless_five_rank_before
           (Info := unit) None (six_events false) [] (stored "/old" 1 false)).
  - left. reflexivity.
  - reflexivity.
Defined.

(** ** The further properties at concrete stores *)

Lemma storeNotification_then_removeNotification_restores_witness :
  exists c1 c2,
    storeNotification (edit 200 ["alice"]) (open_on None (one_seen true) [])
    = (Ok tt, open_on None c1 [])
    /\ removeNotification (edit 200 ["alice"]) (open_on None c1 [])
       = (Ok tt, open_on None c2 [])
    /\ In (notifications_row_of (edit 200 ["alice"])) (notifications c1)
    /\ notifications c2 = notifications (one_seen true)
    /\ subscriptions c2 = subscriptions (one_seen true)
    /\ (foreign_keys (one_seen true) = true ->
        (forall w, In w (notifications_who (one_seen true)) ->
                   w_key w <> store_key (edit 200 ["alice"])) ->
        c2 = one_seen true).
Proof.
  apply (storeNotification_then_removeNotification_restores
           None (one_seen true) [] (edit 200 ["alice"])).
  - reflexivity.
  - intros r [<-|[]]. discriminate.
Defined.

Lemma storeNotification_twice_is_once_witness :
  exists c1,
    storeNotification (edit 200 ["alice"; "bob"]) (open_on None (one_seen false) [])
    = (Ok tt, open_on None c1 [])
    /\ storeNotification (edit 200 ["alice"; "bob"]) (open_on None c1 [])
       = (Ok tt, open_on None c1 []).
Proof.
  apply (storeNotification_twice_is_once
           None (one_seen false) [] (edit 200 ["alice"; "bob"])).
  - repeat constructor; simpl; intuition discriminate.
  - intros w [<-|[]] E. discriminate E.
Defined.

Lemma storeNotification_then_getAllNotifications_reads_it_back_witness :
  exists c1 l e,
    storeNotification (edit 200 ["bob"; "alice"])
                      (open_on (Some "carol") (one_seen false) [])
    = (Ok tt, open_on (Some "carol") c1 [])
    /\ getAllNotifications (open_on (Some "carol") c1 [])
       = (Ok l, open_on (Some "carol") c1 [])
    /\ In e l
    /\ what e = "edited" /\ where_ e = "/a" /\ when e = 200
    /\ Permutation (who e) ["bob"; "alice"]
    /\ user e = Some "carol" /\ gatherer e = "history" /\ seen e = false
    /\ info e = tt.
Proof.
  refine (storeNotification_then_getAllNotifications_reads_it_back
            (Some "carol") (one_seen false) [] (edit 200 ["bob"; "alice"])
            _ _ _ _ _ _).
  - reflexivity.
  - intros r [<-|[]]. discriminate.
  - intros w [<-|[]]. discriminate.
  - repeat constructor; simpl; intuition discriminate.
  - discriminate.
  - intros a [<-|[<-|[]]]; reflexivity.
Defined.

Lemma store_path_per_user_witness :
  String.prefix "/" "bob" = false
  /\ path_join (Some "/var/whathappened") ("bob" ++ ".sqlite")
     = Ok "/var/whathappened/bob.sqlite"
  /\ "bob" = "bob".
Proof.
  split; [reflexivity|]. split; [reflexivity|].
  apply (store_path_per_user "/var/whathappened" "bob" "bob"
           "/var/whathappened/bob.sqlite"); reflexivity.
Defined.

Lemma getSubscriptions_lists_what_getSubscription_finds_witness :
  exists l,
    getSubscriptions
      (open_on None (set_subscriptions (empty_store false)
                       [ {| s_where := "/a"; s_wants := Some true |};
                         {| s_where := "/b"; s_wants := Some false |} ]) [])
    = (Ok l, open_on None (set_subscriptions (empty_store false)
                             [ {| s_where := "/a"; s_wants := Some true |};
                               {| s_where := "/b"; s_wants := Some false |} ]) [])
    /\ length l = 2%nat.
Proof.
  destruct (getSubscriptions_lists_what_getSubscription_finds
              None (set_subscriptions (empty_store false)
                      [ {| s_where := "/a"; s_wants := Some true |};
                        {| s_where := "/b"; s_wants := Some false |} ]) [])
    as (l & E & L & _).
  - repeat constructor; simpl; intuition discriminate.
  - exists l. split; [exact E | exact L].
Defined.
